(** * doped: defect generation ([doped/generation.py]) and chemical-potential
    interpolation, as a shallow embedding.

    Python values are modelled as follows.
    - [int] is [Z]; a float that only carries an oxidation state, an energy
      or a fractional coordinate is an exact rational [Q].
    - [str] is [string]; [dict] is an insertion-ordered association list
      ([PyDict]), since the generator iterates over its dictionaries and the
      order of iteration is observable.
    - a statement that can raise returns a [result]; a method that mutates
      [self] returns the new object together with its outcome. *)

From Stdlib Require Import ZArith QArith Qround List String Ascii Bool Lia.
From Stdlib Require Import DecimalString DecimalZ.
Import ListNotations.

Local Open Scope string_scope.
Local Open Scope Z_scope.

Set Implicit Arguments.

(** ** Exceptions and the error monad *)

Inductive Exc : Type :=
| TypeError (msg : string)
| ValueError (msg : string)
| KeyError (key : string)
| IndexError
| AttributeError (msg : string).

Inductive result (A : Type) : Type :=
| Ok (a : A)
| Raise (e : Exc).

Arguments Ok {A} a.
Arguments Raise {A} e.

Definition bind {A B} (m : result A) (k : A -> result B) : result B :=
  match m with
  | Ok a => k a
  | Raise e => Raise e
  end.

Notation "x <- m ;; k" := (bind m (fun x => k))
  (at level 61, m at next level, right associativity).
Notation "' pat <- m ;; k" := (bind m (fun x => match x with pat => k end))
  (at level 61, pat pattern, m at next level, right associativity).

Definition is_ok {A} (r : result A) : bool :=
  match r with Ok _ => true | Raise _ => false end.

(** [for x in xs: acc = body(acc, x)], stopping at the first exception. *)
Fixpoint for_each {A S} (body : S -> A -> result S) (xs : list A) (s : S)
  : result S :=
  match xs with
  | [] => Ok s
  | x :: xs' => s' <- body s x ;; for_each body xs' s'
  end.

(** ** Python strings *)

Module PyStr.

(** [s.startswith(p)] *)
Definition startswith (s p : string) : bool := String.prefix p s.

(** [s.endswith(suf)] *)
Fixpoint endswith (s suf : string) : bool :=
  if String.eqb s suf then true
  else match s with
       | EmptyString => false
       | String _ s' => endswith s' suf
       end.

(** [s[:-1]] *)
Fixpoint drop_last (s : string) : string :=
  match s with
  | EmptyString => EmptyString
  | String _ EmptyString => EmptyString
  | String a s' => String a (drop_last s')
  end.

(** The text after the last occurrence of [c], when [c] occurs. *)
Fixpoint after_last (c : ascii) (s : string) : option string :=
  match s with
  | EmptyString => None
  | String a s' =>
      match after_last c s' with
      | Some r => Some r
      | None => if Ascii.eqb a c then Some s' else None
      end
  end.

(** The text before the last occurrence of [c], when [c] occurs. *)
Fixpoint before_last (c : ascii) (s : string) : option string :=
  match s with
  | EmptyString => None
  | String a s' =>
      match before_last c s' with
      | Some r => Some (String a r)
      | None => if Ascii.eqb a c then Some EmptyString else None
      end
  end.

(** [c] does not occur in [s]. *)
Definition lacks (c : ascii) (s : string) : Prop := after_last c s = None.

(** [s.rsplit(c, 1)[-1]] *)
Definition rsplit_last (c : ascii) (s : string) : string :=
  match after_last c s with Some r => r | None => s end.

(** [s.rsplit(c, 1)[0]] *)
Definition rsplit_head (c : ascii) (s : string) : string :=
  match before_last c s with Some r => r | None => s end.

(** [str(z)], also the rendering of [z] in an f-string. *)
Definition str (z : Z) : string := NilZero.string_of_int (Z.to_int z).

(** [int(s)] for an optional sign followed by decimal digits; anything
    else is a [ValueError].  (Python also accepts surrounding blanks and
    digit-group underscores, which no name built here contains.) *)
Definition int (s : string) : result Z :=
  let parsed :=
    match s with
    | String "+"%char s' =>
        option_map (fun u => Z.of_int (Decimal.Pos u)) (NilZero.uint_of_string s')
    | _ => option_map Z.of_int (NilZero.int_of_string s)
    end in
  match parsed with
  | Some z => Ok z
  | None => Raise (ValueError "invalid literal for int()")
  end.

(** [f"{'+' if charge > 0 else ''}{charge}"] *)
Definition signed (charge : Z) : string :=
  (if charge >? 0 then "+" else "") ++ str charge.

End PyStr.

(** ** Python dictionaries with string keys *)

Module PyDict.

Definition t (V : Type) : Type := list (string * V).

Section Ops.
Context {V : Type}.

Definition empty : t V := [].

(** [d.get(k)] / [d[k]] *)
Fixpoint get (d : t V) (k : string) : option V :=
  match d with
  | [] => None
  | (k', v) :: d' => if String.eqb k' k then Some v else get d' k
  end.

(** [k in d] *)
Definition mem (d : t V) (k : string) : bool :=
  match get d k with Some _ => true | None => false end.

(** [d[k] = v]: an existing key keeps its position, a new key goes last. *)
Fixpoint set (d : t V) (k : string) (v : V) : t V :=
  match d with
  | [] => [(k, v)]
  | (k', v') :: d' =>
      if String.eqb k' k then (k', v) :: d' else (k', v') :: set d' k v
  end.

(** The list left after removing key [k]. *)
Fixpoint remove (d : t V) (k : string) : t V :=
  match d with
  | [] => []
  | (k', v') :: d' =>
      if String.eqb k' k then d' else (k', v') :: remove d' k
  end.

(** [del d[k]] *)
Definition del (d : t V) (k : string) : result (t V) :=
  if mem d k then Ok (remove d k) else Raise (KeyError k).

(** [d[k]] *)
Definition getitem (d : t V) (k : string) : result V :=
  match get d k with
  | Some v => Ok v
  | None => Raise (KeyError k)
  end.

Definition keys (d : t V) : list string := map fst d.
Definition values (d : t V) : list V := map snd d.

(** [d.get(k, default)] *)
Definition get_default (d : t V) (k : string) (default : V) : V :=
  match get d k with Some v => v | None => default end.

(** Keys are pairwise distinct: what every Python dict satisfies. *)
Definition wf (d : t V) : Prop := NoDup (keys d).

End Ops.

End PyDict.

(** [range(a, b)] *)
Definition py_range (a b : Z) : list Z :=
  map (fun i => a + Z.of_nat i) (seq 0 (Z.to_nat (b - a))).


(** ** Data model (pymatgen objects as the generator reads them) *)

(** Fractional coordinates of a site. *)
Definition Coords : Type := (Q * Q * Q)%type.

(** A site of a periodic structure; [species_symbol] is
    [site.species.elements[0].symbol]. *)
Record PeriodicSite : Type := {
  species_symbol : string;
  frac_coords : Coords
}.

Record Structure : Type := {
  lattice : list (list Q);
  sites : list PeriodicSite
}.

(** The 3x3 integer supercell transformation matrix. *)
Definition Matrix : Type := list (list Z).

Inductive DefectType : Type := Vacancy | Substitution | Interstitial | Other.

Record Defect : Type := {
  defect_type : DefectType;
  structure : Structure;
  site : PeriodicSite;
  multiplicity : Z;
  defect_site_index : Z;
  oxi_state : Q;
  defect_name : string
}.

Record ComputedStructureEntry : Type := {
  entry_structure : Structure;
  energy : Q
}.

(** [name] is the attribute set after creation; [None] while it is unset. *)
Record DefectEntry : Type := {
  defect : Defect;
  charge_state : Z;
  sc_entry : ComputedStructureEntry;
  sc_defect_frac_coords : Coords;
  name : option string
}.

(** [defect_entry.name = n] *)
Definition set_name (e : DefectEntry) (n : string) : DefectEntry :=
  {| defect := defect e; charge_state := charge_state e;
     sc_entry := sc_entry e;
     sc_defect_frac_coords := sc_defect_frac_coords e;
     name := Some n |}.

(** The [DefectsGenerator] object: its four attributes. *)
Record DefectsGenerator : Type := {
  defects : PyDict.t (list Defect);
  defect_entries : PyDict.t DefectEntry;
  primitive_structure : Structure;
  supercell_matrix : Matrix
}.

(** A value handed to [__setitem__]: a [DefectEntry], or an object of
    another type (known by its type name). *)
Inductive PyObj : Type :=
| ObjDefectEntry (e : DefectEntry)
| ObjOther (type_name : string).

(** A keyword argument value. *)
Inductive KwVal : Type :=
| KwInt (z : Z)
| KwFloat (q : Q)
| KwBool (b : bool).

(** The [extrinsic] argument: a string, a list, a dict whose values are
    strings or lists, or anything else. *)
Inductive Extrinsic : Type :=
| ExtStr (el : string)
| ExtList (els : list string)
| ExtDict (d : PyDict.t (string + list string))
| ExtOther (type_name : string).

(** A value of the record built by [as_dict], or an item of a generator. *)
Inductive PyVal : Type :=
| VStr (s : string)
| VDefects (d : PyDict.t (list Defect))
| VEntries (d : PyDict.t DefectEntry)
| VStructure (s : Structure)
| VMatrix (m : Matrix)
| VEntry (e : DefectEntry).

(** What [process_decoded] returns for a dict: a dict again, or, for a
    record that carries the tags of a class, the object that the class
    builds from it. *)
Inductive Decoded : Type :=
| DecDict (d : PyDict.t PyVal)
| DecObject (obj : DefectsGenerator).

(** Calls to the supercell routines, in the order they are made. *)
Inductive Call : Type :=
| CallScFromStruct (s : Structure) (min_atoms max_atoms min_length force_diagonal : KwVal)
| CallSupercellStructure (d : Defect) (sc_mat : Matrix) (dummy_species : string).

(** ** The libraries the generator calls

    The symmetry analysis, the defect enumerators, the supercell routines,
    the object comparisons and the record decoder belong to pymatgen, monty
    and ShakeNBreak.  They are parameters of the development.  A generator
    may annotate the structure it is given in place, so each one returns the
    structure as it is after the call. *)
Class Libraries : Type := {
  (** [Structure.__eq__] *)
  structure_eqb : Structure -> Structure -> bool;
  (** [ComputedStructureEntry.__eq__] *)
  sc_entry_eqb : ComputedStructureEntry -> ComputedStructureEntry -> bool;
  (** [Defect.__eq__] *)
  defect_eqb : Defect -> Defect -> bool;
  (** [PeriodicSite.__eq__] *)
  site_eqb : PeriodicSite -> PeriodicSite -> bool;
  (** [SpacegroupAnalyzer(structure, symprec=1e-2).get_primitive_standard_structure()] *)
  get_primitive_standard_structure : Structure -> Structure;
  (** [Structure.from_dict(_round_floats(s.as_dict()))]: rounding of floats
      to 5 decimals. *)
  round_floats : Structure -> Structure;
  (** [[el.symbol for el in s.composition.elements]] *)
  composition_elements : Structure -> list string;
  vacancy_generate : Structure -> list Defect * Structure;
  antisite_generate : Structure -> list Defect * Structure;
  substitution_generate :
    Structure -> PyDict.t (string + list string) -> list Defect * Structure;
  interstitial_generate :
    Structure -> PyDict.t (list Coords) -> list Defect * Structure;
  voronoi_interstitial_generate :
    Structure -> list string -> list Defect * Structure;
  (** [s.remove_oxidation_states()] *)
  remove_oxidation_states : Structure -> Structure;
  get_sc_fromstruct : Structure -> KwVal -> KwVal -> KwVal -> KwVal -> Matrix;
  (** [defect.get_supercell_structure(sc_mat=..., dummy_species=...)] *)
  get_supercell_structure : Defect -> Matrix -> string -> Structure;
  _get_defect_name_from_obj : Defect -> string;
  (** [MontyDecoder().process_decoded(d)]; it can raise, since it calls the
      [from_dict] of the class that a record is tagged with. *)
  process_decoded : PyDict.t PyVal -> result Decoded
}.

(** ** [doped/generation.py] *)

Section Generation.
Context {L : Libraries}.

(** The first site whose species is the dummy species, with its position:
    [[site for site in s if site.species.elements[0].symbol == dummy][0]]. *)
Fixpoint find_dummy_site (dummy_species : string) (l : list PeriodicSite)
  : option (nat * PeriodicSite) :=
  match l with
  | [] => None
  | s :: l' =>
      if String.eqb (species_symbol s) dummy_species then Some (O, s)
      else match find_dummy_site dummy_species l' with
           | Some (i, x) => Some (S i, x)
           | None => None
           end
  end.

(** A site of another species than the dummy species. *)
Definition unmarked (dummy_species : string) (s : PeriodicSite) : Prop :=
  species_symbol s <> dummy_species.

(** [structure.remove(value)]: the first site that is [value] (the object
    at position [pos]) or compares equal to it is deleted; [ValueError]
    when there is none. *)
Fixpoint remove_site (l : list PeriodicSite) (pos : nat) (value : PeriodicSite)
  : result (list PeriodicSite) :=
  match l with
  | [] => Raise (ValueError "list.remove(x): x not in list")
  | s :: l' =>
      if (Nat.eqb pos 0 || site_eqb s value)%bool then Ok l'
      else (r <- remove_site l' (Nat.pred pos) value ;; Ok (s :: r))
  end.

(** [get_defect_entry_from_defect(defect, defect_supercell, charge_state,
    dummy_species)].  The argument is copied before it is edited, so the
    caller's [defect_supercell] is the same before and after. *)
Definition get_defect_entry_from_defect (d : Defect)
  (defect_supercell : Structure) (charge : Z) (dummy_species : string)
  : result DefectEntry :=
  let defect_entry_structure := defect_supercell in
  match find_dummy_site dummy_species (sites defect_entry_structure) with
  | None => Raise IndexError
  | Some (pos, dummy_site) =>
      let coords := frac_coords dummy_site in
      remaining <- remove_site (sites defect_entry_structure) pos dummy_site ;;
      let computed_structure_entry :=
        {| entry_structure :=
             {| lattice := lattice defect_entry_structure; sites := remaining |};
           energy := 0%Q |} in
      Ok {| defect := d; charge_state := charge;
            sc_entry := computed_structure_entry;
            sc_defect_frac_coords := coords;
            name := None |}
  end.

(** [_defect_dict_key_from_pmg_type(defect_type)] *)
Definition _defect_dict_key_from_pmg_type (ty : DefectType) : string :=
  match ty with
  | Vacancy => "vacancies"
  | Substitution => "substitutions"
  | Interstitial => "interstitials"
  | Other => "others"
  end.

(** [int(x)] of a float: truncation toward zero. *)
Definition int_of_float (x : Q) : Z := Z.quot (Qnum x) (Z.pos (Qden x)).

Definition Qlt_bool (x y : Q) : bool := negb (Qle_bool y x).

(** The charge states of a defect, from its oxidation state
    ([__init__], "set defect charge states"). *)
Definition charge_states (oxi : Q) : list Z :=
  if Qlt_bool 0 oxi then py_range (-1) (int_of_float oxi + 1)
  else if Qlt_bool oxi 0 then py_range (int_of_float oxi) 2
  else [-1; 0; 1].

(** *** Naming helper of ShakeNBreak *)

Definition letters : list ascii := list_ascii_of_string "abcdefghijklmnopqrstuvwxyz".

Definition lettered (base : string) (c : ascii) : string :=
  base ++ String c EmptyString.

(** The last letter [c] for which [base ++ c] is registered. *)
Definition last_letter (V : Type) (reg : PyDict.t V) (base : string) : option ascii :=
  fold_left
    (fun acc c => if PyDict.mem reg (lettered base c) then Some c else acc)
    letters None.

Definition next_letter (c : ascii) : ascii := ascii_of_nat (S (nat_of_ascii c)).

(** Modelled from the spec: [_update_defect_dict] of ShakeNBreak, which is
    not part of this repository (naming algorithm, steps 2 to 4).  A base
    name not seen before is registered and used as it is.  A base name seen
    once, without a letter, moves its registration to [base ++ "a"] and the
    new placement gets [base ++ "b"].  A base name already seen with letters
    gets the letter after the last one.  The result is the name chosen and
    the updated registry. *)
Definition _update_defect_dict (defect_entry : DefectEntry)
  (base : string) (reg : PyDict.t DefectEntry) : string * PyDict.t DefectEntry :=
  match PyDict.get reg base with
  | Some prev =>
      let reg := PyDict.set (PyDict.remove reg base) (lettered base "a") prev in
      let new_name := lettered base "b" in
      (new_name, PyDict.set reg new_name defect_entry)
  | None =>
      match last_letter reg base with
      | Some c =>
          let new_name := lettered base (next_letter c) in
          (new_name, PyDict.set reg new_name defect_entry)
      | None => (base, PyDict.set reg base defect_entry)
      end
  end.

(** *** [DefectsGenerator.__init__]: generation of the entries *)

(** The variables of [__init__] that the loop over the defects of one kind
    reads and writes: [self.defect_entries], [defect_naming_dict], and the
    calls made so far. *)
Record GenState : Type := {
  st_entries : PyDict.t DefectEntry;
  st_naming : PyDict.t DefectEntry;
  st_calls : list Call
}.

(** One round of the loop that renames the stored entries of the first
    defect of a base name.  [acc] holds [self.defect_entries] and the local
    variable [charge], which this loop assigns; [item] comes from
    [self.defect_entries.copy().items()].  Every entry object is stored
    under one key only, so [defect_entry_a.name = ...] followed by the
    reinsertion is the insertion of the renamed record. *)
Definition rename_step (defect_name_wout_charge : string)
  (acc : PyDict.t DefectEntry * Z) (item : string * DefectEntry)
  : result (PyDict.t DefectEntry * Z) :=
  let '(entries, charge) := acc in
  let '(defect_entry_name, defect_entry_a) := item in
  let base := PyStr.drop_last defect_name_wout_charge in
  if PyStr.startswith defect_entry_name (base ++ "_") then
    charge <- PyStr.int (PyStr.rsplit_last "_" defect_entry_name) ;;
    let new_name := base ++ "a_" ++ PyStr.signed charge in
    let defect_entry_a := set_name defect_entry_a new_name in
    let entries := PyDict.set entries new_name defect_entry_a in
    entries <- PyDict.del entries defect_entry_name ;;
    Ok (entries, charge)
  else Ok acc.

(** The body of [for charge in charge_states].  The second component of the
    state is [defect_name_wout_charge] ([None] until the first charge state
    has been handled). *)
Definition charge_body (d : Defect) (defect_supercell : Structure)
  (acc : GenState * option string) (charge : Z)
  : result (GenState * option string) :=
  let '(st, name_wout) := acc in
  defect_entry <- get_defect_entry_from_defect d defect_supercell charge "X" ;;
  '(st, defect_name_wout_charge, charge) <-
    match name_wout with
    | Some n => Ok (st, n, charge)
    | None =>
        let n0 := _get_defect_name_from_obj d in
        let '(n, naming) := _update_defect_dict defect_entry n0 (st_naming st) in
        if PyStr.endswith n "b" then
          '(entries, charge) <-
            for_each (rename_step n) (st_entries st) (st_entries st, charge) ;;
          Ok ({| st_entries := entries; st_naming := naming;
                 st_calls := st_calls st |}, n, charge)
        else
          Ok ({| st_entries := st_entries st; st_naming := naming;
                 st_calls := st_calls st |}, n, charge)
    end ;;
  let defect_name := defect_name_wout_charge ++ "_" ++ PyStr.signed charge in
  let defect_entry := set_name defect_entry defect_name in
  Ok ({| st_entries := PyDict.set (st_entries st) defect_name defect_entry;
         st_naming := st_naming st;
         st_calls := st_calls st |}, Some defect_name_wout_charge).

(** The body of [for defect in defect_list]. *)
Definition process_defect (sc_mat : Matrix) (st : GenState) (d : Defect)
  : result GenState :=
  let defect_supercell := get_supercell_structure d sc_mat "X" in
  let st := {| st_entries := st_entries st; st_naming := st_naming st;
               st_calls := st_calls st ++ [CallSupercellStructure d sc_mat "X"] |} in
  '(st, _) <-
    for_each (charge_body d defect_supercell) (charge_states (oxi_state d))
      (st, None) ;;
  Ok st.

(** The body of [for defect_type, defect_list in self.defects.items()]:
    the naming registry starts empty for every kind. *)
Definition process_kind (sc_mat : Matrix)
  (acc : PyDict.t DefectEntry * list Call) (item : string * list Defect)
  : result (PyDict.t DefectEntry * list Call) :=
  let '(entries, calls) := acc in
  st <- for_each (process_defect sc_mat) (snd item)
          {| st_entries := entries; st_naming := PyDict.empty;
             st_calls := calls |} ;;
  Ok (st_entries st, st_calls st).

Definition generate_entries (sc_mat : Matrix)
  (all_defects : PyDict.t (list Defect)) (calls : list Call)
  : result (PyDict.t DefectEntry * list Call) :=
  for_each (process_kind sc_mat) all_defects (PyDict.empty, calls).

(** *** Vocabulary for the statements about generation *)

(** The name [<base>_<charge>]. *)
Definition undecorated (base : string) (q : Z) : string :=
  base ++ "_" ++ PyStr.signed q.

(** The name [<base><letter>_<charge>]. *)
Definition decorated (base : string) (c : ascii) (q : Z) : string :=
  lettered base c ++ "_" ++ PyStr.signed q.

(** [k] is [<base>_<charge>] for the charge that [int] reads in its last
    field. *)
Definition canonical (base k : string) : bool :=
  match PyStr.int (PyStr.rsplit_last "_" k) with
  | Ok q => String.eqb k (undecorated base q)
  | Raise _ => false
  end.

(** The stored names under [base] are those of one defect, stored without a
    letter: every key that starts with [<base>_] is [<base>_<charge>], and
    no key starts with [<base>a_] or [<base>b_]. *)
Definition stored_without_letter (base : string) (es : PyDict.t DefectEntry)
  : bool :=
  forallb
    (fun k =>
       (implb (PyStr.startswith k (base ++ "_")) (canonical base k)
        && negb (PyStr.startswith k (lettered base "a" ++ "_"))
        && negb (PyStr.startswith k (lettered base "b" ++ "_")))%bool)
    (PyDict.keys es).

(** The supercell of [d] has a site of the dummy species. *)
Definition marked (sc_mat : Matrix) (d : Defect) : Prop :=
  Exists (fun s => species_symbol s = "X")
    (sites (get_supercell_structure d sc_mat "X")).

(** [e] is, its name apart, the entry assembled from its own defect and
    charge state in the supercell that [sc_mat] gives. *)
Definition built_in_cell (sc_mat : Matrix) (e : DefectEntry) : Prop :=
  exists e0 n,
    get_defect_entry_from_defect (defect e)
      (get_supercell_structure (defect e) sc_mat "X") (charge_state e) "X"
      = Ok e0 /\
    e = set_name e0 n.

(** The entry assembled for charge state [q] of [d]. *)
Definition assembled (sc_mat : Matrix) (d : Defect) (q : Z) : result DefectEntry :=
  get_defect_entry_from_defect d (get_supercell_structure d sc_mat "X") q "X".

(** Every stored entry is assembled in the cell of [sc_mat]. *)
Definition all_built (sc_mat : Matrix) (es : PyDict.t DefectEntry) : Prop :=
  Forall (fun ke => built_in_cell sc_mat (snd ke)) es.

(** *** [DefectsGenerator._defect_generator_info]

    The rows of the summary, one list per kind.  The text of the table and
    the sort of the names are left out: the names come from a Python [set],
    so their order is not fixed by the source, and which lookups raise does
    not depend on it. *)

Definition defect_type_eqb (a b : DefectType) : bool :=
  match a, b with
  | Vacancy, Vacancy | Substitution, Substitution
  | Interstitial, Interstitial | Other, Other => true
  | _, _ => false
  end.

Fixpoint map_result {A B} (f : A -> result B) (l : list A) : result (list B) :=
  match l with
  | [] => Ok []
  | x :: l' => y <- f x ;; ys <- map_result f l' ;; Ok (y :: ys)
  end.

Definition InfoRow : Type := (string * list Z * Coords * Z)%type.

Definition info_row (self : DefectsGenerator) (defect_name : string)
  : result InfoRow :=
  charges <-
    map_result (fun n => PyStr.int (PyStr.rsplit_last "_" n))
      (filter (fun n => PyStr.startswith n (defect_name ++ "_"))
         (PyDict.keys (defect_entries self))) ;;
  neutral_defect_entry <-
    PyDict.getitem (defect_entries self) (defect_name ++ "_0") ;;
  Ok (defect_name, charges,
      frac_coords (site (defect neutral_defect_entry)),
      multiplicity (defect neutral_defect_entry)).

Definition info_table (self : DefectsGenerator) (item : string * list Defect)
  : result (string * list InfoRow) :=
  match snd item with
  | [] => Raise IndexError
  | d0 :: _ =>
      let matching_defect_types :=
        filter (fun ne => defect_type_eqb (defect_type (defect (snd ne)))
                            (defect_type d0))
          (defect_entries self) in
      let matching_type_names_wout_charge :=
        nodup string_dec
          (map (fun ne => PyStr.rsplit_head "_" (fst ne)) matching_defect_types) in
      rows <- map_result (info_row self) matching_type_names_wout_charge ;;
      Ok (fst item, rows)
  end.

Definition _defect_generator_info (self : DefectsGenerator)
  : result (list (string * list InfoRow)) :=
  map_result (info_table self) (defects self).

(** *** [DefectsGenerator.__init__] *)

(** [{el: v for el in els}] *)
Definition dict_from_keys {V} (els : list string) (v : V) : PyDict.t V :=
  fold_left (fun acc el => PyDict.set acc el v) els PyDict.empty.

(** [a.update(b)] *)
Definition dict_update {V} (a b : PyDict.t V) : PyDict.t V :=
  fold_left (fun acc kv => PyDict.set acc (fst kv) (snd kv)) b a.

(** The host elements and what may replace them, from [extrinsic]. *)
Definition substitutions_of (extrinsic : Extrinsic) (host_elements : list string)
  : PyDict.t (string + list string) :=
  match extrinsic with
  | ExtStr el => dict_from_keys host_elements (inr [el])
  | ExtList els => dict_from_keys host_elements (inr els)
  | ExtDict d => d
  | ExtOther _ => PyDict.empty
  end.

(** The extrinsic elements to insert as interstitials.  For a dict the
    source takes [list(set(...))]; the model keeps the last occurrence of
    each element. *)
Definition extrinsic_elements_of (extrinsic : Extrinsic) : list string :=
  match extrinsic with
  | ExtStr el => [el]
  | ExtList els => els
  | ExtDict d =>
      nodup string_dec
        (flat_map (fun v => match v with inl el => [el] | inr els => els end)
           (PyDict.values d))
  | ExtOther _ => []
  end.

Definition nonempty {A} (l : list A) : bool :=
  match l with [] => false | _ => true end.

(** [DefectsGenerator(structure, extrinsic, interstitial_coords, **kwargs)].
    The result is the object and the calls made to the supercell routines.
    The progress bar and the printing of the summary have no effect on the
    object; the summary is still computed, since it can raise. *)
Definition __init__ (structure0 : Structure) (extrinsic : Extrinsic)
  (interstitial_coords : list Coords) (kwargs : PyDict.t KwVal)
  : result (DefectsGenerator * list Call) :=
  let prim := round_floats (get_primitive_standard_structure structure0) in
  let '(vacancies, prim) := vacancy_generate prim in
  let all_defects := PyDict.set PyDict.empty "vacancies" vacancies in
  let '(antisites, prim) := antisite_generate prim in
  let all_defects := PyDict.set all_defects "substitutions" antisites in
  let substitutions := substitutions_of extrinsic (composition_elements prim) in
  let '(all_defects, prim) :=
    if nonempty substitutions then
      let '(subs, prim) := substitution_generate prim substitutions in
      match PyDict.get all_defects "substitutions" with
      | Some l => (PyDict.set all_defects "substitutions" (l ++ subs)%list, prim)
      | None => (PyDict.set all_defects "substitutions" subs, prim)
      end
    else (all_defects, prim) in
  let prim := remove_oxidation_states prim in
  let extrinsic_elements := extrinsic_elements_of extrinsic in
  let '(interstitials, prim) :=
    if nonempty interstitial_coords then
      let insertions :=
        dict_update
          (dict_from_keys (composition_elements prim) interstitial_coords)
          (dict_from_keys extrinsic_elements interstitial_coords) in
      interstitial_generate prim insertions
    else
      voronoi_interstitial_generate prim
        (composition_elements prim ++ extrinsic_elements)%list in
  let all_defects := PyDict.set all_defects "interstitials" interstitials in
  let min_atoms := PyDict.get_default kwargs "min_atoms" (KwInt 50) in
  let max_atoms := PyDict.get_default kwargs "max_atoms" (KwInt 240) in
  let min_length := PyDict.get_default kwargs "min_length" (KwInt 10) in
  let force_diagonal := PyDict.get_default kwargs "force_diagonal" (KwBool false) in
  let sc_mat := get_sc_fromstruct prim min_atoms max_atoms min_length force_diagonal in
  let calls := [CallScFromStruct prim min_atoms max_atoms min_length force_diagonal] in
  '(entries, calls) <- generate_entries sc_mat all_defects calls ;;
  let self := {| defects := all_defects; defect_entries := entries;
                 primitive_structure := prim; supercell_matrix := sc_mat |} in
  _ <- _defect_generator_info self ;;
  Ok (self, calls).

End Generation.

(** ** The mapping interface and the serialization of [DefectsGenerator] *)

(** A method that can assign attributes of [self] and can raise: it maps the
    object before the call to the object after it and the outcome. *)
Definition method (A : Type) : Type :=
  DefectsGenerator -> DefectsGenerator * result A.

Definition mret {A} (a : A) : method A := fun self => (self, Ok a).

Definition mraise {A} (e : Exc) : method A := fun self => (self, Raise e).

Definition mbind {A B} (m : method A) (k : A -> method B) : method B :=
  fun self =>
    match m self with
    | (self', Ok a) => k a self'
    | (self', Raise e) => (self', Raise e)
    end.

Definition read_self : method DefectsGenerator := fun self => (self, Ok self).

Definition lift {A} (r : result A) : method A := fun self => (self, r).

(** [self.defect_entries = es] and [self.defects = ds] (also the in-place
    updates of the two dictionaries). *)
Definition put_defect_entries (es : PyDict.t DefectEntry) : method unit :=
  fun self =>
    ({| defects := defects self; defect_entries := es;
        primitive_structure := primitive_structure self;
        supercell_matrix := supercell_matrix self |}, Ok tt).

Definition put_defects (ds : PyDict.t (list Defect)) : method unit :=
  fun self =>
    ({| defects := ds; defect_entries := defect_entries self;
        primitive_structure := primitive_structure self;
        supercell_matrix := supercell_matrix self |}, Ok tt).

Notation "x <~ m ;; k" := (mbind m (fun x => k))
  (at level 61, m at next level, right associativity).

Section Facade.
Context {L : Libraries}.

(** [self[key]] *)
Definition __getitem__ (self : DefectsGenerator) (key : string)
  : result DefectEntry :=
  PyDict.getitem (defect_entries self) key.

(** [key in self] *)
Definition __contains__ (self : DefectsGenerator) (key : string) : bool :=
  PyDict.mem (defect_entries self) key.

(** [len(self)] *)
Definition __len__ (self : DefectsGenerator) : nat :=
  List.length (defect_entries self).

(** [iter(self)] *)
Definition __iter__ (self : DefectsGenerator) : list string :=
  PyDict.keys (defect_entries self).

(** [self[key] = value].  [value.defect not in l] holds when no element of
    [l] is, or compares equal to, [value.defect]; [defect_eqb] stands for
    both. *)
Definition __setitem__ (key : string) (value : PyObj) : method unit :=
  match value with
  | ObjOther type_name =>
      mraise (TypeError ("Value must be a DefectEntry object, not " ++ type_name))
  | ObjDefectEntry value =>
      self <~ read_self ;;
      if negb (structure_eqb (structure (defect value)) (primitive_structure self))
      then mraise (ValueError
             "Value must have the same primitive structure as the DefectsGenerator object")
      else
        let defect_supercell :=
          get_supercell_structure (defect value) (supercell_matrix self) "X" in
        defect_entry <~
          lift (get_defect_entry_from_defect (defect value) defect_supercell 0 "X") ;;
        if negb (sc_entry_eqb (sc_entry defect_entry) (sc_entry value))
        then mraise (ValueError
               "Value must have the same supercell as the DefectsGenerator object")
        else
          _ <~ put_defect_entries (PyDict.set (defect_entries self) key value) ;;
          let defects_key := _defect_dict_key_from_pmg_type (defect_type (defect value)) in
          self <~ read_self ;;
          _ <~ (if negb (PyDict.mem (defects self) defects_key)
                then put_defects (PyDict.set (defects self) defects_key [])
                else mret tt) ;;
          self <~ read_self ;;
          registered <~ lift (PyDict.getitem (defects self) defects_key) ;;
          if negb (existsb (fun d => defect_eqb d (defect value)) registered)
          then put_defects
                 (PyDict.set (defects self) defects_key (registered ++ [defect value])%list)
          else mret tt
  end.

(** [del self[key]] *)
Definition __delitem__ (key : string) : method unit :=
  self <~ read_self ;;
  es <~ lift (PyDict.del (defect_entries self) key) ;;
  put_defect_entries es.

(** [self.as_dict()] *)
Definition as_dict (self : DefectsGenerator) : PyDict.t PyVal :=
  [ ("@module", VStr "doped.generation");
    ("@class", VStr "DefectsGenerator");
    ("defects", VDefects (defects self));
    ("defect_entries", VEntries (defect_entries self));
    ("primitive_structure", VStructure (primitive_structure self));
    ("supercell_matrix", VMatrix (supercell_matrix self)) ].

(** The typed attributes of the object rebuilt by [from_dict].  Python
    stores whatever the decoded record holds; a value of another type does
    not fit the record of the model and is reported as a [TypeError]. *)
Definition as_defects (v : PyVal) : result (PyDict.t (list Defect)) :=
  match v with VDefects d => Ok d | _ => Raise (TypeError "defects") end.

Definition as_entries (v : PyVal) : result (PyDict.t DefectEntry) :=
  match v with VEntries d => Ok d | _ => Raise (TypeError "defect_entries") end.

Definition as_structure (v : PyVal) : result Structure :=
  match v with VStructure s => Ok s | _ => Raise (TypeError "primitive_structure") end.

Definition as_matrix (v : PyVal) : result Matrix :=
  match v with VMatrix m => Ok m | _ => Raise (TypeError "supercell_matrix") end.

(** [d_decoded[key]]: the item of a dict; on a generator, its
    [__getitem__]. *)
Definition subscript (d_decoded : Decoded) (key : string) : result PyVal :=
  match d_decoded with
  | DecDict d => PyDict.getitem d key
  | DecObject obj => e <- __getitem__ obj key ;; Ok (VEntry e)
  end.

(** The second half of [from_dict]: the new object and its four
    attributes, read from the decoded value. *)
Definition rebuild (d_decoded : Decoded) : result DefectsGenerator :=
  v_defects <- subscript d_decoded "defects" ;;
  ds <- as_defects v_defects ;;
  v_entries <- subscript d_decoded "defect_entries" ;;
  es <- as_entries v_entries ;;
  v_structure <- subscript d_decoded "primitive_structure" ;;
  prim <- as_structure v_structure ;;
  v_matrix <- subscript d_decoded "supercell_matrix" ;;
  sc_mat <- as_matrix v_matrix ;;
  Ok {| defects := ds; defect_entries := es;
        primitive_structure := prim; supercell_matrix := sc_mat |}.

(** [DefectsGenerator.from_dict(d)] *)
Definition from_dict (d : PyDict.t PyVal) : result DefectsGenerator :=
  d_decoded <- process_decoded d ;;
  rebuild d_decoded.

(** [MontyDecoder().process_decoded(d)[key]] *)
Definition decoded_item (d : PyDict.t PyVal) (key : string) : result PyVal :=
  d_decoded <- process_decoded d ;;
  subscript d_decoded key.

(** The entry that [__setitem__] derives again from the defect of [v] and
    the supercell matrix of the generator. *)
Definition rederived (self : DefectsGenerator) (v : DefectEntry) : result DefectEntry :=
  get_defect_entry_from_defect (defect v)
    (get_supercell_structure (defect v) (supercell_matrix self) "X") 0 "X".

(** The grounds on which an assignment is turned down: the value is not a
    [DefectEntry]; or the structure of its defect is not the primitive
    structure of the generator; or the supercell entry derived again is not
    the one the value holds. *)
Definition turned_down (self : DefectsGenerator) (value : PyObj) : Prop :=
  match value with
  | ObjOther _ => True
  | ObjDefectEntry v =>
      structure_eqb (structure (defect v)) (primitive_structure self) = false \/
      exists e, rederived self v = Ok e /\
                sc_entry_eqb (sc_entry e) (sc_entry v) = false
  end.

End Facade.

(** ** The record of [as_dict] and the decoder *)

(** [d] carries the tags that [as_dict] writes. *)
Definition tagged_as_generator (d : PyDict.t PyVal) : bool :=
  match PyDict.get d "@module", PyDict.get d "@class" with
  | Some (VStr m), Some (VStr c) =>
      (String.eqb m "doped.generation" && String.eqb c "DefectsGenerator")%bool
  | _, _ => false
  end.

(** [{k: v for k, v in d.items() if not k.startswith("@")}] *)
Definition strip_tags (d : PyDict.t PyVal) : PyDict.t PyVal :=
  filter (fun kv => negb (PyStr.startswith (fst kv) "@")) d.

(** What is known of the decoder of monty, which is not part of this
    repository: a record that carries the module and the class of
    [DefectsGenerator] is handed, its tags removed, to the [from_dict] of
    the class, and the object built is what the decoder returns. *)
Definition hands_tagged_records_to_from_dict (L : Libraries) : Prop :=
  forall d, tagged_as_generator d = true ->
    process_decoded d = (obj <- from_dict (strip_tags d) ;; Ok (DecObject obj)).

(** ** Chemical-potential interpolation of [FermiSolver] *)

Module FermiSolver.

(** A chemical-potential point: element symbol to value. *)
Definition Chempots : Type := PyDict.t Q.

(** The two end points of an interpolation: two names of limits of the
    thermodynamics record, or two explicit dictionaries. *)
Inductive EndPoints : Type :=
| Limits (names : list string)
| ChempotDicts (dicts : list Chempots).

(** Modelled from the spec: one sample of
    [FermiSolver._get_interpolated_chempots], which lives in the
    thermodynamics module of the package (only its tests are at hand).
    Sample [i] of [n_points] lies at the fraction [i / (n_points - 1)] of
    the way from the first end point to the second, element by element. *)
Definition interpolated_sample (chempot_start chempot_end : Chempots)
  (n_points i : nat) : result Chempots :=
  map_result
    (fun kv =>
       v_end <- PyDict.getitem chempot_end (fst kv) ;;
       Ok (fst kv,
           (snd kv + (v_end - snd kv) *
              (inject_Z (Z.of_nat i) / inject_Z (Z.of_nat (n_points - 1))))%Q))
    chempot_start.

(** Modelled from the spec: the [n_points] samples, evenly spaced from the
    first end point to the second and inclusive of both. *)
Definition _get_interpolated_chempots (chempot_start chempot_end : Chempots)
  (n_points : nat) : result (list Chempots) :=
  map_result (interpolated_sample chempot_start chempot_end n_points)
    (seq 0 n_points).

(** Modelled from the spec: the end points [interpolate_chempots] works
    from.  A list that does not hold exactly two end points, or the name of
    a limit the record does not have, is a validation error. *)
Definition end_points (limits_of_record : PyDict.t Chempots) (ends : EndPoints)
  : result (Chempots * Chempots) :=
  match ends with
  | ChempotDicts [a; b] => Ok (a, b)
  | Limits [l1; l2] =>
      match PyDict.get limits_of_record l1, PyDict.get limits_of_record l2 with
      | Some a, Some b => Ok (a, b)
      | _, _ => Raise (ValueError "limit not found in the chemical potentials")
      end
  | _ => Raise (ValueError "exactly two end points are required")
  end.

(** Modelled from the spec: the chemical-potential samples at which
    [FermiSolver.interpolate_chempots] solves, in order.  The solve at each
    sample is numerical and is not part of the model. *)
Definition interpolate_chempots (limits_of_record : PyDict.t Chempots)
  (ends : EndPoints) (n_points : nat) : result (list Chempots) :=
  '(a, b) <- end_points limits_of_record ends ;;
  _get_interpolated_chempots a b n_points.

(** Two points over the same elements with equal values. *)
Definition same_point (p p' : Chempots) : Prop :=
  Forall2 (fun x y => fst x = fst y /\ (snd x == snd y)%Q) p p'.

(** The value of element [el] at a point (0 for an element it lacks). *)
Definition value_at (p : Chempots) (el : string) : Q :=
  PyDict.get_default p el 0%Q.

(** Sample [i] of [n] in closed form. *)
Definition point (a b : Chempots) (n i : nat) : Chempots :=
  map (fun kv =>
         (fst kv,
          (snd kv + (value_at b (fst kv) - snd kv) *
             (inject_Z (Z.of_nat i) / inject_Z (Z.of_nat (n - 1))))%Q)) a.

(** The element-wise arithmetic mean of two points. *)
Definition mean_point (a b : Chempots) : Chempots :=
  map (fun kv => (fst kv, ((snd kv + value_at b (fst kv)) / 2)%Q)) a.

(** The end points of the interpolation test of the solver. *)
Definition cd_rich : Chempots := [("Cd", (-1#2)%Q); ("Te", (-1)%Q)].
Definition te_rich : Chempots := [("Cd", (-1)%Q); ("Te", (-1#2)%Q)].

End FermiSolver.

(** ** A concrete host: zinc-blende CdTe with toy libraries

    Used to run the model: two vacancies, two antisites, and for each
    element two symmetry-distinct interstitial sites of multiplicity 1,
    which therefore share a base name. *)

Module CdTe.

Definition coords_eqb (a b : Coords) : bool :=
  let '(a1, a2, a3) := a in
  let '(b1, b2, b3) := b in
  (Qeq_bool a1 b1 && Qeq_bool a2 b2 && Qeq_bool a3 b3)%bool.

Definition site_eq (a b : PeriodicSite) : bool :=
  (String.eqb (species_symbol a) (species_symbol b)
   && coords_eqb (frac_coords a) (frac_coords b))%bool.

Fixpoint list_eqb {A} (eqb : A -> A -> bool) (l l' : list A) : bool :=
  match l, l' with
  | [], [] => true
  | x :: r, y :: r' => (eqb x y && list_eqb eqb r r')%bool
  | _, _ => false
  end.

Definition structure_eq (a b : Structure) : bool :=
  (list_eqb (list_eqb Qeq_bool) (lattice a) (lattice b)
   && list_eqb site_eq (sites a) (sites b))%bool.

Definition sc_entry_eq (a b : ComputedStructureEntry) : bool :=
  (structure_eq (entry_structure a) (entry_structure b)
   && Qeq_bool (energy a) (energy b))%bool.

Definition defect_eq (a b : Defect) : bool :=
  (defect_type_eqb (defect_type a) (defect_type b)
   && String.eqb (defect_name a) (defect_name b)
   && site_eq (site a) (site b))%bool.

Definition cd_site : PeriodicSite :=
  {| species_symbol := "Cd"; frac_coords := (0, 0, 0)%Q |}.

Definition te_site : PeriodicSite :=
  {| species_symbol := "Te"; frac_coords := (1#4, 1#4, 1#4)%Q |}.

Definition host : Structure :=
  {| lattice := [[0; 327#100; 327#100]; [327#100; 0; 327#100]; [327#100; 327#100; 0]]%Q;
     sites := [cd_site; te_site] |}.

Definition mk_defect (ty : DefectType) (nm el : string) (at_ : Coords)
  (index mult oxi : Z) : Defect :=
  {| defect_type := ty; structure := host;
     site := {| species_symbol := el; frac_coords := at_ |};
     multiplicity := mult; defect_site_index := index;
     oxi_state := inject_Z oxi; defect_name := nm |}.

Definition v_Cd : Defect := mk_defect Vacancy "v_Cd" "Cd" (0, 0, 0)%Q 0 1 (-2).
Definition v_Te : Defect := mk_defect Vacancy "v_Te" "Te" (1#4, 1#4, 1#4)%Q 1 1 2.
Definition Te_Cd : Defect := mk_defect Substitution "Te_Cd" "Te" (0, 0, 0)%Q 0 1 (-4).
Definition Cd_Te : Defect := mk_defect Substitution "Cd_Te" "Cd" (1#4, 1#4, 1#4)%Q 1 1 4.
Definition Cd_i_1 : Defect := mk_defect Interstitial "Cd_i" "Cd" (5#8, 5#8, 5#8)%Q 0 1 2.
Definition Cd_i_2 : Defect := mk_defect Interstitial "Cd_i" "Cd" (1#2, 1#2, 1#2)%Q 0 1 2.
Definition Te_i_1 : Defect := mk_defect Interstitial "Te_i" "Te" (5#8, 5#8, 5#8)%Q 0 1 (-2).
Definition Te_i_2 : Defect := mk_defect Interstitial "Te_i" "Te" (1#2, 1#2, 1#2)%Q 0 1 (-2).

(** The base name documented in [__init__]: [{name}_m{multiplicity}] for
    interstitials, [{name}_s{defect_site_index}] otherwise. *)
Definition base_name (d : Defect) : string :=
  match defect_type d with
  | Interstitial => defect_name d ++ "_m" ++ PyStr.str (multiplicity d)
  | _ => defect_name d ++ "_s" ++ PyStr.str (defect_site_index d)
  end.

(** A toy supercell: the defective cell with a dummy site at the defect. *)
Definition supercell_of (d : Defect) (sc_mat : Matrix) (dummy : string) : Structure :=
  let bulk :=
    match defect_type d with
    | Vacancy => filter (fun s => negb (site_eq s (site d))) (sites (structure d))
    | Substitution =>
        map (fun s => if coords_eqb (frac_coords s) (frac_coords (site d))
                      then site d else s) (sites (structure d))
    | _ => (sites (structure d) ++ [site d])%list
    end in
  {| lattice := lattice (structure d);
     sites := (bulk ++ [{| species_symbol := dummy;
                           frac_coords := frac_coords (site d) |}])%list |}.

Definition sc_matrix : Matrix := [[-2; 2; 2]; [2; -2; 2]; [2; 2; -2]].

(** A decoder that keeps the four fields and loses the names of the
    entries, as the source notes that saving and reloading does. *)
Definition forget_name (e : DefectEntry) : DefectEntry :=
  {| defect := defect e; charge_state := charge_state e;
     sc_entry := sc_entry e;
     sc_defect_frac_coords := sc_defect_frac_coords e;
     name := None |}.

Definition decode_value (v : PyVal) : PyVal :=
  match v with
  | VEntries es => VEntries (map (fun ke => (fst ke, forget_name (snd ke))) es)
  | _ => v
  end.

Definition decode_record (d : PyDict.t PyVal) : PyDict.t PyVal :=
  map (fun kv => (fst kv, decode_value (snd kv))) d.

(** The decoder: a record tagged as a generator goes, without its tags,
    through the body of [from_dict]; any other record is decoded value by
    value. *)
Definition decode (d : PyDict.t PyVal) : result Decoded :=
  if tagged_as_generator d then
    obj <- rebuild (DecDict (decode_record (strip_tags d))) ;;
    Ok (DecObject obj)
  else Ok (DecDict (decode_record d)).

Definition libs : Libraries :=
  {| structure_eqb := structure_eq;
     sc_entry_eqb := sc_entry_eq;
     defect_eqb := defect_eq;
     site_eqb := site_eq;
     get_primitive_standard_structure := fun s => s;
     round_floats := fun s => s;
     composition_elements := fun s => nodup string_dec (map species_symbol (sites s));
     vacancy_generate := fun s => ([v_Cd; v_Te], s);
     antisite_generate := fun s => ([Te_Cd; Cd_Te], s);
     substitution_generate := fun s _ => ([], s);
     interstitial_generate := fun s _ => ([], s);
     voronoi_interstitial_generate :=
       fun s _ => ([Cd_i_1; Cd_i_2; Te_i_1; Te_i_2], s);
     remove_oxidation_states := fun s => s;
     get_sc_fromstruct := fun _ _ _ _ _ => sc_matrix;
     get_supercell_structure := supercell_of;
     _get_defect_name_from_obj := base_name;
     process_decoded := decode |}.

(** The generator built for the host with the default arguments. *)
Definition generated : result (DefectsGenerator * list Call) :=
  __init__ (L := libs) host (ExtDict []) [] [].

(** The state of the loop over the interstitials once the first cadmium
    interstitial has been handled. *)
Definition after_first_interstitial : result GenState :=
  process_defect (L := libs) sc_matrix
    {| st_entries := []; st_naming := []; st_calls := [] |} Cd_i_1.

(** An empty generator over the same host and matrix. *)
Definition blank : DefectsGenerator :=
  {| defects := []; defect_entries := [];
     primitive_structure := host; supercell_matrix := sc_matrix |}.

(** The neutral entry of the cadmium vacancy, as the assembler builds it. *)
Definition v_Cd_0 : result DefectEntry :=
  get_defect_entry_from_defect (L := libs) v_Cd (supercell_of v_Cd sc_matrix "X") 0 "X".

(** The same entry, with the name generation gives it. *)
Definition v_Cd_entry : DefectEntry :=
  {| defect := v_Cd; charge_state := 0;
     sc_entry :=
       {| entry_structure := {| lattice := lattice host; sites := [te_site] |};
          energy := 0%Q |};
     sc_defect_frac_coords := (0, 0, 0)%Q;
     name := Some "v_Cd_s0_0" |}.

(** A generator holding that entry only. *)
Definition stocked : DefectsGenerator :=
  {| defects := [("vacancies", [v_Cd])];
     defect_entries := [("v_Cd_s0_0", v_Cd_entry)];
     primitive_structure := host; supercell_matrix := sc_matrix |}.

(** A cell in which the dummy marker occurs twice. *)
Definition doubly_marked : Structure :=
  {| lattice := lattice host;
     sites := [cd_site; {| species_symbol := "X"; frac_coords := (0, 0, 0)%Q |};
               te_site; {| species_symbol := "X"; frac_coords := (1#2, 1#2, 1#2)%Q |}] |}.

End CdTe.

(** ** [_round_floats]

    The values of a record of nested dictionaries and lists.  What a float
    is, and what [round(x, 5) + 0.0] makes of it, are parameters. *)

Set Warnings "-register-all".

Section RoundFloats.
Variable Float : Type.
Variable round5 : Float -> Float.

Inductive PyData : Type :=
| DNone
| DBool (b : bool)
| DInt (z : Z)
| DFloat (x : Float)
| DStr (s : string)
| DDict (items : list (string * PyData))
| DList (l : list PyData)
| DTuple (l : list PyData).

(** [_round_floats(obj)].  A dict comprehension over the items of a dict
    keeps the keys and their order. *)
Fixpoint _round_floats (obj : PyData) : PyData :=
  match obj with
  | DFloat x => DFloat (round5 x)
  | DDict items =>
      DDict (map (fun kv : string * PyData =>
                  let (k, v) := kv in (k, _round_floats v)) items)
  | DList l => DList (map _round_floats l)
  | DTuple l => DList (map _round_floats l)
  | other => other
  end.

(** [obj] holds no tuple, at any depth. *)
Fixpoint tuple_free (obj : PyData) : bool :=
  match obj with
  | DDict items =>
      forallb (fun kv : string * PyData => let (_, v) := kv in tuple_free v)
        items
  | DList l => forallb tuple_free l
  | DTuple _ => false
  | _ => true
  end.

(** [obj] holds no float, at any depth. *)
Fixpoint float_free (obj : PyData) : bool :=
  match obj with
  | DFloat _ => false
  | DDict items =>
      forallb (fun kv : string * PyData => let (_, v) := kv in float_free v)
        items
  | DList l => forallb float_free l
  | DTuple l => forallb float_free l
  | _ => true
  end.

(** The shape of [obj]: its keys and lengths at every depth, with the
    floats blanked out and the tuples read as lists. *)
Fixpoint skeleton (obj : PyData) : PyData :=
  match obj with
  | DFloat _ => DNone
  | DDict items =>
      DDict (map (fun kv : string * PyData =>
                  let (k, v) := kv in (k, skeleton v)) items)
  | DList l => DList (map skeleton l)
  | DTuple l => DList (map skeleton l)
  | other => other
  end.

End RoundFloats.

Arguments DNone {Float}.
Arguments DBool {Float} b.
Arguments DInt {Float} z.
Arguments DStr {Float} s.

(** A float counted in millionths, rounded half to even to five decimals:
    a rounding to run [_round_floats] with. *)
Definition round5_millionths (z : Z) : Z :=
  let q := z / 10 in
  let r := z mod 10 in
  if r <? 5 then 10 * q
  else if 5 <? r then 10 * (q + 1)
  else if Z.even q then 10 * q else 10 * (q + 1).

(** ** Further vocabulary for the statements *)

Section AfterAssignment.
Context {L : Libraries}.

(** [defects] once [d] is registered under its kind, if it was not. *)
Definition registered_with (ds : PyDict.t (list Defect)) (d : Defect)
  : PyDict.t (list Defect) :=
  let kind := _defect_dict_key_from_pmg_type (defect_type d) in
  let ds1 := if PyDict.mem ds kind then ds else PyDict.set ds kind [] in
  let l := PyDict.get_default ds1 kind [] in
  if existsb (fun x => defect_eqb x d) l then ds1
  else PyDict.set ds1 kind (l ++ [d])%list.

(** The object after the assignment [self[key] = v] has gone through. *)
Definition after_assignment (self : DefectsGenerator) (key : string)
  (v : DefectEntry) : DefectsGenerator :=
  {| defects := registered_with (defects self) (defect v);
     defect_entries := PyDict.set (defect_entries self) key v;
     primitive_structure := primitive_structure self;
     supercell_matrix := supercell_matrix self |}.

(** [v] passes the checks of [__setitem__] on [self]. *)
Definition passes_checks (self : DefectsGenerator) (v : DefectEntry) : Prop :=
  structure_eqb (structure (defect v)) (primitive_structure self) = true /\
  exists e, rederived self v = Ok e /\
            sc_entry_eqb (sc_entry e) (sc_entry v) = true.

End AfterAssignment.

(** The value that the renaming loop over [items] leaves in the variable
    [charge], which holds [c] before the loop. *)
Definition last_charge_under (base : string)
  (items : list (string * DefectEntry)) (c : Z) : Z :=
  fold_left
    (fun acc item =>
       if PyStr.startswith (fst item) (base ++ "_") then
         match PyStr.int (PyStr.rsplit_last "_" (fst item)) with
         | Ok q => q
         | Raise _ => acc
         end
       else acc)
    items c.

(** What [__init__] keeps true of each stored item: the entry carries the
    key as its name, its defect is one of [ds], and its charge state is one
    of those of its defect. *)
Definition stored_properly (ds : list Defect) (item : string * DefectEntry)
  : Prop :=
  name (snd item) = Some (fst item) /\
  In (defect (snd item)) ds /\
  In (charge_state (snd item)) (charge_states (oxi_state (defect (snd item)))).

(** The keywords that [__init__] reads. *)
Definition supercell_keywords : list string :=
  ["min_atoms"; "max_atoms"; "min_length"; "force_diagonal"].

(** No stored name starts with [base]. *)
Definition unused_base (base : string) (es : PyDict.t DefectEntry) : bool :=
  forallb (fun k => negb (PyStr.startswith k base)) (PyDict.keys es).

(** The generator [CdTe.stocked] with the entry of charge state -1 of the
    cadmium vacancy as well. *)
Definition stocked_pair : DefectsGenerator :=
  {| defects := defects CdTe.stocked;
     defect_entries :=
       [("v_Cd_s0_0", CdTe.v_Cd_entry);
        ("v_Cd_s0_-1",
         {| defect := CdTe.v_Cd; charge_state := -1;
            sc_entry := sc_entry CdTe.v_Cd_entry;
            sc_defect_frac_coords := (0, 0, 0)%Q;
            name := Some "v_Cd_s0_-1" |})];
     primitive_structure := CdTe.host;
     supercell_matrix := CdTe.sc_matrix |}.

(** * Facts about the Python primitives *)

Unset Implicit Arguments.

Module PyStrFacts.
Import PyStr.

Lemma append_assoc (a b c : string) : (a ++ b) ++ c = a ++ (b ++ c).
Proof. induction a as [|x a IH]; simpl; [reflexivity | now rewrite IH]. Qed.

Lemma startswith_nil (s : string) : startswith s "" = true.
Proof. destruct s; reflexivity. Qed.

Lemma startswith_cons (a b : ascii) (s p : string) :
  startswith (String a s) (String b p) = (Ascii.eqb b a && startswith s p)%bool.
Proof.
  unfold startswith; simpl.
  destruct (ascii_dec b a) as [->|Hne].
  - now rewrite Ascii.eqb_refl.
  - apply Ascii.eqb_neq in Hne. now rewrite Hne.
Qed.

Lemma startswith_append_same (p s t : string) :
  startswith (p ++ s) (p ++ t) = startswith s t.
Proof.
  induction p as [|a p IH]; cbn [append]; [reflexivity|].
  now rewrite startswith_cons, Ascii.eqb_refl, IH.
Qed.

Lemma startswith_append (p s : string) : startswith (p ++ s) p = true.
Proof.
  induction p as [|a p IH]; cbn [append]; [apply startswith_nil|].
  now rewrite startswith_cons, Ascii.eqb_refl, IH.
Qed.

Lemma endswith_append (s suf : string) : endswith (s ++ suf) suf = true.
Proof.
  induction s as [|a s IH]; cbn [append].
  - destruct suf; simpl; [reflexivity|].
    now rewrite Ascii.eqb_refl, String.eqb_refl.
  - cbn [endswith]. rewrite IH. now destruct (String.eqb _ _).
Qed.

Lemma drop_last_lettered (base : string) (c : ascii) :
  drop_last (base ++ String c "") = base.
Proof.
  induction base as [|a base IH]; simpl; [reflexivity|].
  rewrite IH. destruct base; reflexivity.
Qed.

Lemma lacks_cons (c a : ascii) (s : string) :
  Ascii.eqb a c = false -> lacks c s -> lacks c (String a s).
Proof. unfold lacks; simpl; intros -> ->; reflexivity. Qed.

Lemma after_last_append (c : ascii) (s r : string) :
  lacks c r -> after_last c (s ++ String c r) = Some r.
Proof.
  intros Hr; induction s as [|a s IH]; simpl.
  - unfold lacks in Hr. now rewrite Hr, Ascii.eqb_refl.
  - now rewrite IH.
Qed.

Lemma rsplit_last_append (c : ascii) (s r : string) :
  lacks c r -> rsplit_last c (s ++ String c r) = r.
Proof. intros Hr; unfold rsplit_last; now rewrite after_last_append. Qed.

Lemma uint_lacks_underscore (d : Decimal.uint) :
  lacks "_" (NilEmpty.string_of_uint d).
Proof. induction d; simpl; try reflexivity; now apply lacks_cons. Qed.

Lemma str_lacks_underscore (z : Z) : lacks "_" (str z).
Proof.
  unfold str, NilZero.string_of_int, NilZero.string_of_uint.
  destruct (Z.to_int z) as [d|d]; destruct d;
    try reflexivity; try apply uint_lacks_underscore;
    apply lacks_cons; try reflexivity; try apply uint_lacks_underscore.
Qed.

Lemma signed_lacks_underscore (z : Z) : lacks "_" (signed z).
Proof.
  unfold signed; destruct (z >? 0); simpl.
  - apply lacks_cons; [reflexivity | apply str_lacks_underscore].
  - apply str_lacks_underscore.
Qed.

(** [int] reads back what [signed] writes. *)
Lemma int_signed (z : Z) : int (signed z) = Ok z.
Proof.
  unfold signed, int, str.
  destruct z as [|p|p]; simpl.
  - reflexivity.
  - fold (NilZero.string_of_uint (Pos.to_uint p)).
    rewrite NilZero.usu by apply DecimalPos.Unsigned.to_uint_nonnil.
    simpl. change (Z.of_int (Z.to_int (Z.pos p))) with (Z.of_int (Decimal.Pos (Pos.to_uint p))).
    now rewrite <- (DecimalZ.of_to (Z.pos p)).
  - fold (NilZero.string_of_uint (Pos.to_uint p)).
    rewrite NilZero.usu by apply DecimalPos.Unsigned.to_uint_nonnil.
    simpl. now rewrite <- (DecimalZ.of_to (Z.neg p)).
Qed.

Lemma signed_inj (z z' : Z) : signed z = signed z' -> z = z'.
Proof.
  intros H. pose proof (int_signed z) as Hz. rewrite H, int_signed in Hz.
  now inversion Hz.
Qed.

End PyStrFacts.

Module PyDictFacts.
Import PyDict.

Section Facts.
Context {V : Type}.
Implicit Types (d : t V) (k : string) (v : V).

Lemma get_set_same d k v : get (set d k v) k = Some v.
Proof.
  induction d as [|[k' v'] d IH]; simpl.
  - now rewrite String.eqb_refl.
  - destruct (String.eqb k' k) eqn:E; simpl; now rewrite E.
Qed.

Lemma get_set_other d k k' v : k <> k' -> get (set d k v) k' = get d k'.
Proof.
  intros Hne; induction d as [|[k0 v0] d IH]; simpl.
  - apply String.eqb_neq in Hne. now rewrite Hne.
  - destruct (String.eqb k0 k) eqn:E; simpl.
    + apply String.eqb_eq in E; subst k0.
      apply String.eqb_neq in Hne. now rewrite Hne.
    + now rewrite IH.
Qed.

Lemma get_remove_other d k k' : k <> k' -> get (remove d k) k' = get d k'.
Proof.
  intros Hne; induction d as [|[k0 v0] d IH]; simpl; [reflexivity|].
  destruct (String.eqb k0 k) eqn:E; simpl.
  - apply String.eqb_eq in E; subst k0.
    apply String.eqb_neq in Hne. now rewrite Hne.
  - now rewrite IH.
Qed.

Lemma get_None d k : get d k = None <-> ~ In k (keys d).
Proof.
  induction d as [|[k0 v0] d IH]; simpl; [tauto|].
  destruct (String.eqb k0 k) eqn:E.
  - apply String.eqb_eq in E. split; [discriminate | tauto].
  - apply String.eqb_neq in E. rewrite IH. tauto.
Qed.

Lemma get_In d k v : get d k = Some v -> In (k, v) d.
Proof.
  induction d as [|[k0 v0] d IH]; simpl; [discriminate|].
  destruct (String.eqb k0 k) eqn:E.
  - apply String.eqb_eq in E. intros [= ->]. left; now subst.
  - auto.
Qed.

Lemma In_get d k v : wf d -> In (k, v) d -> get d k = Some v.
Proof.
  unfold wf; induction d as [|[k0 v0] d IH]; simpl; [tauto|].
  intros Hnd [Heq | Hin]; inversion Hnd as [|? ? Hnotin Hnd']; subst.
  - inversion Heq; subst. now rewrite String.eqb_refl.
  - destruct (String.eqb k0 k) eqn:E; [|auto].
    apply String.eqb_eq in E; subst k0. exfalso; apply Hnotin.
    change k with (fst (k, v)). now apply in_map.
Qed.

Lemma get_remove_same d k : wf d -> get (remove d k) k = None.
Proof.
  unfold wf; induction d as [|[k0 v0] d IH]; simpl; [reflexivity|].
  intros Hnd; inversion Hnd as [|? ? Hnotin Hnd']; subst.
  destruct (String.eqb k0 k) eqn:E; simpl.
  - apply String.eqb_eq in E; subst k0. now apply get_None.
  - rewrite E. auto.
Qed.

Lemma keys_set_In d k v k' : In k' (keys (set d k v)) <-> k' = k \/ In k' (keys d).
Proof.
  induction d as [|[k0 v0] d IH]; simpl.
  - intuition.
  - destruct (String.eqb k0 k) eqn:E; simpl.
    + apply String.eqb_eq in E; subst k0. intuition.
    + rewrite IH. intuition.
Qed.

Lemma keys_remove_In d k k' : In k' (keys (remove d k)) -> In k' (keys d).
Proof.
  induction d as [|[k0 v0] d IH]; simpl; [tauto|].
  destruct (String.eqb k0 k); simpl; intuition.
Qed.

Lemma wf_set d k v : wf d -> wf (set d k v).
Proof.
  unfold wf; induction d as [|[k0 v0] d IH]; simpl; intros Hnd.
  - constructor; [intros [] | constructor].
  - inversion Hnd as [|? ? Hnotin Hnd']; subst.
    destruct (String.eqb k0 k) eqn:E; simpl.
    + now constructor.
    + apply String.eqb_neq in E. constructor; [|auto].
      intros Hin. apply keys_set_In in Hin as [->|Hin]; [now apply E | auto].
Qed.

Lemma wf_remove d k : wf d -> wf (remove d k).
Proof.
  unfold wf; induction d as [|[k0 v0] d IH]; simpl; intros Hnd; [constructor|].
  inversion Hnd as [|? ? Hnotin Hnd']; subst.
  destruct (String.eqb k0 k); simpl; [assumption|].
  constructor; [|auto]. intros Hin. now apply keys_remove_In in Hin.
Qed.

Lemma mem_get d k : mem d k = true <-> exists v, get d k = Some v.
Proof.
  unfold mem; destruct (get d k) as [v|].
  - split; [now exists v | reflexivity].
  - split; [discriminate | now intros [? [=]]].
Qed.

Lemma length_remove d k :
  mem d k = true -> S (List.length (remove d k)) = List.length d.
Proof.
  unfold mem; induction d as [|[k0 v0] d IH]; simpl; [discriminate|].
  destruct (String.eqb k0 k); simpl; [reflexivity | intros H; now rewrite IH].
Qed.

Lemma Forall_set (Q : V -> Prop) d k v :
  Forall (fun kv => Q (snd kv)) d -> Q v ->
  Forall (fun kv => Q (snd kv)) (set d k v).
Proof.
  intros Hd Hv; induction Hd as [|[k0 v0] d H0 Hd IH]; simpl.
  - repeat constructor; exact Hv.
  - destruct (String.eqb k0 k); constructor; auto.
Qed.

Lemma Forall_remove (Q : V -> Prop) d k :
  Forall (fun kv => Q (snd kv)) d -> Forall (fun kv => Q (snd kv)) (remove d k).
Proof.
  intros Hd; induction Hd as [|[k0 v0] d H0 Hd IH]; simpl; [constructor|].
  destruct (String.eqb k0 k); [assumption | constructor; auto].
Qed.

End Facts.
End PyDictFacts.

(** * Charge states *)

Lemma py_range_In (a b x : Z) : In x (py_range a b) <-> a <= x < b.
Proof.
  unfold py_range; rewrite in_map_iff; split.
  - intros [i [<- Hi]]. apply in_seq in Hi. lia.
  - intros H. exists (Z.to_nat (x - a)); split; [lia|].
    apply in_seq. lia.
Qed.

Lemma Qlt_bool_iff (x y : Q) : Qlt_bool x y = true <-> (x < y)%Q.
Proof.
  unfold Qlt_bool. rewrite negb_true_iff, <- not_true_iff_false, Qle_bool_iff.
  split; [apply Qnot_le_lt | apply Qlt_not_le].
Qed.

Lemma Qlt_bool_inject_Z (x y : Z) : Qlt_bool (inject_Z x) (inject_Z y) = (x <? y).
Proof.
  destruct (x <? y) eqn:E.
  - apply Qlt_bool_iff. rewrite <- Zlt_Qlt. now apply Z.ltb_lt.
  - apply not_true_iff_false. rewrite Qlt_bool_iff, <- Zlt_Qlt.
    now apply Z.ltb_ge in E; lia.
Qed.

Lemma int_of_float_inject_Z (z : Z) : int_of_float (inject_Z z) = z.
Proof. unfold int_of_float; simpl. apply Z.quot_1_r. Qed.

Lemma int_of_float_pos (q : Q) : (0 < q)%Q -> 0 <= int_of_float q.
Proof.
  unfold Qlt, int_of_float; simpl; intros H.
  apply Z.quot_pos; lia.
Qed.

Lemma int_of_float_neg (q : Q) : (q < 0)%Q -> int_of_float q <= 0.
Proof.
  unfold Qlt, int_of_float; simpl; intros H.
  rewrite <- (Z.opp_involutive (Qnum q)), Z.quot_opp_l by lia.
  assert (0 <= Z.quot (- Qnum q) (Z.pos (Qden q))) by (apply Z.quot_pos; lia).
  lia.
Qed.

Lemma charge_states_range (oxi : Q) :
  exists lo hi, charge_states oxi = py_range lo hi /\ lo <= 0 < hi.
Proof.
  unfold charge_states.
  destruct (Qlt_bool 0 oxi) eqn:Hpos.
  - apply Qlt_bool_iff, int_of_float_pos in Hpos.
    exists (-1), (int_of_float oxi + 1). split; [reflexivity | lia].
  - destruct (Qlt_bool oxi 0) eqn:Hneg.
    + apply Qlt_bool_iff, int_of_float_neg in Hneg.
      exists (int_of_float oxi), 2. split; [reflexivity | lia].
    + exists (-1), 2. split; [reflexivity | lia].
Qed.

Lemma charge_states_nonempty (oxi : Q) :
  exists q0 qs, charge_states oxi = q0 :: qs.
Proof.
  destruct (charge_states_range oxi) as (lo & hi & Heq & Hb).
  assert (Hin : In 0 (charge_states oxi)) by (rewrite Heq; now apply py_range_In).
  destruct (charge_states oxi) as [|q0 qs]; [destruct Hin | now exists q0, qs].
Qed.

(** C2: the charge states of a defect are [range(-1, oxi_state+1)] for a
    positive oxidation state, [range(oxi_state, 2)] for a negative one and
    [-1, 0, 1] for zero (so +2 gives [-1,0,1,2] and -2 gives [-2,-1,0,1]);
    whatever the oxidation state, they form a contiguous range of integers
    that contains 0. *)
Theorem C2_charge_state_set :
  (forall z : Z,
     charge_states (inject_Z z) =
       if 0 <? z then py_range (-1) (z + 1)
       else if z <? 0 then py_range z 2
       else [-1; 0; 1]) /\
  charge_states (inject_Z 2) = [-1; 0; 1; 2] /\
  charge_states (inject_Z (-2)) = [-2; -1; 0; 1] /\
  charge_states (inject_Z 0) = [-1; 0; 1] /\
  (forall oxi : Q,
     (exists lo hi, charge_states oxi = py_range lo hi /\ lo <= 0 < hi) /\
     In 0 (charge_states oxi)).
Proof.
  split; [|split; [reflexivity | split; [reflexivity | split; [reflexivity|]]]].
  - intros z. unfold charge_states.
    change 0%Q with (inject_Z 0).
    now rewrite !Qlt_bool_inject_Z, int_of_float_inject_Z.
  - intros oxi.
    pose proof (charge_states_range oxi) as Hrange.
    split; [exact Hrange|].
    destruct Hrange as (lo & hi & -> & Hb). now apply py_range_In.
Qed.

(** * Assembly of an entry from a dummy-marked supercell *)

Section Assembly.
Context {L : Libraries}.

Lemma find_dummy_site_none (X : string) (l : list PeriodicSite) :
  Forall (unmarked X) l -> find_dummy_site X l = None.
Proof.
  induction 1 as [|s l Hs _ IH]; simpl; [reflexivity|].
  apply String.eqb_neq in Hs. now rewrite Hs, IH.
Qed.

Lemma find_dummy_site_first (X : string) (pre post : list PeriodicSite)
  (x : PeriodicSite) :
  Forall (unmarked X) pre -> species_symbol x = X ->
  find_dummy_site X (pre ++ x :: post)%list = Some (List.length pre, x).
Proof.
  intros Hpre Hx; induction Hpre as [|s l Hs _ IH]; simpl.
  - apply String.eqb_eq in Hx. now rewrite Hx.
  - apply String.eqb_neq in Hs. now rewrite Hs, IH.
Qed.

Lemma find_dummy_site_some (X : string) (l : list PeriodicSite) :
  Exists (fun s => species_symbol s = X) l ->
  exists pos x, find_dummy_site X l = Some (pos, x).
Proof.
  induction l as [|s l IH]; intros H; [inversion H|]. simpl.
  destruct (String.eqb (species_symbol s) X) eqn:E; [now eexists; eexists|].
  inversion H as [? ? Hs | ? ? Hl]; subst.
  - apply String.eqb_neq in E. contradiction.
  - destruct (IH Hl) as (pos & x & ->). now eexists; eexists.
Qed.

(** The site found by [find_dummy_site] can always be removed. *)
Lemma remove_site_found (X : string) (l : list PeriodicSite) (pos : nat)
  (x : PeriodicSite) :
  find_dummy_site X l = Some (pos, x) -> exists r, remove_site l pos x = Ok r.
Proof.
  revert pos; induction l as [|s l IH]; intros pos; simpl; [discriminate|].
  destruct (String.eqb (species_symbol s) X).
  - intros [= <- <-]. simpl. now eexists.
  - destruct (find_dummy_site X l) as [[i y]|] eqn:E; [|discriminate].
    intros [= <- <-]. simpl.
    destruct (site_eqb s y); [now eexists|].
    destruct (IH _ eq_refl) as [r ->]. simpl. now eexists.
Qed.

Lemma remove_site_first (X : string) (pre post : list PeriodicSite)
  (x : PeriodicSite) :
  (forall a b, site_eqb a b = true -> species_symbol a = species_symbol b) ->
  Forall (unmarked X) pre -> species_symbol x = X ->
  remove_site (pre ++ x :: post)%list (List.length pre) x = Ok (pre ++ post)%list.
Proof.
  intros Hsite Hpre Hx; induction Hpre as [|s l Hs _ IH]; simpl; [reflexivity|].
  destruct (site_eqb s x) eqn:E.
  - apply Hsite in E. unfold unmarked in Hs. congruence.
  - now rewrite IH.
Qed.

(** The assembler returns an entry exactly when the supercell has a site of
    the dummy species, and raises [IndexError] otherwise. *)
Lemma get_defect_entry_marked (d : Defect) (sc : Structure) (q : Z) (X : string) :
  Exists (fun s => species_symbol s = X) (sites sc) ->
  exists e, get_defect_entry_from_defect d sc q X = Ok e /\
            defect e = d /\ charge_state e = q /\ name e = None.
Proof.
  intros H. unfold get_defect_entry_from_defect.
  destruct (find_dummy_site_some X _ H) as (pos & x & Hfind). rewrite Hfind.
  destruct (remove_site_found _ _ _ _ Hfind) as [r ->]. simpl.
  eexists; repeat split.
Qed.

(** C6 (as the code has it): with no site of the dummy species the call
    fails with an IndexError; otherwise the first such site is the one
    used: its fractional coordinates are recorded, it alone is removed from
    the copy, and the entry wraps what remains with energy 0.0.  Later
    sites of the dummy species, if any, stay in the structure. *)
Theorem C6_first_dummy_site_is_used (d : Defect) (sc : Structure) (q : Z)
  (X : string)
  (Hsite : forall a b, site_eqb a b = true -> species_symbol a = species_symbol b) :
  (Forall (unmarked X) (sites sc) ->
   get_defect_entry_from_defect d sc q X = Raise IndexError) /\
  (forall pre x post,
     sites sc = (pre ++ x :: post)%list ->
     Forall (unmarked X) pre -> species_symbol x = X ->
     get_defect_entry_from_defect d sc q X =
       Ok {| defect := d; charge_state := q;
             sc_entry :=
               {| entry_structure :=
                    {| lattice := lattice sc; sites := (pre ++ post)%list |};
                  energy := 0%Q |};
             sc_defect_frac_coords := frac_coords x;
             name := None |}).
Proof.
  split.
  - intros H. unfold get_defect_entry_from_defect.
    now rewrite find_dummy_site_none.
  - intros pre x post Hsplit Hpre Hx. unfold get_defect_entry_from_defect.
    rewrite Hsplit, (find_dummy_site_first X pre post x Hpre Hx).
    now rewrite (remove_site_first X pre post x Hsite Hpre Hx).
Qed.

End Assembly.

Lemma CdTe_site_eq_species (a b : PeriodicSite) :
  CdTe.site_eq a b = true -> species_symbol a = species_symbol b.
Proof.
  unfold CdTe.site_eq. intros H. apply andb_true_iff in H as [H _].
  now apply String.eqb_eq.
Qed.

(** C6, at the supercell of the cadmium vacancy: one dummy site, found and
    removed; and at a cell with no dummy site. *)
Lemma C6_first_dummy_site_is_used_witness :
  get_defect_entry_from_defect (L := CdTe.libs) CdTe.v_Cd
    (CdTe.supercell_of CdTe.v_Cd CdTe.sc_matrix "X") 0 "X" =
    Ok {| defect := CdTe.v_Cd; charge_state := 0;
          sc_entry :=
            {| entry_structure :=
                 {| lattice := lattice CdTe.host; sites := [CdTe.te_site] |};
               energy := 0%Q |};
          sc_defect_frac_coords := (0, 0, 0)%Q;
          name := None |} /\
  get_defect_entry_from_defect (L := CdTe.libs) CdTe.v_Cd CdTe.host 0 "X" =
    Raise IndexError.
Proof.
  pose proof (C6_first_dummy_site_is_used (L := CdTe.libs) CdTe.v_Cd
                (CdTe.supercell_of CdTe.v_Cd CdTe.sc_matrix "X") 0 "X"
                CdTe_site_eq_species) as [_ Hfound].
  pose proof (C6_first_dummy_site_is_used (L := CdTe.libs) CdTe.v_Cd
                CdTe.host 0 "X" CdTe_site_eq_species) as [Hnone _].
  split.
  - apply (Hfound [CdTe.te_site]
             {| species_symbol := "X"; frac_coords := (0, 0, 0)%Q |} []).
    + reflexivity.
    + repeat constructor. unfold unmarked; simpl; discriminate.
    + reflexivity.
  - apply Hnone. repeat constructor; unfold unmarked; simpl; discriminate.
Defined.

(** C6 (counterexample to the required uniqueness): a supercell in which the
    dummy site is duplicated is accepted.  The call returns an entry built
    from the first of the two sites, and the second one is still in the
    entry's structure. *)
Lemma C6_duplicated_dummy_site_accepted :
  List.length (filter (fun s => String.eqb (species_symbol s) "X")
                 (sites CdTe.doubly_marked)) = 2%nat /\
  exists e,
    get_defect_entry_from_defect (L := CdTe.libs) CdTe.v_Cd CdTe.doubly_marked 0 "X"
      = Ok e /\
    sc_defect_frac_coords e = (0, 0, 0)%Q /\
    sites (entry_structure (sc_entry e)) =
      [CdTe.cd_site; CdTe.te_site;
       {| species_symbol := "X"; frac_coords := (1#2, 1#2, 1#2)%Q |}].
Proof.
  split; [reflexivity|]. eexists. split; [reflexivity|]. split; reflexivity.
Qed.

(** * The mapping interface *)

Section FacadeFacts.
Context {L : Libraries}.

(** What a valid assignment does to the object. *)
Lemma setitem_accepts (self : DefectsGenerator) (key : string) (v e : DefectEntry) :
  structure_eqb (structure (defect v)) (primitive_structure self) = true ->
  rederived self v = Ok e ->
  sc_entry_eqb (sc_entry e) (sc_entry v) = true ->
  exists self',
    __setitem__ key (ObjDefectEntry v) self = (self', Ok tt) /\
    defect_entries self' = PyDict.set (defect_entries self) key v /\
    primitive_structure self' = primitive_structure self /\
    supercell_matrix self' = supercell_matrix self /\
    let kind := _defect_dict_key_from_pmg_type (defect_type (defect v)) in
    let before := PyDict.get_default (defects self) kind [] in
    PyDict.get (defects self') kind =
      Some (if existsb (fun d => defect_eqb d (defect v)) before
            then before else (before ++ [defect v])%list) /\
    (forall k, k <> kind ->
       PyDict.get (defects self') k = PyDict.get (defects self) k).
Proof.
  intros Hs He Hsc. unfold rederived in He.
  unfold __setitem__, mbind, read_self, lift, mraise, mret,
    put_defect_entries, put_defects, PyDict.getitem, PyDict.get_default,
    PyDict.mem.
  rewrite Hs; cbn [negb]. cbn beta iota. rewrite He. rewrite Hsc; cbn [negb].
  cbn [defects defect_entries primitive_structure supercell_matrix].
  set (kind := _defect_dict_key_from_pmg_type (defect_type (defect v))).
  destruct (PyDict.get (defects self) kind) as [l|] eqn:Hget;
    cbn [negb defects defect_entries primitive_structure supercell_matrix].
  - rewrite Hget.
    destruct (existsb (fun d => defect_eqb d (defect v)) l) eqn:Hex; cbn [negb];
      eexists; (split; [reflexivity|]);
      cbn [defects defect_entries primitive_structure supercell_matrix];
      repeat split; auto.
    + apply PyDictFacts.get_set_same.
    + intros k Hk. now apply PyDictFacts.get_set_other.
  - rewrite PyDictFacts.get_set_same. cbn [existsb negb].
    eexists; (split; [reflexivity|]);
      cbn [defects defect_entries primitive_structure supercell_matrix];
      repeat split; auto.
    + apply PyDictFacts.get_set_same.
    + intros k Hk. rewrite !PyDictFacts.get_set_other by auto. reflexivity.
Qed.


(** C4: [__setitem__] raises exactly when the value is not a DefectEntry (a
    TypeError), or the structure of its defect differs from the primitive
    structure of the generator, or the supercell entry derived again from
    its defect and the shared matrix differs from the one it holds
    (ValueErrors).  When it raises, [defects] and [defect_entries] are as
    before; when it succeeds, the entry is stored under the key and its
    defect is appended to the list of its kind unless it is there already.
    The supercell routine is taken to mark the defect site with the dummy
    species, as it is asked to. *)
Theorem C4_setitem_validates_before_storing
  (self : DefectsGenerator) (key : string) (value : PyObj)
  (Hmarked : forall v, value = ObjDefectEntry v ->
     Exists (fun s => species_symbol s = "X")
       (sites (get_supercell_structure (defect v) (supercell_matrix self) "X"))) :
  let (self', outcome) := __setitem__ key value self in
  (is_ok outcome = false <-> turned_down self value) /\
  (is_ok outcome = false ->
     self' = self /\
     match value with
     | ObjOther _ => exists msg, outcome = Raise (TypeError msg)
     | ObjDefectEntry _ => exists msg, outcome = Raise (ValueError msg)
     end) /\
  (is_ok outcome = true ->
     exists v, value = ObjDefectEntry v /\
       defect_entries self' = PyDict.set (defect_entries self) key v /\
       let kind := _defect_dict_key_from_pmg_type (defect_type (defect v)) in
       let before := PyDict.get_default (defects self) kind [] in
       PyDict.get (defects self') kind =
         Some (if existsb (fun d => defect_eqb d (defect v)) before
               then before else (before ++ [defect v])%list) /\
       (forall k, k <> kind ->
          PyDict.get (defects self') k = PyDict.get (defects self) k)).
Proof.
  destruct value as [v | ty].
  - destruct (get_defect_entry_marked (defect v) _ 0 "X" (Hmarked v eq_refl))
      as (e & He & _).
    fold (rederived self v) in He.
    destruct (structure_eqb (structure (defect v)) (primitive_structure self))
      eqn:Hs.
    + destruct (sc_entry_eqb (sc_entry e) (sc_entry v)) eqn:Hsc.
      * destruct (setitem_accepts self key v e Hs He Hsc)
          as (self' & -> & Hes & _ & _ & Hkind & Hothers).
        cbn [is_ok turned_down]. repeat split; try discriminate.
        -- intros [Hs' | (e' & He' & Hsc')]; [congruence|].
           rewrite He in He'. injection He' as <-. congruence.
        -- intros _. exists v. repeat split; auto.
      * unfold __setitem__, mbind, read_self, lift, mraise.
        rewrite Hs; cbn [negb]. cbn beta iota.
        unfold rederived in He. rewrite He, Hsc; cbn [negb is_ok turned_down].
        repeat split; try discriminate; eauto.
    + unfold __setitem__, mbind, read_self, lift, mraise.
      rewrite Hs; cbn [negb is_ok turned_down].
      repeat split; try discriminate; eauto.
  - cbn [__setitem__ mraise is_ok turned_down].
    repeat split; try discriminate; eauto.
Qed.

(** C10: the key of an assignment is not compared with the [name] of the
    entry: whatever the key, an entry that passes the structure and
    supercell checks is stored under it and read back from it. *)
Theorem C10_assignment_key_is_not_checked
  (self : DefectsGenerator) (key : string) (v e : DefectEntry) :
  structure_eqb (structure (defect v)) (primitive_structure self) = true ->
  rederived self v = Ok e ->
  sc_entry_eqb (sc_entry e) (sc_entry v) = true ->
  exists self',
    __setitem__ key (ObjDefectEntry v) self = (self', Ok tt) /\
    __getitem__ self' key = Ok v.
Proof.
  intros Hs He Hsc.
  destruct (setitem_accepts self key v e Hs He Hsc) as (self' & Hrun & Hes & _).
  exists self'. split; [exact Hrun|].
  unfold __getitem__, PyDict.getitem. now rewrite Hes, PyDictFacts.get_set_same.
Qed.

(** C8: deleting a key that is present removes that entry and nothing
    else: the other entries, the [defects] of every kind, the primitive
    structure and the matrix are as before. *)
Theorem C8_delitem_removes_one_entry (self : DefectsGenerator) (key : string) :
  PyDict.wf (defect_entries self) ->
  PyDict.mem (defect_entries self) key = true ->
  exists self',
    __delitem__ key self = (self', Ok tt) /\
    PyDict.get (defect_entries self') key = None /\
    (forall k, k <> key ->
       PyDict.get (defect_entries self') k = PyDict.get (defect_entries self) k) /\
    S (List.length (defect_entries self')) = List.length (defect_entries self) /\
    defects self' = defects self /\
    primitive_structure self' = primitive_structure self /\
    supercell_matrix self' = supercell_matrix self.
Proof.
  intros Hwf Hmem.
  unfold __delitem__, mbind, read_self, lift, put_defect_entries, PyDict.del.
  rewrite Hmem. eexists; split; [reflexivity|].
  cbn [defects defect_entries primitive_structure supercell_matrix].
  repeat split.
  - now apply PyDictFacts.get_remove_same.
  - intros k Hk. apply PyDictFacts.get_remove_other. congruence.
  - now apply PyDictFacts.length_remove.
Qed.

End FacadeFacts.

(** C4, at the empty CdTe generator: the neutral cadmium-vacancy entry is
    accepted, and the outcome is a failure exactly on the grounds listed. *)
Lemma C4_setitem_validates_before_storing_witness :
  exists self' outcome,
    __setitem__ (L := CdTe.libs) "v_Cd_s0_0" (ObjDefectEntry CdTe.v_Cd_entry)
      CdTe.blank = (self', outcome) /\
    (is_ok outcome = false <->
     turned_down (L := CdTe.libs) CdTe.blank (ObjDefectEntry CdTe.v_Cd_entry)) /\
    (is_ok outcome = false -> self' = CdTe.blank).
Proof.
  assert (Hmarked : forall v, ObjDefectEntry CdTe.v_Cd_entry = ObjDefectEntry v ->
            Exists (fun s => species_symbol s = "X")
              (sites (get_supercell_structure (Libraries := CdTe.libs) (defect v)
                        (supercell_matrix CdTe.blank) "X"))).
  { intros v [= <-]. apply Exists_cons_tl, Exists_cons_hd. reflexivity. }
  pose proof (C4_setitem_validates_before_storing (L := CdTe.libs) CdTe.blank
                "v_Cd_s0_0" (ObjDefectEntry CdTe.v_Cd_entry) Hmarked) as H.
  destruct (__setitem__ (L := CdTe.libs) "v_Cd_s0_0"
              (ObjDefectEntry CdTe.v_Cd_entry) CdTe.blank) as [self' outcome].
  exists self', outcome. destruct H as (Hiff & Hfail & _).
  split; [reflexivity|]. split; [exact Hiff|].
  intros Hf. exact (proj1 (Hfail Hf)).
Defined.

(** C10, at the empty CdTe generator: the entry named [v_Cd_s0_0] is stored
    under, and read back from, another key. *)
Lemma C10_assignment_key_is_not_checked_witness :
  name CdTe.v_Cd_entry <> Some "my_vacancy" /\
  exists self',
    __setitem__ (L := CdTe.libs) "my_vacancy" (ObjDefectEntry CdTe.v_Cd_entry)
      CdTe.blank = (self', Ok tt) /\
    __getitem__ self' "my_vacancy" = Ok CdTe.v_Cd_entry.
Proof.
  split; [discriminate|].
  apply (C10_assignment_key_is_not_checked (L := CdTe.libs) CdTe.blank
           "my_vacancy" CdTe.v_Cd_entry (CdTe.forget_name CdTe.v_Cd_entry));
    reflexivity.
Defined.

(** C8, at the generator that holds one entry. *)
Lemma C8_delitem_removes_one_entry_witness :
  exists self',
    __delitem__ "v_Cd_s0_0" CdTe.stocked = (self', Ok tt) /\
    PyDict.get (defect_entries self') "v_Cd_s0_0" = None /\
    defects self' = [("vacancies", [CdTe.v_Cd])].
Proof.
  destruct (C8_delitem_removes_one_entry CdTe.stocked "v_Cd_s0_0")
    as (self' & Hrun & Hgone & _ & _ & Hdefects & _).
  - repeat constructor. simpl; tauto.
  - reflexivity.
  - exists self'. repeat split; assumption.
Defined.

(** * Serialization *)

Lemma get_strip_tags_tag (d : PyDict.t PyVal) (k : string) :
  PyStr.startswith k "@" = true -> PyDict.get (strip_tags d) k = None.
Proof.
  intros Hk. induction d as [|[k0 v0] d IH]; simpl; [reflexivity|].
  destruct (PyStr.startswith k0 "@") eqn:E; simpl; [exact IH|].
  destruct (String.eqb k0 k) eqn:Ek; [|exact IH].
  apply String.eqb_eq in Ek. congruence.
Qed.

Lemma strip_tags_untagged (d : PyDict.t PyVal) :
  tagged_as_generator (strip_tags d) = false.
Proof.
  unfold tagged_as_generator.
  now rewrite (get_strip_tags_tag d "@module") by reflexivity.
Qed.

(** The record of [as_dict] without its tags, decoded to itself, builds the
    generator again. *)
Lemma rebuild_of_untagged_record (g : DefectsGenerator) :
  rebuild (DecDict (strip_tags (as_dict g))) = Ok g.
Proof. destruct g. reflexivity. Qed.

(** The decoder of the CdTe libraries hands a tagged record over to
    [from_dict]. *)
Lemma CdTe_decoder_hands_over : hands_tagged_records_to_from_dict CdTe.libs.
Proof.
  intros d Ht. unfold from_dict. cbn [process_decoded CdTe.libs].
  unfold CdTe.decode. now rewrite Ht, strip_tags_untagged.
Qed.

(** C5 (what the code does instead): the record of [as_dict] carries the
    module and the class of the generator, so the decoder calls [from_dict]
    on the record without its tags and returns the object built;
    [from_dict] then subscripts that object, and [d_decoded["defects"]] is
    a lookup among its entries.  Hence, for a decoder that hands a tagged
    record over in this way, [from_dict(g.as_dict())] raises
    [KeyError('defects')] whenever the object built from the untagged
    record has no entry of that name, and raises what that inner call
    raises if it fails; in particular, when the untagged record decodes to
    itself and no entry of [g] is named [defects], the round trip raises
    [KeyError('defects')] instead of giving the four fields back. *)
Theorem C5_from_dict_of_as_dict_raises {L : Libraries} (g : DefectsGenerator) :
  hands_tagged_records_to_from_dict L ->
  (forall obj, from_dict (strip_tags (as_dict g)) = Ok obj ->
     __contains__ obj "defects" = false ->
     from_dict (as_dict g) = Raise (KeyError "defects")) /\
  (forall e, from_dict (strip_tags (as_dict g)) = Raise e ->
     from_dict (as_dict g) = Raise e) /\
  (process_decoded (strip_tags (as_dict g))
     = Ok (DecDict (strip_tags (as_dict g))) ->
   __contains__ g "defects" = false ->
   from_dict (as_dict g) = Raise (KeyError "defects")).
Proof.
  intros Hhands.
  assert (Hobj : forall obj, from_dict (strip_tags (as_dict g)) = Ok obj ->
            __contains__ obj "defects" = false ->
            from_dict (as_dict g) = Raise (KeyError "defects")).
  { intros obj Hinner Hnone. unfold from_dict at 1.
    rewrite (Hhands (as_dict g) eq_refl), Hinner. cbn [bind].
    unfold rebuild, subscript, __getitem__, PyDict.getitem.
    unfold __contains__, PyDict.mem in Hnone.
    destruct (PyDict.get (defect_entries obj) "defects"); [discriminate|].
    reflexivity. }
  split; [exact Hobj|]. split.
  - intros e Hinner. unfold from_dict at 1.
    now rewrite (Hhands (as_dict g) eq_refl), Hinner.
  - intros Hsame Hnone. apply (Hobj g); [|exact Hnone].
    unfold from_dict. rewrite Hsame. cbn [bind].
    apply rebuild_of_untagged_record.
Qed.

(** C5, at the generator that holds one entry, [v_Cd_s0_0]. *)
Lemma C5_from_dict_of_as_dict_raises_witness :
  from_dict (L := CdTe.libs) (as_dict CdTe.stocked)
  = Raise (KeyError "defects").
Proof.
  destruct (C5_from_dict_of_as_dict_raises (L := CdTe.libs) CdTe.stocked
              CdTe_decoder_hands_over) as (Hobj & _ & _).
  destruct (from_dict (L := CdTe.libs) (strip_tags (as_dict CdTe.stocked)))
    as [obj|] eqn:E; [|vm_compute in E; discriminate].
  apply (Hobj obj eq_refl).
  vm_compute in E. injection E as <-. reflexivity.
Defined.

(** * Interpolation of chemical potentials *)

Module FermiSolverFacts.
Import FermiSolver.
Local Open Scope Q_scope.

Lemma map_result_map {A B} (f : A -> result B) (g : A -> B) (l : list A) :
  (forall x, In x l -> f x = Ok (g x)) -> map_result f l = Ok (map g l).
Proof.
  induction l as [|x l IH]; intros H; simpl; [reflexivity|].
  rewrite (H x (or_introl eq_refl)). simpl.
  rewrite IH by (intros y Hy; apply H; now right). reflexivity.
Qed.

Lemma interpolated_sample_point (a b : Chempots) (n i : nat) :
  PyDict.keys a = PyDict.keys b ->
  interpolated_sample a b n i = Ok (point a b n i).
Proof.
  intros Hkeys. unfold interpolated_sample, point. apply map_result_map.
  intros [k v] Hin. cbn [fst snd].
  assert (Hk : In k (PyDict.keys b)).
  { rewrite <- Hkeys. change k with (fst (k, v)). now apply in_map. }
  unfold PyDict.getitem, value_at, PyDict.get_default.
  destruct (PyDict.get b k) eqn:E; [reflexivity|].
  now apply PyDictFacts.get_None in E.
Qed.

Lemma value_at_point (a b : Chempots) (n i : nat) (el : string) :
  value_at (point a b n i) el ==
    match PyDict.get a el with
    | Some v => v + (value_at b el - v) *
                  (inject_Z (Z.of_nat i) / inject_Z (Z.of_nat (n - 1)))
    | None => 0
    end.
Proof.
  unfold value_at at 1, PyDict.get_default, point.
  induction a as [|[k v] a IH]; cbn [map PyDict.get fst snd]; [reflexivity|].
  destruct (String.eqb k el) eqn:E; [|exact IH].
  apply String.eqb_eq in E; subst k. reflexivity.
Qed.

Lemma same_point_value_at (p p' : Chempots) (el : string) :
  same_point p p' -> value_at p el == value_at p' el.
Proof.
  unfold value_at, PyDict.get_default.
  induction 1 as [|[k v] [k' v'] p p' [Hk Hv] _ IH]; cbn [PyDict.get];
    [reflexivity|].
  cbn [fst snd] in Hk, Hv. subst k'.
  destruct (String.eqb k el); [exact Hv | exact IH].
Qed.

Lemma point_first (a b : Chempots) : same_point (point a b 5 0) a.
Proof.
  unfold same_point, point.
  induction a as [|[k v] a IH]; cbn [map fst snd]; constructor; auto.
  cbn [fst snd]. split; [reflexivity|].
  change (inject_Z (Z.of_nat 0)) with 0%Q.
  change (inject_Z (Z.of_nat (5 - 1))) with 4%Q. field.
Qed.

Lemma point_middle (a b : Chempots) : same_point (point a b 5 2) (mean_point a b).
Proof.
  unfold same_point, point, mean_point.
  induction a as [|[k v] a IH]; cbn [map fst snd]; constructor; auto.
  cbn [fst snd]. split; [reflexivity|].
  change (inject_Z (Z.of_nat 2)) with 2%Q.
  change (inject_Z (Z.of_nat (5 - 1))) with 4%Q. field.
Qed.

Lemma point_last_gen (b : Chempots) (l l' : Chempots) :
  map fst l = map fst l' ->
  (forall k v, In (k, v) l' -> PyDict.get b k = Some v) ->
  Forall2 (fun x y => fst x = fst y /\ snd x == snd y)
    (map (fun kv =>
            (fst kv,
             snd kv + (value_at b (fst kv) - snd kv) *
               (inject_Z (Z.of_nat 4) / inject_Z (Z.of_nat (5 - 1))))) l) l'.
Proof.
  revert l'; induction l as [|[k v] l IH]; intros [|[k' v'] l'] Hk Hb;
    try discriminate; cbn [map fst snd] in *; constructor.
  - injection Hk as -> _. cbn [fst snd]. split; [reflexivity|].
    unfold value_at, PyDict.get_default.
    rewrite (Hb k' v' (or_introl eq_refl)).
    change (inject_Z (Z.of_nat 4)) with 4%Q.
    change (inject_Z (Z.of_nat (5 - 1))) with 4%Q. field.
  - injection Hk as _ Hk. apply IH; [exact Hk|].
    intros k0 v0 Hin. apply Hb. now right.
Qed.

Lemma point_last (a b : Chempots) :
  PyDict.keys a = PyDict.keys b -> PyDict.wf b -> same_point (point a b 5 4) b.
Proof.
  intros Hk Hwf. apply point_last_gen; [exact Hk|].
  intros k v Hin. now apply PyDictFacts.In_get.
Qed.

Lemma value_at_absent (p : Chempots) (el : string) :
  PyDict.get p el = None -> value_at p el = 0%Q.
Proof. unfold value_at, PyDict.get_default. now intros ->. Qed.

Lemma get_same_keys (a b : Chempots) (el : string) :
  PyDict.keys a = PyDict.keys b -> PyDict.get a el = None -> PyDict.get b el = None.
Proof.
  intros Hk Ha. apply PyDictFacts.get_None. rewrite <- Hk.
  now apply PyDictFacts.get_None.
Qed.

(** The value of an element at sample [i] of five. *)
Lemma value_at_point5 (a b : Chempots) (i : nat) (el : string) :
  PyDict.keys a = PyDict.keys b ->
  value_at (point a b 5 i) el ==
    value_at a el + (value_at b el - value_at a el) * (inject_Z (Z.of_nat i) / 4).
Proof.
  intros Hk. rewrite value_at_point.
  destruct (PyDict.get a el) as [v|] eqn:E.
  - assert (Ha : value_at a el = v)
      by (unfold value_at, PyDict.get_default; now rewrite E).
    rewrite Ha. change (inject_Z (Z.of_nat (5 - 1))) with 4%Q. reflexivity.
  - rewrite (value_at_absent a el E).
    rewrite (value_at_absent b el (get_same_keys a b el Hk E)). field.
Qed.

Lemma points_differ (a b : Chempots) (i j : nat) :
  PyDict.keys a = PyDict.keys b ->
  (exists el, ~ value_at a el == value_at b el) ->
  i <> j -> ~ same_point (point a b 5 i) (point a b 5 j).
Proof.
  intros Hk [el Hel] Hij Hsame.
  pose proof (same_point_value_at _ _ el Hsame) as H.
  rewrite !value_at_point5 in H by exact Hk.
  assert (Hz : (value_at b el - value_at a el) *
               (inject_Z (Z.of_nat i) - inject_Z (Z.of_nat j)) == 0).
  { transitivity
      (4 * ((value_at a el + (value_at b el - value_at a el) *
               (inject_Z (Z.of_nat i) / 4)) -
            (value_at a el + (value_at b el - value_at a el) *
               (inject_Z (Z.of_nat j) / 4)))); [field|].
    rewrite H. ring. }
  apply Qmult_integral in Hz as [Hz | Hz].
  - apply Hel. symmetry. apply Qplus_inj_r with (z := - value_at a el).
    rewrite Qplus_opp_r. exact Hz.
  - apply Hij. apply Nat2Z.inj.
    assert (Heq : inject_Z (Z.of_nat i) == inject_Z (Z.of_nat j)).
    { apply Qplus_inj_r with (z := - inject_Z (Z.of_nat j)).
      rewrite Qplus_opp_r. exact Hz. }
    unfold Qeq in Heq; simpl in Heq. lia.
Qed.

End FermiSolverFacts.

(** C9: between two end points (two limits of the record, or two explicit
    dictionaries over the same elements) that differ in the value of some
    element, [interpolate_chempots] with [n_points = 5] works at five
    samples, no two of them equal and each one step of a quarter of the way
    after the one before: the first is the first end point, the last is the
    second end point, and the middle one is their element-wise mean. *)
Theorem C9_interpolation_five_points
  (limits_of_record : PyDict.t FermiSolver.Chempots)
  (ends : FermiSolver.EndPoints) (a b : FermiSolver.Chempots) :
  FermiSolver.end_points limits_of_record ends = Ok (a, b) ->
  PyDict.keys a = PyDict.keys b ->
  PyDict.wf b ->
  (exists el, ~ (FermiSolver.value_at a el == FermiSolver.value_at b el)%Q) ->
  exists p0 p1 p2 p3 p4,
    let samples := [p0; p1; p2; p3; p4] in
    FermiSolver.interpolate_chempots limits_of_record ends 5 = Ok samples /\
    FermiSolver.same_point p0 a /\
    FermiSolver.same_point p4 b /\
    FermiSolver.same_point p2 (FermiSolver.mean_point a b) /\
    (forall i j, (i < 5)%nat -> (j < 5)%nat -> i <> j ->
       ~ FermiSolver.same_point (nth i samples []) (nth j samples [])) /\
    (forall i el, (i < 4)%nat ->
       (FermiSolver.value_at (nth (S i) samples []) el
        - FermiSolver.value_at (nth i samples []) el
        == (FermiSolver.value_at b el - FermiSolver.value_at a el) / 4)%Q).
Proof.
  intros Hends Hk Hwf Hdiff.
  exists (FermiSolver.point a b 5 0), (FermiSolver.point a b 5 1),
         (FermiSolver.point a b 5 2), (FermiSolver.point a b 5 3),
         (FermiSolver.point a b 5 4).
  assert (Hnth : forall i, (i < 5)%nat ->
            nth i [FermiSolver.point a b 5 0; FermiSolver.point a b 5 1;
                   FermiSolver.point a b 5 2; FermiSolver.point a b 5 3;
                   FermiSolver.point a b 5 4] [] = FermiSolver.point a b 5 i).
  { intros i Hi. do 5 (destruct i as [|i]; [reflexivity|]). lia. }
  cbv zeta. split; [|split; [|split; [|split; [|split]]]].
  - unfold FermiSolver.interpolate_chempots. rewrite Hends. cbn [bind].
    unfold FermiSolver._get_interpolated_chempots.
    rewrite (FermiSolverFacts.map_result_map _ (FermiSolver.point a b 5)).
    + reflexivity.
    + intros i _. now apply FermiSolverFacts.interpolated_sample_point.
  - apply FermiSolverFacts.point_first.
  - now apply FermiSolverFacts.point_last.
  - apply FermiSolverFacts.point_middle.
  - intros i j Hi Hj Hij. rewrite !Hnth by assumption.
    now apply FermiSolverFacts.points_differ.
  - intros i el Hi. rewrite !Hnth by lia.
    rewrite !FermiSolverFacts.value_at_point5 by exact Hk.
    rewrite Nat2Z.inj_succ. unfold Z.succ. rewrite inject_Z_plus. field.
Qed.

(** C9, between the two end points of the solver's own test. *)
Lemma C9_interpolation_five_points_witness :
  exists p0 p1 p2 p3 p4,
    FermiSolver.interpolate_chempots []
      (FermiSolver.ChempotDicts [FermiSolver.cd_rich; FermiSolver.te_rich]) 5
      = Ok [p0; p1; p2; p3; p4] /\
    FermiSolver.same_point p0 FermiSolver.cd_rich /\
    FermiSolver.same_point p4 FermiSolver.te_rich /\
    FermiSolver.same_point p2 [("Cd", (-3#4)%Q); ("Te", (-3#4)%Q)].
Proof.
  assert (Hwf : PyDict.wf FermiSolver.te_rich)
    by (repeat constructor; simpl; intuition discriminate).
  assert (Hdiff : exists el, ~ (FermiSolver.value_at FermiSolver.cd_rich el
                                == FermiSolver.value_at FermiSolver.te_rich el)%Q)
    by (exists "Cd"; intros H; discriminate H).
  destruct (C9_interpolation_five_points []
              (FermiSolver.ChempotDicts [FermiSolver.cd_rich; FermiSolver.te_rich])
              FermiSolver.cd_rich FermiSolver.te_rich eq_refl eq_refl Hwf Hdiff)
    as (p0 & p1 & p2 & p3 & p4 & Hrun & H0 & H4 & H2 & _).
  exists p0, p1, p2, p3, p4. repeat split; assumption.
Defined.

(** * Generation of the entries *)

Section GenerationFacts.
Context {L : Libraries}.

Lemma get_defect_entry_fields (d : Defect) (sc : Structure) (q : Z) (X : string)
  (e : DefectEntry) :
  get_defect_entry_from_defect d sc q X = Ok e ->
  defect e = d /\ charge_state e = q /\ name e = None.
Proof.
  unfold get_defect_entry_from_defect.
  destruct (find_dummy_site X (sites sc)) as [[pos x]|]; [|discriminate].
  destruct (remove_site (sites sc) pos x); simpl; [|discriminate].
  intros [= <-]. auto.
Qed.

Lemma built_in_cell_set_name (sc_mat : Matrix) (e : DefectEntry) (n : string) :
  built_in_cell sc_mat e -> built_in_cell sc_mat (set_name e n).
Proof.
  intros (e0 & n0 & He0 & ->). exists e0, n. split; [exact He0 | reflexivity].
Qed.

Lemma built_in_cell_assembled (sc_mat : Matrix) (d : Defect) (q : Z)
  (e0 : DefectEntry) (n : string) :
  get_defect_entry_from_defect d (get_supercell_structure d sc_mat "X") q "X"
    = Ok e0 ->
  built_in_cell sc_mat (set_name e0 n).
Proof.
  intros He0. destruct (get_defect_entry_fields _ _ _ _ _ He0) as (Hd & Hq & _).
  exists e0, n. cbn [set_name defect charge_state]. rewrite Hd, Hq. now split.
Qed.

Lemma rename_step_built (sc_mat : Matrix) (n : string)
  (es es' : PyDict.t DefectEntry) (c c' : Z) (item : string * DefectEntry) :
  built_in_cell sc_mat (snd item) ->
  all_built sc_mat es ->
  rename_step n (es, c) item = Ok (es', c') ->
  all_built sc_mat es'.
Proof.
  destruct item as [k e]; cbn [snd]. intros He Hes. unfold rename_step.
  destruct (PyStr.startswith k (PyStr.drop_last n ++ "_")).
  - destruct (PyStr.int (PyStr.rsplit_last "_" k)) as [q|]; simpl; [|discriminate].
    unfold PyDict.del. destruct (PyDict.mem _ k); simpl; [|discriminate].
    intros [= <- _]. apply PyDictFacts.Forall_remove, PyDictFacts.Forall_set; auto.
    now apply built_in_cell_set_name.
  - now intros [= <- _].
Qed.

Lemma rename_loop_built (sc_mat : Matrix) (n : string)
  (items : list (string * DefectEntry)) :
  all_built sc_mat items ->
  forall es c es' c',
    all_built sc_mat es ->
    for_each (rename_step n) items (es, c) = Ok (es', c') ->
    all_built sc_mat es'.
Proof.
  unfold all_built at 1.
  induction 1 as [|item items Hitem _ IH]; intros es c es' c' Hes;
    cbn [for_each].
  - now intros [= <- _].
  - destruct (rename_step n (es, c) item) as [[es1 c1]|] eqn:E; cbn [bind];
      [|discriminate].
    apply IH. eapply rename_step_built; eauto.
Qed.

(** One charge state: the entries stay assembled in the cell of [sc_mat],
    and no call to the supercell routines is made. *)
Lemma charge_body_built (sc_mat : Matrix) (d : Defect)
  (st st' : GenState) (nw nw' : option string) (q : Z) :
  all_built sc_mat (st_entries st) ->
  charge_body d (get_supercell_structure d sc_mat "X") (st, nw) q = Ok (st', nw') ->
  all_built sc_mat (st_entries st') /\ st_calls st' = st_calls st.
Proof.
  intros Hes. unfold charge_body.
  destruct (get_defect_entry_from_defect d _ q "X") as [e0|] eqn:He0; simpl;
    [|discriminate].
  destruct nw as [n|].
  - simpl. intros [= <- _]. cbn [st_entries st_calls]. split; [|reflexivity].
    apply PyDictFacts.Forall_set; [assumption|].
    eapply built_in_cell_assembled; eauto.
  - destruct (_update_defect_dict e0 (_get_defect_name_from_obj d) (st_naming st))
      as [n naming].
    destruct (PyStr.endswith n "b").
    + destruct (for_each (rename_step n) (st_entries st) (st_entries st, q))
        as [[es1 c1]|] eqn:Eloop; simpl; [|discriminate].
      intros [= <- _]. cbn [st_entries st_calls]. split; [|reflexivity].
      apply PyDictFacts.Forall_set.
      * eapply rename_loop_built; [| |exact Eloop]; assumption.
      * eapply built_in_cell_assembled; eauto.
    + simpl. intros [= <- _]. cbn [st_entries st_calls]. split; [|reflexivity].
      apply PyDictFacts.Forall_set; [assumption|].
      eapply built_in_cell_assembled; eauto.
Qed.

Lemma charge_loop_built (sc_mat : Matrix) (d : Defect) (qs : list Z) :
  forall st nw st' nw',
    all_built sc_mat (st_entries st) ->
    for_each (charge_body d (get_supercell_structure d sc_mat "X")) qs (st, nw)
      = Ok (st', nw') ->
    all_built sc_mat (st_entries st') /\ st_calls st' = st_calls st.
Proof.
  induction qs as [|q qs IH]; intros st nw st' nw' Hes; cbn [for_each].
  - intros [= <- _]. auto.
  - destruct (charge_body d _ (st, nw) q) as [[st1 nw1]|] eqn:E; cbn [bind];
      [|discriminate].
    destruct (charge_body_built _ _ _ _ _ _ _ Hes E) as [Hes1 Hc1].
    intros Hrest. destruct (IH _ _ _ _ Hes1 Hrest) as [Hes' Hc'].
    split; [assumption | congruence].
Qed.

Lemma process_defect_built (sc_mat : Matrix) (st st' : GenState) (d : Defect) :
  all_built sc_mat (st_entries st) ->
  process_defect sc_mat st d = Ok st' ->
  all_built sc_mat (st_entries st') /\
  st_calls st' = (st_calls st ++ [CallSupercellStructure d sc_mat "X"])%list.
Proof.
  intros Hes. unfold process_defect.
  destruct (for_each _ (charge_states (oxi_state d)) _) as [[st1 nw1]|] eqn:E;
    cbn [bind]; [|discriminate].
  intros [= <-]. now apply charge_loop_built in E.
Qed.

Lemma defect_loop_built (sc_mat : Matrix) (ds : list Defect) :
  forall st st',
    all_built sc_mat (st_entries st) ->
    for_each (process_defect sc_mat) ds st = Ok st' ->
    all_built sc_mat (st_entries st') /\
    st_calls st' =
      (st_calls st ++ map (fun d => CallSupercellStructure d sc_mat "X") ds)%list.
Proof.
  induction ds as [|d ds IH]; intros st st' Hes; cbn [for_each map].
  - intros [= <-]. now rewrite app_nil_r.
  - destruct (process_defect sc_mat st d) as [st1|] eqn:E; cbn [bind];
      [|discriminate].
    destruct (process_defect_built _ _ _ _ Hes E) as [Hes1 Hc1].
    intros Hrest. destruct (IH _ _ Hes1 Hrest) as [Hes' Hc'].
    split; [assumption|]. now rewrite Hc', Hc1, <- app_assoc.
Qed.

Lemma generate_entries_built (sc_mat : Matrix) (all_defects : PyDict.t (list Defect)) :
  forall es calls es' calls',
    all_built sc_mat es ->
    for_each (process_kind sc_mat) all_defects (es, calls) = Ok (es', calls') ->
    all_built sc_mat es' /\
    calls' =
      (calls ++ map (fun d => CallSupercellStructure d sc_mat "X")
                  (flat_map snd all_defects))%list.
Proof.
  induction all_defects as [|[kind ds] rest IH]; intros es calls es' calls' Hes;
    cbn [for_each flat_map].
  - intros [= <- <-]. now rewrite app_nil_r.
  - unfold process_kind at 1. cbn [snd].
    destruct (for_each (process_defect sc_mat) ds _) as [st1|] eqn:E; cbn [bind];
      [|discriminate].
    apply defect_loop_built in E as [Hes1 Hc1]; [|exact Hes].
    cbn [st_entries st_calls] in Hc1.
    intros Hrest. destruct (IH _ _ _ _ Hes1 Hrest) as [Hes' Hc'].
    split; [assumption|]. now rewrite Hc', Hc1, map_app, <- app_assoc.
Qed.

End GenerationFacts.

(** C7: a construction that completes has asked for the supercell matrix
    once, for the final primitive structure, with [min_atoms], [max_atoms],
    [min_length] and [force_diagonal] taken from the keyword arguments and
    defaulting to 50, 240, 10 and False; the matrix it keeps is the answer;
    every later call builds the supercell of one enumerated defect with that
    matrix, one call per defect; and every stored entry is the one assembled
    from its defect in the supercell of that matrix. *)
Theorem C7_one_supercell_matrix {L : Libraries}
  (structure0 : Structure) (extrinsic : Extrinsic)
  (interstitial_coords : list Coords) (kwargs : PyDict.t KwVal)
  (g : DefectsGenerator) (calls : list Call) :
  __init__ structure0 extrinsic interstitial_coords kwargs = Ok (g, calls) ->
  let min_atoms := PyDict.get_default kwargs "min_atoms" (KwInt 50) in
  let max_atoms := PyDict.get_default kwargs "max_atoms" (KwInt 240) in
  let min_length := PyDict.get_default kwargs "min_length" (KwInt 10) in
  let force_diagonal := PyDict.get_default kwargs "force_diagonal" (KwBool false) in
  calls =
    CallScFromStruct (primitive_structure g)
      min_atoms max_atoms min_length force_diagonal
    :: map (fun d => CallSupercellStructure d (supercell_matrix g) "X")
         (flat_map snd (defects g)) /\
  supercell_matrix g =
    get_sc_fromstruct (primitive_structure g)
      min_atoms max_atoms min_length force_diagonal /\
  all_built (supercell_matrix g) (defect_entries g).
Proof.
  unfold __init__.
  destruct (vacancy_generate _) as [vacancies prim1].
  destruct (antisite_generate _) as [antisites prim2].
  match goal with
  | |- context [let '(ds, p) := ?x in _] => destruct x as [ds3 prim3]
  end.
  match goal with
  | |- context [let '(ds, p) := ?x in _] => destruct x as [interstitials prim4]
  end.
  unfold generate_entries.
  match goal with
  | |- context [for_each ?f ?xs ?s] => destruct (for_each f xs s) as [[es cs]|] eqn:E
  end; cbn [bind]; [|discriminate].
  destruct (_defect_generator_info _); cbn [bind]; [|discriminate].
  intros [= <- <-].
  cbn [defects defect_entries primitive_structure supercell_matrix].
  apply generate_entries_built in E as [Hes Hcs]; [|constructor].
  cbv zeta. repeat split; assumption.
Qed.

(** C7, at the CdTe host with no keyword argument: the defaults are used,
    and the one matrix goes to each of the eight defects. *)
Lemma C7_one_supercell_matrix_witness :
  exists g calls,
    CdTe.generated = Ok (g, calls) /\
    calls =
      CallScFromStruct CdTe.host (KwInt 50) (KwInt 240) (KwInt 10) (KwBool false)
      :: map (fun d => CallSupercellStructure d CdTe.sc_matrix "X")
           [CdTe.v_Cd; CdTe.v_Te; CdTe.Te_Cd; CdTe.Cd_Te;
            CdTe.Cd_i_1; CdTe.Cd_i_2; CdTe.Te_i_1; CdTe.Te_i_2] /\
    all_built (L := CdTe.libs) CdTe.sc_matrix (defect_entries g).
Proof.
  unfold CdTe.generated.
  destruct (__init__ (L := CdTe.libs) CdTe.host (ExtDict []) [] [])
    as [[g calls]|] eqn:E; [|vm_compute in E; discriminate].
  exists g, calls. split; [reflexivity|].
  pose proof (C7_one_supercell_matrix (L := CdTe.libs) CdTe.host (ExtDict []) []
                [] g calls E) as H.
  cbv zeta in H. destruct H as (Hcalls & Hmat & Hbuilt).
  assert (Hg : primitive_structure g = CdTe.host /\
               supercell_matrix g = CdTe.sc_matrix /\
               flat_map snd (defects g) =
                 [CdTe.v_Cd; CdTe.v_Te; CdTe.Te_Cd; CdTe.Cd_Te;
                  CdTe.Cd_i_1; CdTe.Cd_i_2; CdTe.Te_i_1; CdTe.Te_i_2]).
  { vm_compute in E. injection E as <- _. repeat split. }
  destruct Hg as (Hp & Hm & Hd).
  rewrite Hp, Hm, Hd in Hcalls. rewrite Hm in Hbuilt. split; assumption.
Defined.

(** * Names: the collision of two base names *)

Module NameFacts.
Import PyStr PyStrFacts.

Lemma append_inj_l (p s t : string) : p ++ s = p ++ t -> s = t.
Proof. induction p as [|a p IH]; simpl; [auto | intros [= H]; auto]. Qed.

Lemma undecorated_eq (base : string) (q : Z) :
  undecorated base q = base ++ String "_" (signed q).
Proof. reflexivity. Qed.

Lemma decorated_eq (base : string) (c : ascii) (q : Z) :
  decorated base c q = base ++ String c (String "_" (signed q)).
Proof. unfold decorated, lettered. now rewrite append_assoc. Qed.

Lemma lettered_prefix_eq (base : string) (c : ascii) :
  lettered base c ++ "_" = base ++ String c "_".
Proof. unfold lettered. now rewrite append_assoc. Qed.

Lemma undecorated_inj (base : string) (q q' : Z) :
  undecorated base q = undecorated base q' -> q = q'.
Proof.
  rewrite !undecorated_eq. intros H. apply append_inj_l in H.
  injection H as H. now apply signed_inj.
Qed.

Lemma decorated_inj (base : string) (c : ascii) (q q' : Z) :
  decorated base c q = decorated base c q' -> q = q'.
Proof.
  rewrite !decorated_eq. intros H. apply append_inj_l in H.
  injection H as H. now apply signed_inj.
Qed.

Lemma startswith_undecorated (base : string) (q : Z) :
  startswith (undecorated base q) (base ++ "_") = true.
Proof.
  rewrite undecorated_eq.
  change (String "_" (signed q)) with ("_" ++ signed q).
  rewrite <- append_assoc. apply startswith_append.
Qed.

(** A lettered name does not start with [<base>_], nor with the prefix of
    another letter. *)
Lemma startswith_decorated (base : string) (c c' : ascii) (q : Z) :
  startswith (decorated base c q) (base ++ String c' "_") = Ascii.eqb c' c.
Proof.
  rewrite decorated_eq, startswith_append_same, startswith_cons.
  rewrite startswith_cons, Ascii.eqb_refl, startswith_nil.
  now rewrite !andb_true_r.
Qed.

Lemma startswith_decorated_plain (base : string) (c : ascii) (q : Z) :
  Ascii.eqb "_" c = false ->
  startswith (decorated base c q) (base ++ "_") = false.
Proof.
  intros Hc. rewrite decorated_eq, startswith_append_same, startswith_cons.
  now rewrite Hc.
Qed.

Lemma int_of_undecorated (base : string) (q : Z) :
  int (rsplit_last "_" (undecorated base q)) = Ok q.
Proof.
  rewrite undecorated_eq, rsplit_last_append by apply signed_lacks_underscore.
  apply int_signed.
Qed.

Lemma canonical_spec (base k : string) :
  canonical base k = true ->
  exists q, k = undecorated base q.
Proof.
  unfold canonical. destruct (int (rsplit_last "_" k)) as [q|]; [|discriminate].
  intros H. apply String.eqb_eq in H. now exists q.
Qed.

End NameFacts.

Section Rename.
Import PyStr PyStrFacts NameFacts.
Variable base : string.

Lemma decorated_not_undecorated (c : ascii) (q q' : Z) :
  Ascii.eqb "_" c = false -> decorated base c q <> undecorated base q'.
Proof.
  intros Hc Heq. pose proof (startswith_decorated_plain base c q Hc) as H.
  rewrite Heq, startswith_undecorated in H. discriminate.
Qed.

Lemma rename_step_under (es : PyDict.t DefectEntry) (c q : Z) (e : DefectEntry) :
  PyDict.mem es (undecorated base q) = true ->
  rename_step (lettered base "b") (es, c) (undecorated base q, e) =
    Ok (PyDict.remove
          (PyDict.set es (decorated base "a" q)
             (set_name e (decorated base "a" q)))
          (undecorated base q), q).
Proof.
  intros Hmem. unfold rename_step, lettered. rewrite drop_last_lettered.
  rewrite startswith_undecorated, int_of_undecorated. cbn [bind].
  replace (base ++ "a_" ++ signed q) with (decorated base "a" q)
    by (rewrite decorated_eq; reflexivity).
  unfold PyDict.del, PyDict.mem in *.
  rewrite PyDictFacts.get_set_other
    by (apply decorated_not_undecorated; reflexivity).
  destruct (PyDict.get es (undecorated base q)); [reflexivity | discriminate].
Qed.

Lemma rename_step_other (es : PyDict.t DefectEntry) (c : Z) (k : string)
  (e : DefectEntry) :
  startswith k (base ++ "_") = false ->
  rename_step (lettered base "b") (es, c) (k, e) = Ok (es, c).
Proof.
  intros Hk. unfold rename_step, lettered. rewrite drop_last_lettered.
  now rewrite Hk.
Qed.

(** The loop over a list [pending] of stored items, from the dictionary [es]:
    it completes; a key is either as before, or the old or the new key of a
    renamed item; every item under [base] is found under its new key, with
    its new name, and no longer under its old key. *)
Lemma rename_loop_spec (pending : list (string * DefectEntry)) :
  forall (es : PyDict.t DefectEntry) (c : Z),
    NoDup (PyDict.keys pending) ->
    (forall k e, In (k, e) pending -> startswith k (base ++ "_") = true ->
       canonical base k = true /\ PyDict.mem es k = true) ->
    PyDict.wf es ->
    exists es' c',
      for_each (rename_step (lettered base "b")) pending (es, c) = Ok (es', c') /\
      PyDict.wf es' /\
      (forall k, PyDict.get es' k = PyDict.get es k \/
         exists q e, In (undecorated base q, e) pending /\
                     (k = undecorated base q \/ k = decorated base "a" q)) /\
      (forall q e, In (undecorated base q, e) pending ->
         PyDict.get es' (decorated base "a" q)
           = Some (set_name e (decorated base "a" q))) /\
      (forall q e, In (undecorated base q, e) pending ->
         PyDict.get es' (undecorated base q) = None).
Proof.
  induction pending as [|[k e] pending IH]; intros es c Hnd Htodo Hwf; cbn [for_each].
  - exists es, c. repeat split; auto; intros ? ? [].
  - cbn [PyDict.keys map fst] in Hnd. inversion Hnd as [|? ? Hk Hnd']; subst.
    destruct (startswith k (base ++ "_")) eqn:Hpre.
    + destruct (Htodo k e (or_introl eq_refl) Hpre) as [Hcan Hmem].
      destruct (canonical_spec _ _ Hcan) as [q ->].
      rewrite (rename_step_under es c q e Hmem). cbn [bind].
      set (es1 := PyDict.remove _ _).
      assert (Hget1 : forall k', k' <> undecorated base q ->
                k' <> decorated base "a" q -> PyDict.get es1 k' = PyDict.get es k').
      { intros k' H1 H2. unfold es1.
        rewrite PyDictFacts.get_remove_other, PyDictFacts.get_set_other; auto. }
      assert (Hwf1 : PyDict.wf es1)
        by (apply PyDictFacts.wf_remove, PyDictFacts.wf_set; exact Hwf).
      destruct (IH es1 q Hnd') as (es' & c' & Hrun & Hwf' & Hframe & Hnew & Hold);
        [|exact Hwf1|].
      { intros k2 e2 Hin Hpre2.
        destruct (Htodo k2 e2 (or_intror Hin) Hpre2) as [Hcan2 Hmem2].
        split; [exact Hcan2|]. unfold PyDict.mem in *. rewrite Hget1; auto.
        - intros ->. apply Hk. change (undecorated base q) with (fst (undecorated base q, e2)).
          now apply in_map.
        - intros ->. rewrite startswith_decorated_plain in Hpre2 by reflexivity.
          discriminate. }
      exists es', c'. split; [exact Hrun|]. split; [exact Hwf'|].
      assert (Hfresh : forall q2 e2, In (undecorated base q2, e2) pending -> q2 <> q).
      { intros q2 e2 Hin ->. apply Hk.
        change (undecorated base q) with (fst (undecorated base q, e2)).
        now apply in_map. }
      split; [|split].
      * intros k'. destruct (Hframe k') as [Heq | (q2 & e2 & Hin & Hk')].
        -- destruct (string_dec k' (undecorated base q)) as [->|H1];
             [right; exists q, e; split; [now left | now left]|].
           destruct (string_dec k' (decorated base "a" q)) as [->|H2];
             [right; exists q, e; split; [now left | now right]|].
           left. now rewrite Heq, Hget1.
        -- right. exists q2, e2. split; [now right | exact Hk'].
      * intros q0 e0 [Heq | Hin]; [|now apply (Hnew q0 e0)].
        injection Heq as Hq0 <-. apply undecorated_inj in Hq0; subst q0.
        destruct (Hframe (decorated base "a" q)) as [-> | (q2 & e2 & Hin & [Hk'|Hk'])].
        -- unfold es1. rewrite PyDictFacts.get_remove_other
             by (intros H; symmetry in H; revert H;
                 apply decorated_not_undecorated; reflexivity).
           apply PyDictFacts.get_set_same.
        -- exfalso. revert Hk'. apply decorated_not_undecorated; reflexivity.
        -- apply decorated_inj in Hk'. exfalso. now apply (Hfresh q2 e2 Hin).
      * intros q0 e0 [Heq | Hin]; [|now apply (Hold q0 e0)].
        injection Heq as Hq0 <-. apply undecorated_inj in Hq0; subst q0.
        destruct (Hframe (undecorated base q)) as [-> | (q2 & e2 & Hin & [Hk'|Hk'])].
        -- unfold es1. apply PyDictFacts.get_remove_same.
           apply PyDictFacts.wf_set; exact Hwf.
        -- apply undecorated_inj in Hk'. exfalso. now apply (Hfresh q2 e2 Hin).
        -- exfalso. symmetry in Hk'. revert Hk'.
           apply decorated_not_undecorated; reflexivity.
    + rewrite (rename_step_other es c k e Hpre). cbn [bind].
      destruct (IH es c Hnd') as (es' & c' & Hrun & Hwf' & Hframe & Hnew & Hold);
        [|exact Hwf|].
      { intros k2 e2 Hin Hpre2. apply (Htodo k2 e2); [now right | exact Hpre2]. }
      exists es', c'. split; [exact Hrun|]. split; [exact Hwf'|].
      assert (Hhead : forall q0 e0, (k, e) = (undecorated base q0, e0) -> False).
      { intros q0 e0 [= -> _]. rewrite startswith_undecorated in Hpre.
        discriminate. }
      split; [|split].
      * intros k'. destruct (Hframe k') as [Heq | (q2 & e2 & Hin & Hk')];
          [now left|]. right. exists q2, e2. split; [now right | exact Hk'].
      * intros q0 e0 [Heq | Hin]; [destruct (Hhead _ _ Heq) | now apply (Hnew q0 e0)].
      * intros q0 e0 [Heq | Hin]; [destruct (Hhead _ _ Heq) | now apply (Hold q0 e0)].
Qed.

End Rename.

Section Collision.
Import PyStr PyStrFacts NameFacts.
Context {L : Libraries}.
Variable base : string.

Lemma stored_without_letter_spec (es : PyDict.t DefectEntry) (k : string) :
  stored_without_letter base es = true -> In k (PyDict.keys es) ->
  (startswith k (base ++ "_") = true -> canonical base k = true) /\
  startswith k (lettered base "a" ++ "_") = false /\
  startswith k (lettered base "b" ++ "_") = false.
Proof.
  unfold stored_without_letter. rewrite forallb_forall. intros H Hin.
  specialize (H k Hin). apply andb_true_iff in H as [H Hb].
  apply andb_true_iff in H as [Hc Ha].
  apply negb_true_iff in Ha, Hb. repeat split; auto.
  intros Hp. now rewrite Hp in Hc.
Qed.

Lemma In_keys (es : PyDict.t DefectEntry) (k : string) (e : DefectEntry) :
  In (k, e) es -> In k (PyDict.keys es).
Proof. intros H. change k with (fst (k, e)). now apply in_map. Qed.

(** The renaming loop run on the stored entries themselves. *)
Lemma rename_stored (es : PyDict.t DefectEntry) (c : Z) :
  PyDict.wf es ->
  stored_without_letter base es = true ->
  exists es' c',
    for_each (rename_step (lettered base "b")) es (es, c) = Ok (es', c') /\
    PyDict.wf es' /\
    (forall q e, PyDict.get es (undecorated base q) = Some e ->
       PyDict.get es' (decorated base "a" q)
         = Some (set_name e (decorated base "a" q))) /\
    (forall k, startswith k (base ++ "_") = true -> PyDict.get es' k = None) /\
    (forall k e', PyDict.get es' k = Some e' ->
       (PyDict.get es k = Some e' /\ startswith k (base ++ "_") = false) \/
       (exists q e, k = decorated base "a" q /\
                    PyDict.get es (undecorated base q) = Some e /\
                    e' = set_name e k)).
Proof.
  intros Hwf Hstored.
  destruct (rename_loop_spec base es es c Hwf) as
    (es' & c' & Hrun & Hwf' & Hframe & Hnew & Hold); [|exact Hwf|].
  { intros k e Hin Hp.
    destruct (stored_without_letter_spec es k Hstored (In_keys _ _ _ Hin))
      as (Hcan & _). split; [auto|].
    unfold PyDict.mem. now rewrite (PyDictFacts.In_get es k e Hwf Hin). }
  assert (Hgone : forall k, startswith k (base ++ "_") = true ->
                            PyDict.get es' k = None).
  { intros k Hp. destruct (PyDict.get es k) as [e|] eqn:Hget.
    - apply PyDictFacts.get_In in Hget.
      destruct (stored_without_letter_spec es k Hstored (In_keys _ _ _ Hget))
        as (Hcan & _).
      destruct (canonical_spec _ _ (Hcan Hp)) as [q ->]. now apply (Hold q e).
    - destruct (Hframe k) as [-> | (q & e & Hin & [-> | ->])]; auto.
      + now apply (Hold q e).
      + rewrite startswith_decorated_plain in Hp by reflexivity. discriminate. }
  exists es', c'. repeat split; auto.
  - intros q e Hget. apply Hnew. now apply PyDictFacts.get_In.
  - intros k e' Hget.
    destruct (Hframe k) as [Heq | (q & e & Hin & [-> | ->])].
    + left. rewrite Heq in Hget. split; [exact Hget|].
      destruct (startswith k (base ++ "_")) eqn:Hp; [|reflexivity].
      rewrite <- Heq, (Hgone k Hp) in Hget. discriminate.
    + rewrite (Hold q e Hin) in Hget. discriminate.
    + right. exists q, e. split; [reflexivity|].
      split; [now apply PyDictFacts.In_get|].
      rewrite (Hnew q e Hin) in Hget. now injection Hget as <-.
Qed.

(** A charge state handled once the name of the defect is known. *)
Lemma charge_body_named (sc_mat : Matrix) (d : Defect) (st : GenState)
  (n : string) (q : Z) (e0 : DefectEntry) :
  assembled sc_mat d q = Ok e0 ->
  charge_body d (get_supercell_structure d sc_mat "X") (st, Some n) q =
    Ok ({| st_entries :=
             PyDict.set (st_entries st) (n ++ "_" ++ signed q)
               (set_name e0 (n ++ "_" ++ signed q));
           st_naming := st_naming st; st_calls := st_calls st |}, Some n).
Proof. unfold assembled, charge_body. now intros ->. Qed.

Lemma named_key_inj (n : string) (q q' : Z) :
  n ++ "_" ++ signed q = n ++ "_" ++ signed q' -> q = q'.
Proof.
  intros H. apply append_inj_l in H. injection H as H. now apply signed_inj.
Qed.

Lemma charge_loop_named (sc_mat : Matrix) (d : Defect) (n : string)
  (Hmarked : marked sc_mat d) (qs : list Z) :
  forall st,
  exists st',
    for_each (charge_body d (get_supercell_structure d sc_mat "X")) qs
      (st, Some n) = Ok (st', Some n) /\
    (forall q, In q qs ->
       exists e0, assembled sc_mat d q = Ok e0 /\
         PyDict.get (st_entries st') (n ++ "_" ++ signed q)
           = Some (set_name e0 (n ++ "_" ++ signed q))) /\
    (forall k, PyDict.get (st_entries st') k = PyDict.get (st_entries st) k \/
       exists q, In q qs /\ k = n ++ "_" ++ signed q).
Proof.
  induction qs as [|q qs IH]; intros st; cbn [for_each].
  - exists st. repeat split; auto. intros q [].
  - destruct (get_defect_entry_marked d _ q "X" Hmarked) as (e0 & He0 & _).
    fold (assembled sc_mat d q) in He0.
    rewrite (charge_body_named sc_mat d st n q e0 He0). cbn [bind].
    set (st1 := {| st_entries := _ |}).
    destruct (IH st1) as (st' & Hrun & Hnew & Hframe).
    exists st'. split; [exact Hrun|]. split.
    + intros q' [<- | Hin]; [|now apply Hnew].
      destruct (in_dec Z.eq_dec q qs) as [Hq | Hq]; [now apply Hnew|].
      exists e0. split; [exact He0|].
      destruct (Hframe (n ++ "_" ++ signed q)) as [-> | (q2 & Hin2 & Heq)].
      * unfold st1; cbn [st_entries]. apply PyDictFacts.get_set_same.
      * apply named_key_inj in Heq. subst q2. contradiction.
    + intros k. destruct (Hframe k) as [Heq | (q2 & Hin2 & ->)].
      * destruct (string_dec k (n ++ "_" ++ signed q)) as [-> | Hne].
        -- right. exists q. split; [now left | reflexivity].
        -- left. rewrite Heq. unfold st1; cbn [st_entries].
           apply PyDictFacts.get_set_other. congruence.
      * right. exists q2. split; [now right | reflexivity].
Qed.

End Collision.

(** The part of the collision rule that holds for every collision: when a
    defect yields the base name under which an earlier defect is stored
    without a letter, generation names the new defect [<base>b] and renames
    every entry stored under [<base>_<charge>] to [<base>a_<charge>] (the
    old key is deleted and the entry is stored under the new key, with the
    new name), for each of its charge states.  Afterwards no key starts
    with [<base>_]; each charge state of the new defect after the first is
    stored under [<base>b_<charge>]; and every stored entry is an untouched
    one, a renamed one, or an entry of the new defect under a key
    [<base>b_...] that is also its name.  The entry of the first charge
    state of the new defect is left out of this statement: the theorems
    that follow are about it. *)
Lemma collision_letters_a_and_b {L : Libraries}
  (sc_mat : Matrix) (st : GenState) (d : Defect) (base : string) :
  _get_defect_name_from_obj d = base ->
  PyDict.mem (st_naming st) base = true ->
  PyDict.wf (st_entries st) ->
  stored_without_letter base (st_entries st) = true ->
  marked sc_mat d ->
  exists st',
    process_defect sc_mat st d = Ok st' /\
    (forall q e,
       PyDict.get (st_entries st) (undecorated base q) = Some e ->
       PyDict.get (st_entries st') (decorated base "a" q)
         = Some (set_name e (decorated base "a" q))) /\
    (forall k, PyStr.startswith k (base ++ "_") = true ->
       PyDict.get (st_entries st') k = None) /\
    (forall q, In q (tl (charge_states (oxi_state d))) ->
       exists e0, assembled sc_mat d q = Ok e0 /\
         PyDict.get (st_entries st') (decorated base "b" q)
           = Some (set_name e0 (decorated base "b" q))) /\
    (forall k e, PyDict.get (st_entries st') k = Some e ->
       (PyDict.get (st_entries st) k = Some e /\
        PyStr.startswith k (base ++ "_") = false) \/
       (exists q e1, k = decorated base "a" q /\
          PyDict.get (st_entries st) (undecorated base q) = Some e1 /\
          e = set_name e1 k) \/
       (PyStr.startswith k (lettered base "b" ++ "_") = true /\
        defect e = d /\ name e = Some k /\
        (k = decorated base "b" (charge_state e) \/
         charge_state e = hd 0 (charge_states (oxi_state d))))).
Proof.
  intros Hname Hseen Hwf Hstored Hmarked.
  unfold process_defect.
  destruct (charge_states_nonempty (oxi_state d)) as (q0 & qs & Hqs).
  rewrite Hqs. cbn [for_each tl hd].
  destruct (get_defect_entry_marked d _ q0 "X" Hmarked)
    as (e0 & He0 & Hd0 & Hq0 & _).
  unfold charge_body at 1. rewrite He0. cbn [bind]. rewrite Hname.
  apply PyDictFacts.mem_get in Hseen as [prev Hprev].
  unfold _update_defect_dict. cbn [st_naming st_entries st_calls]. rewrite Hprev.
  replace (PyStr.endswith (lettered base "b") "b") with true
    by (symmetry; apply PyStrFacts.endswith_append).
  destruct (rename_stored base (st_entries st) q0 Hwf Hstored)
    as (es' & c' & Hrun & Hwf' & Ha & Hgone & Hclass).
  rewrite Hrun. cbn [bind st_naming st_entries st_calls].
  fold (decorated base "b" c').
  set (st1 := {| st_entries := _ |}).
  destruct (charge_loop_named sc_mat d (lettered base "b") Hmarked qs st1)
    as (st' & Hloop & Hnew & Hframe).
  rewrite Hloop. cbn [bind]. exists st'. split; [reflexivity|].
  assert (Hb_not_a : forall q q', decorated base "a" q <> decorated base "b" q').
  { intros q q' Heq.
    pose proof (NameFacts.startswith_decorated base "b" "b" q') as H1.
    rewrite <- Heq, NameFacts.startswith_decorated in H1. discriminate. }
  assert (Hb_pre : forall q k, k = decorated base "b" q ->
            PyStr.startswith k (base ++ "_") = false /\
            PyStr.startswith k (lettered base "b" ++ "_") = true).
  { intros q k ->. split.
    - apply NameFacts.startswith_decorated_plain. reflexivity.
    - rewrite NameFacts.lettered_prefix_eq. apply NameFacts.startswith_decorated. }
  assert (Hst1 : forall k, k <> decorated base "b" c' ->
            PyDict.get (st_entries st1) k = PyDict.get es' k).
  { intros k Hk. unfold st1; cbn [st_entries].
    apply PyDictFacts.get_set_other. congruence. }
  split; [|split; [|split]].
  - intros q e Hget. specialize (Ha q e Hget).
    destruct (Hframe (decorated base "a" q)) as [-> | (q2 & _ & Heq)].
    + rewrite Hst1 by apply Hb_not_a. exact Ha.
    + destruct (Hb_not_a _ _ Heq).
  - intros k Hp.
    destruct (Hframe k) as [-> | (q2 & _ & Heq)].
    + rewrite Hst1; [now apply Hgone|].
      intros Heq. destruct (Hb_pre c' k Heq) as [Hf _]. congruence.
    + destruct (Hb_pre q2 k Heq) as [Hf _]. congruence.
  - intros q Hin. exact (Hnew q Hin).
  - intros k e Hget.
    destruct (Hframe k) as [Heq | (q2 & Hin2 & Heq)].
    + rewrite Heq in Hget.
      destruct (string_dec k (decorated base "b" c')) as [Hk | Hk].
      * right; right. destruct (Hb_pre c' k Hk) as [_ Ht].
        subst k. unfold st1 in Hget; cbn [st_entries] in Hget.
        rewrite PyDictFacts.get_set_same in Hget. injection Hget as <-.
        repeat split; auto.
      * rewrite Hst1 in Hget by exact Hk.
        destruct (Hclass k e Hget) as [Hold | Hren]; [now left | right; now left].
    + right; right. destruct (Hb_pre q2 k Heq) as [_ Ht].
      destruct (Hnew q2 Hin2) as (e2 & He2 & Hget2).
      rewrite <- Heq, Hget in Hget2.
      injection Hget2 as ->.
      destruct (get_defect_entry_fields _ _ _ _ _ He2) as (Hd2 & Hq2 & _).
      cbn [set_name defect charge_state name]. rewrite Hq2.
      repeat split; auto.
Qed.

(** The same, at the second cadmium interstitial of CdTe, whose base name
    [Cd_i_m1] is that of the first. *)
Lemma collision_letters_a_and_b_at_CdTe :
  exists st st',
    CdTe.after_first_interstitial = Ok st /\
    PyDict.keys (st_entries st)
      = ["Cd_i_m1_-1"; "Cd_i_m1_0"; "Cd_i_m1_+1"; "Cd_i_m1_+2"] /\
    process_defect (L := CdTe.libs) CdTe.sc_matrix st CdTe.Cd_i_2 = Ok st' /\
    (forall k, PyStr.startswith k "Cd_i_m1_" = true ->
       PyDict.get (st_entries st') k = None) /\
    option_map name (PyDict.get (st_entries st') "Cd_i_m1a_+2")
      = Some (Some "Cd_i_m1a_+2") /\
    option_map name (PyDict.get (st_entries st') "Cd_i_m1b_0")
      = Some (Some "Cd_i_m1b_0").
Proof.
  unfold CdTe.after_first_interstitial.
  destruct (process_defect (L := CdTe.libs) CdTe.sc_matrix
              {| st_entries := []; st_naming := []; st_calls := [] |}
              CdTe.Cd_i_1) as [st|] eqn:E;
    [|vm_compute in E; discriminate].
  assert (Hst : st_entries st =
                  map (fun q => (undecorated "Cd_i_m1" q,
                                 {| defect := CdTe.Cd_i_1; charge_state := q;
                                    sc_entry :=
                                      {| entry_structure :=
                                           {| lattice := lattice CdTe.host;
                                              sites := [CdTe.cd_site; CdTe.te_site;
                                                        site CdTe.Cd_i_1] |};
                                         energy := 0%Q |};
                                    sc_defect_frac_coords := (5#8, 5#8, 5#8)%Q;
                                    name := Some (undecorated "Cd_i_m1" q) |}))
                    [-1; 0; 1; 2] /\
                PyDict.mem (st_naming st) "Cd_i_m1" = true).
  { vm_compute in E. injection E as <-. split; reflexivity. }
  destruct Hst as [Hes Hnaming].
  destruct (collision_letters_a_and_b (L := CdTe.libs) CdTe.sc_matrix st
              CdTe.Cd_i_2 "Cd_i_m1") as (st' & Hrun & Ha & Hgone & Hb & _).
  - reflexivity.
  - exact Hnaming.
  - rewrite Hes. repeat constructor; simpl; intuition discriminate.
  - rewrite Hes. reflexivity.
  - unfold marked. do 3 apply Exists_cons_tl. apply Exists_cons_hd. reflexivity.
  - exists st, st'. split; [reflexivity|]. split; [now rewrite Hes|].
    split; [exact Hrun|]. split; [exact Hgone|]. split.
    + pose proof (Ha 2 _ ltac:(rewrite Hes; reflexivity)) as Hget.
      change (decorated "Cd_i_m1" "a" 2) with "Cd_i_m1a_+2" in Hget.
      now rewrite Hget.
    + destruct (Hb 0 ltac:(simpl; auto)) as (e0 & _ & Hget).
      change (decorated "Cd_i_m1" "b" 0) with "Cd_i_m1b_0" in Hget.
      now rewrite Hget.
Defined.

(** C1 (evaluation at the failing input): the two cadmium interstitials
    of CdTe share the base name [Cd_i_m1], and the second has the charge
    states -1, 0, +1 and +2.  When it is handled, the four entries of the
    first are renamed to [Cd_i_m1a_<charge>] and no key under [Cd_i_m1_]
    remains, as the claim says.  But the renaming loop assigns the variable
    [charge], which holds the charge state being handled: once the first
    charge state, -1, has been handled, its entry is named and stored as
    [Cd_i_m1b_+2], with charge state -1; and once all charge states have
    been handled, the second defect has the three entries [Cd_i_m1b_+2],
    [Cd_i_m1b_0] and [Cd_i_m1b_+1], of charge states +2, 0 and +1, and
    nothing is stored under [Cd_i_m1b_-1]. *)
Theorem C1_first_entry_of_second_defect_is_misnamed :
  exists st st1 st',
    CdTe.after_first_interstitial = Ok st /\
    map (fun ke => (fst ke, name (snd ke), charge_state (snd ke)))
      (st_entries st)
      = [("Cd_i_m1_-1", Some "Cd_i_m1_-1", -1);
         ("Cd_i_m1_0", Some "Cd_i_m1_0", 0);
         ("Cd_i_m1_+1", Some "Cd_i_m1_+1", 1);
         ("Cd_i_m1_+2", Some "Cd_i_m1_+2", 2)] /\
    charge_states (oxi_state CdTe.Cd_i_2) = [-1; 0; 1; 2] /\
    charge_body (L := CdTe.libs) CdTe.Cd_i_2
      (CdTe.supercell_of CdTe.Cd_i_2 CdTe.sc_matrix "X") (st, None) (-1)
      = Ok (st1, Some "Cd_i_m1b") /\
    map (fun ke => (fst ke, name (snd ke), charge_state (snd ke),
                    CdTe.defect_eq (defect (snd ke)) CdTe.Cd_i_2))
      (st_entries st1)
      = [("Cd_i_m1a_-1", Some "Cd_i_m1a_-1", -1, false);
         ("Cd_i_m1a_0", Some "Cd_i_m1a_0", 0, false);
         ("Cd_i_m1a_+1", Some "Cd_i_m1a_+1", 1, false);
         ("Cd_i_m1a_+2", Some "Cd_i_m1a_+2", 2, false);
         ("Cd_i_m1b_+2", Some "Cd_i_m1b_+2", -1, true)] /\
    process_defect (L := CdTe.libs) CdTe.sc_matrix st CdTe.Cd_i_2 = Ok st' /\
    map (fun ke => (fst ke, name (snd ke), charge_state (snd ke),
                    CdTe.defect_eq (defect (snd ke)) CdTe.Cd_i_2))
      (st_entries st')
      = [("Cd_i_m1a_-1", Some "Cd_i_m1a_-1", -1, false);
         ("Cd_i_m1a_0", Some "Cd_i_m1a_0", 0, false);
         ("Cd_i_m1a_+1", Some "Cd_i_m1a_+1", 1, false);
         ("Cd_i_m1a_+2", Some "Cd_i_m1a_+2", 2, false);
         ("Cd_i_m1b_+2", Some "Cd_i_m1b_+2", 2, true);
         ("Cd_i_m1b_0", Some "Cd_i_m1b_0", 0, true);
         ("Cd_i_m1b_+1", Some "Cd_i_m1b_+1", 1, true)] /\
    PyDict.get (st_entries st') "Cd_i_m1b_-1" = None.
Proof.
  unfold CdTe.after_first_interstitial.
  destruct (process_defect (L := CdTe.libs) CdTe.sc_matrix
              {| st_entries := []; st_naming := []; st_calls := [] |}
              CdTe.Cd_i_1) as [st|] eqn:E;
    [|vm_compute in E; discriminate].
  exists st.
  destruct (charge_body (L := CdTe.libs) CdTe.Cd_i_2
              (CdTe.supercell_of CdTe.Cd_i_2 CdTe.sc_matrix "X") (st, None) (-1))
    as [[st1 n1]|] eqn:E1;
    [|vm_compute in E; injection E as <-; vm_compute in E1; discriminate].
  destruct (process_defect (L := CdTe.libs) CdTe.sc_matrix st CdTe.Cd_i_2)
    as [st'|] eqn:E2;
    [|vm_compute in E; injection E as <-; vm_compute in E2; discriminate].
  exists st1, st'.
  vm_compute in E. injection E as <-.
  vm_compute in E1, E2. injection E1 as <- <-. injection E2 as <-.
  repeat split.
Qed.

(** C3 (evaluation of the constructor): for the CdTe host the second
    cadmium interstitial has the charge states -1, 0, 1 and 2, and
    construction completes with three entries for it.  None has charge
    state -1 and nothing is stored under [Cd_i_m1b_-1]: the renaming loop
    assigns the variable [charge], so the entry of charge state -1 is named
    and stored as [Cd_i_m1b_+2], and the entry of charge state +2 replaces
    it there.  The second tellurium interstitial loses the entry of its
    charge state -2 in the same way, so 34 entries are stored for the 36
    pairs of a defect and a charge state. *)
Theorem C3_entry_of_first_charge_state_is_lost :
  exists g calls,
    CdTe.generated = Ok (g, calls) /\
    charge_states (oxi_state CdTe.Cd_i_2) = [-1; 0; 1; 2] /\
    map (fun ke => (fst ke, charge_state (snd ke)))
      (filter (fun ke => CdTe.defect_eq (defect (snd ke)) CdTe.Cd_i_2)
         (defect_entries g))
      = [("Cd_i_m1b_+2", 2); ("Cd_i_m1b_0", 0); ("Cd_i_m1b_+1", 1)] /\
    PyDict.get (defect_entries g) "Cd_i_m1b_-1" = None /\
    charge_states (oxi_state CdTe.Te_i_2) = [-2; -1; 0; 1] /\
    map (fun ke => (fst ke, charge_state (snd ke)))
      (filter (fun ke => CdTe.defect_eq (defect (snd ke)) CdTe.Te_i_2)
         (defect_entries g))
      = [("Te_i_m1b_+1", 1); ("Te_i_m1b_-1", -1); ("Te_i_m1b_0", 0)] /\
    List.length (defect_entries g) = 34%nat /\
    List.length (flat_map (fun d => charge_states (oxi_state d))
                   (flat_map snd (defects g))) = 36%nat.
Proof.
  unfold CdTe.generated.
  destruct (__init__ (L := CdTe.libs) CdTe.host (ExtDict []) [] [])
    as [[g calls]|] eqn:E; [|vm_compute in E; discriminate].
  exists g, calls. split; [reflexivity|].
  vm_compute in E. injection E as <- _. repeat split.
Qed.

(** * Further properties of the code *)

(** ** Charge states *)

Lemma py_range_length (a b : Z) : List.length (py_range a b) = Z.to_nat (b - a).
Proof. unfold py_range. now rewrite length_map, length_seq. Qed.

Lemma py_range_nth (a b : Z) (i : nat) :
  (i < Z.to_nat (b - a))%nat -> nth i (py_range a b) 0 = a + Z.of_nat i.
Proof.
  intros Hi. unfold py_range.
  rewrite (nth_indep _ 0 (a + Z.of_nat 0))
    by now rewrite length_map, length_seq.
  rewrite (map_nth (fun i => a + Z.of_nat i)), seq_nth by assumption.
  reflexivity.
Qed.

Lemma py_range_NoDup (a b : Z) : NoDup (py_range a b).
Proof.
  unfold py_range. generalize (seq_NoDup (Z.to_nat (b - a)) 0).
  induction 1 as [|i l Hi _ IH]; simpl; constructor; auto.
  rewrite in_map_iff. intros (j & Hj & Hin).
  assert (j = i) by lia. now subst j.
Qed.

(** X1: for an integer oxidation state [z] the charge states are
    [range(min(z, -1), max(z, 1) + 1)]: there are [max(|z|, 1) + 2] of
    them, and -1, 0 and +1 are always among them. *)
Theorem X1_charge_states_of_integer (z : Z) :
  charge_states (inject_Z z) = py_range (Z.min z (-1)) (Z.max z 1 + 1) /\
  List.length (charge_states (inject_Z z)) = Z.to_nat (Z.max (Z.abs z) 1 + 2) /\
  In (-1) (charge_states (inject_Z z)) /\
  In 0 (charge_states (inject_Z z)) /\
  In 1 (charge_states (inject_Z z)).
Proof.
  assert (Heq : charge_states (inject_Z z)
                = py_range (Z.min z (-1)) (Z.max z 1 + 1)).
  { unfold charge_states. change 0%Q with (inject_Z 0).
    rewrite !Qlt_bool_inject_Z, int_of_float_inject_Z.
    destruct (0 <? z) eqn:Hpos.
    - apply Z.ltb_lt in Hpos. f_equal; lia.
    - destruct (z <? 0) eqn:Hneg.
      + apply Z.ltb_lt in Hneg. f_equal; lia.
      + apply Z.ltb_ge in Hpos, Hneg. assert (z = 0) as -> by lia. reflexivity. }
  rewrite Heq, py_range_length, !py_range_In. repeat split; try lia.
Qed.

(** X2: whatever the oxidation state, the charge states are listed in
    ascending order, each one more than the one before, and none twice. *)
Theorem X2_charge_states_ascending (oxi : Q) :
  NoDup (charge_states oxi) /\
  forall i, (S i < List.length (charge_states oxi))%nat ->
    nth (S i) (charge_states oxi) 0 = nth i (charge_states oxi) 0 + 1.
Proof.
  destruct (charge_states_range oxi) as (lo & hi & -> & _).
  split; [apply py_range_NoDup|].
  intros i. rewrite py_range_length. intros Hi.
  rewrite !py_range_nth by lia. lia.
Qed.

(** X3: an oxidation state strictly between 0 and 1 is truncated to 0 and
    gives the two charge states -1 and 0 only; one strictly between -1 and
    0 gives 0 and +1 only. *)
Theorem X3_charge_states_of_small_fraction (oxi : Q) :
  ((0 < oxi)%Q -> (oxi < 1)%Q -> charge_states oxi = [-1; 0]) /\
  ((-1 < oxi)%Q -> (oxi < 0)%Q -> charge_states oxi = [0; 1]).
Proof.
  assert (Htrunc : (-1 < oxi)%Q -> (oxi < 1)%Q -> int_of_float oxi = 0).
  { unfold Qlt, int_of_float; simpl. intros Hlo Hhi.
    apply Z.quot_small_iff; lia. }
  split; intros H1 H2; unfold charge_states.
  - rewrite (proj2 (Qlt_bool_iff 0 oxi) H1), Htrunc; [reflexivity| |assumption].
    apply Qlt_trans with 0%Q; [reflexivity | assumption].
  - assert (Hnpos : Qlt_bool 0 oxi = false).
    { apply not_true_iff_false. rewrite Qlt_bool_iff. intros H.
      apply (Qlt_irrefl 0), Qlt_trans with oxi; assumption. }
    rewrite Hnpos, (proj2 (Qlt_bool_iff oxi 0) H2), Htrunc; [reflexivity|assumption|].
    apply Qlt_trans with 0%Q; [assumption | reflexivity].
Qed.

(** X3, at the oxidation states one half and minus one half. *)
Lemma X3_charge_states_of_small_fraction_witness :
  charge_states (1 # 2) = [-1; 0] /\ charge_states (- (1 # 2)) = [0; 1].
Proof.
  destruct (X3_charge_states_of_small_fraction (1 # 2)) as [Hpos _].
  destruct (X3_charge_states_of_small_fraction (- (1 # 2))) as [_ Hneg].
  split; [apply Hpos | apply Hneg]; reflexivity.
Defined.

(** ** The assembler *)

Section AssemblerMore.
Context {L : Libraries}.

Lemma remove_site_one (l : list PeriodicSite) :
  forall pos x r, remove_site l pos x = Ok r ->
    S (List.length r) = List.length l /\ incl r l.
Proof.
  induction l as [|s l IH]; intros pos x r; cbn [remove_site]; [discriminate|].
  destruct (Nat.eqb pos 0 || site_eqb s x)%bool.
  - intros [= <-]. split; [reflexivity | apply incl_tl, incl_refl].
  - destruct (remove_site l (Nat.pred pos) x) as [r'|] eqn:E; cbn [bind];
      [|discriminate].
    intros [= <-]. destruct (IH _ _ _ E) as [Hlen Hincl]. split.
    + simpl. now rewrite Hlen.
    + intros y [<- | Hy]; [now left | right; now apply Hincl].
Qed.

(** X4: the structure of the entry has exactly one site fewer than the
    supercell handed in; every site it keeps is a site of the supercell,
    and the lattice is the one of the supercell. *)
Theorem X4_entry_structure_one_site_fewer (d : Defect) (sc : Structure)
  (q : Z) (X : string) (e : DefectEntry) :
  get_defect_entry_from_defect d sc q X = Ok e ->
  S (List.length (sites (entry_structure (sc_entry e)))) = List.length (sites sc) /\
  incl (sites (entry_structure (sc_entry e))) (sites sc) /\
  lattice (entry_structure (sc_entry e)) = lattice sc.
Proof.
  unfold get_defect_entry_from_defect.
  destruct (find_dummy_site X (sites sc)) as [[pos x]|]; [|discriminate].
  destruct (remove_site (sites sc) pos x) as [r|] eqn:E; cbn [bind];
    [|discriminate].
  intros [= <-]. cbn. destruct (remove_site_one _ _ _ _ E). auto.
Qed.

End AssemblerMore.

(** X4, at the supercell of the cadmium vacancy. *)
Lemma X4_entry_structure_one_site_fewer_witness :
  exists e,
    CdTe.v_Cd_0 = Ok e /\
    List.length (sites (entry_structure (sc_entry e))) = 1%nat /\
    List.length (sites (CdTe.supercell_of CdTe.v_Cd CdTe.sc_matrix "X")) = 2%nat.
Proof.
  unfold CdTe.v_Cd_0.
  destruct (get_defect_entry_from_defect (L := CdTe.libs) CdTe.v_Cd
              (CdTe.supercell_of CdTe.v_Cd CdTe.sc_matrix "X") 0 "X")
    as [e|] eqn:E; [|discriminate E].
  exists e. split; [reflexivity|].
  destruct (X4_entry_structure_one_site_fewer (L := CdTe.libs) _ _ _ _ _ E)
    as (Hlen & _). split; [|reflexivity].
  change (List.length (sites (CdTe.supercell_of CdTe.v_Cd CdTe.sc_matrix "X")))
    with 2%nat in Hlen. now injection Hlen.
Defined.

(** ** The mapping interface, continued *)

Section DictMore.
Context {V : Type}.
Implicit Types (d : PyDict.t V) (k : string) (v : V).

Lemma set_fresh d k v : PyDict.get d k = None -> PyDict.set d k v = (d ++ [(k, v)])%list.
Proof.
  induction d as [|[k0 v0] d IH]; simpl; [reflexivity|].
  destruct (String.eqb k0 k); [discriminate|]. intros H. now rewrite IH.
Qed.

Lemma keys_set_present d k v :
  PyDict.mem d k = true -> PyDict.keys (PyDict.set d k v) = PyDict.keys d.
Proof.
  unfold PyDict.mem, PyDict.keys.
  induction d as [|[k0 v0] d IH]; simpl; [discriminate|].
  destruct (String.eqb k0 k); simpl; [reflexivity|].
  intros H. now rewrite IH.
Qed.

Lemma set_set d k v v' : PyDict.set (PyDict.set d k v) k v' = PyDict.set d k v'.
Proof.
  induction d as [|[k0 v0] d IH]; simpl.
  - now rewrite String.eqb_refl.
  - destruct (String.eqb k0 k) eqn:E; simpl; rewrite E; [reflexivity|].
    now rewrite IH.
Qed.

Lemma keys_remove d k :
  PyDict.wf d -> PyDict.keys (PyDict.remove d k) = List.remove string_dec k (PyDict.keys d).
Proof.
  unfold PyDict.wf, PyDict.keys. induction d as [|[k0 v0] d IH]; simpl;
    [reflexivity|].
  intros Hnd. inversion Hnd as [|? ? Hnotin Hnd']; subst.
  destruct (String.eqb k0 k) eqn:E.
  - apply String.eqb_eq in E; subst k0.
    destruct (string_dec k k) as [_|Hne]; [|now destruct Hne].
    symmetry. now apply notin_remove.
  - apply String.eqb_neq in E.
    destruct (string_dec k k0) as [Heq|_]; [now destruct E|].
    simpl. now rewrite IH.
Qed.

Lemma get_set_remove d k v :
  PyDict.get d k = Some v ->
  forall k', PyDict.get (PyDict.set (PyDict.remove d k) k v) k' = PyDict.get d k'.
Proof.
  intros Hget k'. destruct (string_dec k k') as [<-|Hne].
  - now rewrite PyDictFacts.get_set_same.
  - now rewrite PyDictFacts.get_set_other, PyDictFacts.get_remove_other.
Qed.

End DictMore.

Section FacadeMore.
Context {L : Libraries}.

(** A value that passes the checks is stored, and its defect registered. *)
Lemma setitem_passes (self : DefectsGenerator) (key : string) (v : DefectEntry) :
  passes_checks self v ->
  __setitem__ key (ObjDefectEntry v) self = (after_assignment self key v, Ok tt).
Proof.
  intros (Hs & e & He & Hsc). unfold rederived in He.
  unfold __setitem__, mbind, read_self, lift, mraise, mret,
    put_defect_entries, put_defects, PyDict.getitem.
  rewrite Hs; cbn [negb]. cbn beta iota. rewrite He, Hsc; cbn [negb].
  cbn [defects defect_entries primitive_structure supercell_matrix].
  unfold after_assignment, registered_with, PyDict.get_default.
  set (kind := _defect_dict_key_from_pmg_type (defect_type (defect v))).
  destruct (PyDict.mem (defects self) kind) eqn:Hmem; cbn [negb].
  - cbn [mret defects defect_entries primitive_structure supercell_matrix].
    apply PyDictFacts.mem_get in Hmem as [l Hget]. rewrite Hget.
    now destruct (existsb (fun d => defect_eqb d (defect v)) l).
  - cbn [defects defect_entries primitive_structure supercell_matrix].
    rewrite PyDictFacts.get_set_same. reflexivity.
Qed.

(** Whatever the value, [__setitem__] either raises and leaves the object
    as it was, or stores a value that passes the checks. *)
Lemma setitem_cases (self : DefectsGenerator) (key : string) (value : PyObj) :
  (exists exc, __setitem__ key value self = (self, Raise exc) /\
     forall v, value = ObjDefectEntry v -> ~ passes_checks self v) \/
  (exists v, value = ObjDefectEntry v /\ passes_checks self v /\
     __setitem__ key value self = (after_assignment self key v, Ok tt)).
Proof.
  destruct value as [v | ty].
  - destruct (structure_eqb (structure (defect v)) (primitive_structure self))
      eqn:Hs.
    + destruct (rederived self v) as [e|exc] eqn:He.
      * destruct (sc_entry_eqb (sc_entry e) (sc_entry v)) eqn:Hsc.
        -- right. exists v. assert (Hp : passes_checks self v)
             by (split; [exact Hs | now exists e]).
           split; [reflexivity|]. split; [exact Hp|]. now apply setitem_passes.
        -- left. eexists. split.
           ++ unfold __setitem__, mbind, read_self, lift, mraise.
              rewrite Hs; cbn [negb]. cbn beta iota.
              unfold rederived in He. rewrite He, Hsc. reflexivity.
           ++ intros v' [= <-] (_ & e' & He' & Hsc'). congruence.
      * left. eexists. split.
        -- unfold __setitem__, mbind, read_self, lift, mraise.
           rewrite Hs; cbn [negb]. cbn beta iota.
           unfold rederived in He. rewrite He. reflexivity.
        -- intros v' [= <-] (_ & e' & He' & _). congruence.
    + left. eexists. split.
      * unfold __setitem__, mbind, read_self, lift, mraise.
        rewrite Hs. reflexivity.
      * intros v' [= <-] (Hs' & _). congruence.
  - left. eexists. split; [reflexivity | discriminate].
Qed.

Lemma registered_with_keeps (ds : PyDict.t (list Defect)) (d : Defect)
  (kind : string) (l : list Defect) :
  PyDict.get ds kind = Some l ->
  exists l', PyDict.get (registered_with ds d) kind = Some l' /\ incl l l'.
Proof.
  intros Hget. unfold registered_with, PyDict.get_default.
  set (k := _defect_dict_key_from_pmg_type (defect_type d)).
  destruct (string_dec k kind) as [Hk | Hk].
  - subst kind. unfold PyDict.mem. rewrite Hget, Hget.
    destruct (existsb _ l).
    + exists l. split; [exact Hget | apply incl_refl].
    + exists (l ++ [d])%list. rewrite PyDictFacts.get_set_same.
      split; [reflexivity | now apply incl_appl, incl_refl].
  - exists l. split; [|apply incl_refl].
    destruct (PyDict.mem ds k);
      destruct (existsb _ _);
      repeat rewrite PyDictFacts.get_set_other by exact Hk; exact Hget.
Qed.

Lemma registered_with_wf (ds : PyDict.t (list Defect)) (d : Defect) :
  PyDict.wf ds -> PyDict.wf (registered_with ds d).
Proof.
  intros Hwf. unfold registered_with.
  destruct (PyDict.mem ds _); destruct (existsb _ _);
    repeat apply PyDictFacts.wf_set; exact Hwf.
Qed.

(** X5: whatever the key and the value, and whether it raises or not,
    [__setitem__] never removes a registered Defect, never touches the
    entry of another key, keeps the primitive structure and the matrix, and
    keeps the keys of both dictionaries distinct. *)
Theorem X5_setitem_never_removes (self : DefectsGenerator) (key : string)
  (value : PyObj) :
  let (self', outcome) := __setitem__ key value self in
  (forall kind l, PyDict.get (defects self) kind = Some l ->
     exists l', PyDict.get (defects self') kind = Some l' /\ incl l l') /\
  (forall k, k <> key ->
     PyDict.get (defect_entries self') k = PyDict.get (defect_entries self) k) /\
  primitive_structure self' = primitive_structure self /\
  supercell_matrix self' = supercell_matrix self /\
  (PyDict.wf (defect_entries self) -> PyDict.wf (defect_entries self')) /\
  (PyDict.wf (defects self) -> PyDict.wf (defects self')).
Proof.
  destruct (setitem_cases self key value)
    as [(exc & -> & _) | (v & _ & _ & ->)].
  - repeat split; auto. intros kind l Hl. exists l. split; [exact Hl | apply incl_refl].
  - cbn [after_assignment defects defect_entries primitive_structure
           supercell_matrix].
    repeat split; auto.
    + intros kind l. apply registered_with_keeps.
    + intros k Hk. apply PyDictFacts.get_set_other. congruence.
    + apply PyDictFacts.wf_set.
    + apply registered_with_wf.
Qed.

(** X6: whether an assignment goes through depends on the defect and the
    supercell entry of the value only: its charge state, its defect
    coordinates and its name are not looked at. *)
Theorem X6_setitem_checks_defect_and_supercell_only
  (self : DefectsGenerator) (key : string) (v v' : DefectEntry) :
  defect v = defect v' -> sc_entry v = sc_entry v' ->
  is_ok (snd (__setitem__ key (ObjDefectEntry v) self)) =
  is_ok (snd (__setitem__ key (ObjDefectEntry v') self)).
Proof.
  intros Hd Hsc.
  assert (Hiff : passes_checks self v <-> passes_checks self v').
  { unfold passes_checks, rederived. rewrite Hd, Hsc. reflexivity. }
  destruct (setitem_cases self key (ObjDefectEntry v))
    as [(exc & -> & Hno) | (w & [= <-] & Hyes & ->)];
  destruct (setitem_cases self key (ObjDefectEntry v'))
    as [(exc' & -> & Hno') | (w' & [= <-] & Hyes' & ->)];
    try reflexivity.
  - destruct (Hno v eq_refl). now apply Hiff.
  - destruct (Hno' v' eq_refl). now apply Hiff.
Qed.

(** X7: an assignment that goes through leaves the length and the order
    of iteration as they were when the key was present, and puts a new key
    last, the length growing by one. *)
Theorem X7_setitem_length_and_order (self : DefectsGenerator) (key : string)
  (v : DefectEntry) :
  passes_checks self v ->
  exists self',
    __setitem__ key (ObjDefectEntry v) self = (self', Ok tt) /\
    __contains__ self' key = true /\
    __len__ self' =
      (if __contains__ self key then __len__ self else S (__len__ self)) /\
    __iter__ self' =
      (if __contains__ self key then __iter__ self
       else (__iter__ self ++ [key])%list).
Proof.
  intros Hp. exists (after_assignment self key v).
  split; [now apply setitem_passes|].
  unfold __contains__, __len__, __iter__; cbn [after_assignment defect_entries].
  split; [unfold PyDict.mem; now rewrite PyDictFacts.get_set_same|].
  destruct (PyDict.mem (defect_entries self) key) eqn:Hmem.
  - rewrite <- !(length_map fst). fold (PyDict.keys (PyDict.set (defect_entries self) key v)).
    fold (PyDict.keys (defect_entries self)).
    now rewrite keys_set_present.
  - assert (Hnone : PyDict.get (defect_entries self) key = None).
    { unfold PyDict.mem in Hmem. now destruct (PyDict.get _ key). }
    rewrite (set_fresh _ _ v Hnone). unfold PyDict.keys.
    rewrite length_app, map_app. simpl. split; [lia | reflexivity].
Qed.

(** X8: assigning the same valid entry to the same key twice gives the
    object that assigning it once gives, provided the defect compares equal
    to itself. *)
Theorem X8_setitem_twice (self : DefectsGenerator) (key : string)
  (v : DefectEntry) :
  passes_checks self v ->
  defect_eqb (defect v) (defect v) = true ->
  exists self',
    __setitem__ key (ObjDefectEntry v) self = (self', Ok tt) /\
    __setitem__ key (ObjDefectEntry v) self' = (self', Ok tt).
Proof.
  intros Hp Hrefl. exists (after_assignment self key v).
  split; [now apply setitem_passes|].
  assert (Hp' : passes_checks (after_assignment self key v) v) by exact Hp.
  rewrite (setitem_passes _ key v Hp'). f_equal.
  unfold after_assignment at 1.
  cbn [after_assignment defects defect_entries primitive_structure supercell_matrix].
  unfold after_assignment. f_equal; [|apply set_set].
  unfold registered_with, PyDict.get_default.
  set (kind := _defect_dict_key_from_pmg_type (defect_type (defect v))).
  assert (Hin : forall ds l,
            PyDict.get ds kind = Some l ->
            existsb (fun x => defect_eqb x (defect v)) l = true ->
            (let ds1 := if PyDict.mem ds kind then ds else PyDict.set ds kind [] in
             if existsb (fun x => defect_eqb x (defect v))
                  match PyDict.get ds1 kind with Some l0 => l0 | None => [] end
             then ds1
             else PyDict.set ds1 kind
                    (match PyDict.get ds1 kind with Some l0 => l0 | None => [] end
                     ++ [defect v])%list) = ds).
  { intros ds l Hget Hex. unfold PyDict.mem. cbv zeta. now rewrite Hget, Hget, Hex. }
  destruct (PyDict.mem (defects self) kind) eqn:Hmem.
  - apply PyDictFacts.mem_get in Hmem as [l Hget]. rewrite Hget.
    destruct (existsb (fun x => defect_eqb x (defect v)) l) eqn:Hex.
    + now apply (Hin _ l).
    + apply (Hin _ (l ++ [defect v])%list).
      * apply PyDictFacts.get_set_same.
      * rewrite existsb_app. simpl. now rewrite Hrefl, orb_true_r.
  - rewrite PyDictFacts.get_set_same. cbn [existsb app].
    apply (Hin _ [defect v]).
    + apply PyDictFacts.get_set_same.
    + simpl. now rewrite Hrefl.
Qed.

(** X9: deleting a key that is absent raises KeyError with that key and
    leaves the object as it was. *)
Theorem X9_delitem_missing_key (self : DefectsGenerator) (key : string) :
  __contains__ self key = false ->
  __delitem__ key self = (self, Raise (KeyError key)) /\
  __getitem__ self key = Raise (KeyError key).
Proof.
  unfold __contains__, __delitem__, __getitem__, mbind, read_self, lift,
    PyDict.del, PyDict.getitem, PyDict.mem.
  destruct (PyDict.get (defect_entries self) key); [discriminate|].
  intros _. split; reflexivity.
Qed.

(** X10: deleting an entry and assigning it again to its key restores the
    length and every lookup, and leaves the registered defects of every
    kind in place; the key now comes last in the order of iteration. *)
Theorem X10_delete_then_assign_again (self : DefectsGenerator) (key : string)
  (v : DefectEntry) :
  PyDict.wf (defect_entries self) ->
  __getitem__ self key = Ok v ->
  passes_checks self v ->
  exists self1 self2,
    __delitem__ key self = (self1, Ok tt) /\
    __setitem__ key (ObjDefectEntry v) self1 = (self2, Ok tt) /\
    __len__ self2 = __len__ self /\
    (forall k, __getitem__ self2 k = __getitem__ self k) /\
    __iter__ self2 = (List.remove string_dec key (__iter__ self) ++ [key])%list /\
    (forall kind l, PyDict.get (defects self) kind = Some l ->
       exists l', PyDict.get (defects self2) kind = Some l' /\ incl l l').
Proof.
  intros Hwf Hget Hp.
  unfold __getitem__, PyDict.getitem in Hget.
  destruct (PyDict.get (defect_entries self) key) as [v0|] eqn:Hv;
    [|discriminate]. injection Hget as ->.
  assert (Hmem : PyDict.mem (defect_entries self) key = true)
    by (unfold PyDict.mem; now rewrite Hv).
  set (self1 := {| defects := defects self;
                   defect_entries := PyDict.remove (defect_entries self) key;
                   primitive_structure := primitive_structure self;
                   supercell_matrix := supercell_matrix self |}).
  assert (Hdel : __delitem__ key self = (self1, Ok tt)).
  { unfold __delitem__, mbind, read_self, lift, put_defect_entries, PyDict.del.
    now rewrite Hmem. }
  assert (Hp1 : passes_checks self1 v) by exact Hp.
  exists self1, (after_assignment self1 key v).
  split; [exact Hdel|]. split; [now apply setitem_passes|].
  assert (Hgone : PyDict.get (PyDict.remove (defect_entries self) key) key = None)
    by now apply PyDictFacts.get_remove_same.
  unfold __len__, __getitem__, __iter__, PyDict.getitem.
  cbn [after_assignment self1 defects defect_entries].
  repeat split.
  - rewrite (set_fresh _ _ v Hgone), length_app. simpl.
    rewrite <- (PyDictFacts.length_remove _ _ Hmem). lia.
  - intros k. now rewrite (get_set_remove _ _ _ Hv).
  - rewrite (set_fresh _ _ v Hgone). unfold PyDict.keys. rewrite map_app.
    fold (PyDict.keys (PyDict.remove (defect_entries self) key)).
    now rewrite keys_remove.
  - intros kind l. apply registered_with_keeps.
Qed.

End FacadeMore.

Lemma CdTe_vacancy_entry_passes (self : DefectsGenerator) :
  primitive_structure self = CdTe.host ->
  supercell_matrix self = CdTe.sc_matrix ->
  passes_checks (L := CdTe.libs) self CdTe.v_Cd_entry.
Proof.
  intros Hp Hm. unfold passes_checks, rederived. rewrite Hp, Hm.
  split; [reflexivity|]. eexists. split; reflexivity.
Qed.

(** X6, at the empty CdTe generator: the vacancy entry is accepted with
    charge state 5, other defect coordinates and no name, as it is with its
    own. *)
Lemma X6_setitem_checks_defect_and_supercell_only_witness :
  is_ok (snd (__setitem__ (L := CdTe.libs) "v_Cd_s0_0"
                (ObjDefectEntry
                   {| defect := CdTe.v_Cd; charge_state := 5;
                      sc_entry := sc_entry CdTe.v_Cd_entry;
                      sc_defect_frac_coords := (1#3, 1#3, 1#3)%Q;
                      name := None |})
                CdTe.blank)) = true.
Proof.
  rewrite <- (X6_setitem_checks_defect_and_supercell_only (L := CdTe.libs)
                CdTe.blank "v_Cd_s0_0" CdTe.v_Cd_entry
                {| defect := CdTe.v_Cd; charge_state := 5;
                   sc_entry := sc_entry CdTe.v_Cd_entry;
                   sc_defect_frac_coords := (1#3, 1#3, 1#3)%Q;
                   name := None |} eq_refl eq_refl).
  reflexivity.
Defined.

(** X7, at the empty CdTe generator: a first key. *)
Lemma X7_setitem_length_and_order_witness :
  exists self',
    __setitem__ (L := CdTe.libs) "v_Cd_s0_0" (ObjDefectEntry CdTe.v_Cd_entry)
      CdTe.blank = (self', Ok tt) /\
    __len__ self' = 1%nat /\ __iter__ self' = ["v_Cd_s0_0"].
Proof.
  destruct (X7_setitem_length_and_order (L := CdTe.libs) CdTe.blank "v_Cd_s0_0"
              CdTe.v_Cd_entry (CdTe_vacancy_entry_passes CdTe.blank eq_refl eq_refl))
    as (self' & Hrun & _ & Hlen & Hiter).
  exists self'. repeat split; assumption.
Defined.

(** X8, at the empty CdTe generator. *)
Lemma X8_setitem_twice_witness :
  exists self',
    __setitem__ (L := CdTe.libs) "v_Cd_s0_0" (ObjDefectEntry CdTe.v_Cd_entry)
      CdTe.blank = (self', Ok tt) /\
    __setitem__ (L := CdTe.libs) "v_Cd_s0_0" (ObjDefectEntry CdTe.v_Cd_entry)
      self' = (self', Ok tt).
Proof.
  exact (X8_setitem_twice (L := CdTe.libs) CdTe.blank "v_Cd_s0_0" CdTe.v_Cd_entry
           (CdTe_vacancy_entry_passes CdTe.blank eq_refl eq_refl) eq_refl).
Defined.

(** X9, at the generator that holds one entry. *)
Lemma X9_delitem_missing_key_witness :
  __delitem__ "v_Te_s1_0" CdTe.stocked
    = (CdTe.stocked, Raise (KeyError "v_Te_s1_0")).
Proof.
  exact (proj1 (X9_delitem_missing_key CdTe.stocked "v_Te_s1_0" eq_refl)).
Defined.

(** X10, at the generator that holds one entry. *)
Lemma X10_delete_then_assign_again_witness :
  exists self1 self2,
    __delitem__ "v_Cd_s0_0" CdTe.stocked = (self1, Ok tt) /\
    __setitem__ (L := CdTe.libs) "v_Cd_s0_0" (ObjDefectEntry CdTe.v_Cd_entry)
      self1 = (self2, Ok tt) /\
    __len__ self2 = 1%nat /\
    __getitem__ self2 "v_Cd_s0_0" = Ok CdTe.v_Cd_entry.
Proof.
  destruct (X10_delete_then_assign_again (L := CdTe.libs) CdTe.stocked
              "v_Cd_s0_0" CdTe.v_Cd_entry)
    as (self1 & self2 & Hdel & Hset & Hlen & Hget & _).
  - repeat constructor. simpl; tauto.
  - reflexivity.
  - now apply CdTe_vacancy_entry_passes.
  - exists self1, self2. repeat split; try assumption. now rewrite Hget.
Defined.

(** ** Serialization, continued *)

Section SerializationMore.
Context {L : Libraries}.

(** X11: [from_dict] reads four items of the decoded value and nothing
    else: two records whose decoded values have the same items [defects],
    [defect_entries], [primitive_structure] and [supercell_matrix] give the
    same result, whatever else the records or their decoded values hold. *)
Theorem X11_from_dict_reads_four_keys (d d' : PyDict.t PyVal) :
  (forall k, In k ["defects"; "defect_entries"; "primitive_structure";
                   "supercell_matrix"] ->
     decoded_item d k = decoded_item d' k) ->
  from_dict d = from_dict d'.
Proof.
  intros H. unfold decoded_item in H. unfold from_dict.
  pose proof (H "defects" ltac:(simpl; tauto)) as H1.
  pose proof (H "defect_entries" ltac:(simpl; tauto)) as H2.
  pose proof (H "primitive_structure" ltac:(simpl; tauto)) as H3.
  pose proof (H "supercell_matrix" ltac:(simpl; tauto)) as H4.
  destruct (process_decoded d) as [dd|e], (process_decoded d') as [dd'|e'];
    cbn [bind] in *.
  - unfold rebuild. now rewrite H1, H2, H3, H4.
  - unfold rebuild. now rewrite H1.
  - unfold rebuild. now rewrite <- H1.
  - injection H1 as ->. reflexivity.
Qed.

(** X12: when the decoded value lacks one of the four items, [from_dict]
    raises; when it lacks [defects], the exception is KeyError with that
    key. *)
Theorem X12_from_dict_missing_key (d : PyDict.t PyVal) (k : string) :
  In k ["defects"; "defect_entries"; "primitive_structure"; "supercell_matrix"] ->
  decoded_item d k = Raise (KeyError k) ->
  is_ok (from_dict d) = false /\
  (k = "defects" -> from_dict d = Raise (KeyError "defects")).
Proof.
  intros Hk Hnone. unfold decoded_item in Hnone. unfold from_dict.
  destruct (process_decoded d) as [dd|e]; cbn [bind] in *.
  - unfold rebuild. split.
    + destruct (subscript dd "defects") as [v1|] eqn:E1; [|reflexivity].
      cbn [bind].
      destruct (as_defects v1); cbn [bind]; [|reflexivity].
      destruct (subscript dd "defect_entries") as [v2|] eqn:E2; [|reflexivity].
      cbn [bind].
      destruct (as_entries v2); cbn [bind]; [|reflexivity].
      destruct (subscript dd "primitive_structure") as [v3|] eqn:E3;
        [|reflexivity]. cbn [bind].
      destruct (as_structure v3); cbn [bind]; [|reflexivity].
      destruct (subscript dd "supercell_matrix") as [v4|] eqn:E4;
        [|reflexivity]. cbn [bind].
      exfalso. simpl in Hk.
      destruct Hk as [<-|[<-|[<-|[<-|[]]]]]; congruence.
    + intros ->. now rewrite Hnone.
  - split; [reflexivity|]. intros ->. injection Hnone as ->. reflexivity.
Qed.

End SerializationMore.

(** X11, with the decoder of the CdTe libraries: a key more in the record
    makes no difference. *)
Lemma X11_from_dict_reads_four_keys_witness :
  from_dict (L := CdTe.libs) (strip_tags (as_dict CdTe.stocked))
  = from_dict (L := CdTe.libs)
      (PyDict.set (strip_tags (as_dict CdTe.stocked)) "comment"
         (VStr "checked")).
Proof.
  apply (X11_from_dict_reads_four_keys (L := CdTe.libs)).
  intros k Hk. simpl in Hk.
  destruct Hk as [<-|[<-|[<-|[<-|[]]]]]; reflexivity.
Defined.

(** X12, with the decoder of the CdTe libraries: a record without
    [supercell_matrix]. *)
Lemma X12_from_dict_missing_key_witness :
  is_ok (from_dict (L := CdTe.libs)
           (PyDict.remove (strip_tags (as_dict CdTe.stocked))
              "supercell_matrix")) = false.
Proof.
  apply (X12_from_dict_missing_key (L := CdTe.libs) _ "supercell_matrix").
  - simpl; tauto.
  - reflexivity.
Defined.

(** ** [_round_floats] *)

Section RoundFloatsFacts.
Variable Float : Type.
Variable round5 : Float -> Float.

(** Induction on a record, with the property known of every value inside a
    dictionary, a list or a tuple. *)
Lemma PyData_nested_ind (P : PyData Float -> Prop) :
  P DNone -> (forall b, P (DBool b)) -> (forall z, P (DInt z)) ->
  (forall x, P (DFloat x)) -> (forall s, P (DStr s)) ->
  (forall items, Forall (fun kv => P (snd kv)) items -> P (DDict items)) ->
  (forall l, Forall P l -> P (DList l)) ->
  (forall l, Forall P l -> P (DTuple l)) ->
  forall obj, P obj.
Proof.
  intros HNone HBool HInt HFloat HStr HDict HList HTuple.
  fix IH 1. intros [| b | z | x | s | items | l | l].
  - exact HNone.
  - apply HBool.
  - apply HInt.
  - apply HFloat.
  - apply HStr.
  - apply HDict. induction items as [|[k v] items IHitems]; constructor;
      [apply IH | exact IHitems].
  - apply HList. induction l as [|v l IHl]; constructor;
      [apply IH | exact IHl].
  - apply HTuple. induction l as [|v l IHl]; constructor;
      [apply IH | exact IHl].
Qed.

Lemma map_items_ext (f g : PyData Float -> PyData Float)
  (items : list (string * PyData Float)) :
  Forall (fun kv => f (snd kv) = g (snd kv)) items ->
  map (fun kv : string * PyData Float => let (k, v) := kv in (k, f v)) items =
  map (fun kv : string * PyData Float => let (k, v) := kv in (k, g v)) items.
Proof.
  induction 1 as [|[k v] items Hv _ IH]; simpl; [reflexivity|].
  simpl in Hv. now rewrite Hv, IH.
Qed.

Lemma map_values_ext (f g : PyData Float -> PyData Float)
  (l : list (PyData Float)) :
  Forall (fun v => f v = g v) l -> map f l = map g l.
Proof.
  induction 1 as [|v l Hv _ IH]; simpl; [reflexivity|]. now rewrite Hv, IH.
Qed.

Lemma map_items_map (f g : PyData Float -> PyData Float)
  (items : list (string * PyData Float)) :
  map (fun kv : string * PyData Float => let (k, v) := kv in (k, f v))
    (map (fun kv : string * PyData Float => let (k, v) := kv in (k, g v)) items)
  = map (fun kv : string * PyData Float => let (k, v) := kv in (k, f (g v)))
      items.
Proof.
  induction items as [|[k v] items IH]; simpl; [reflexivity|]. now rewrite IH.
Qed.

(** X13: when rounding a rounded float changes nothing, rounding a rounded
    record changes nothing. *)
Theorem X13_round_floats_idempotent :
  (forall x, round5 (round5 x) = round5 x) ->
  forall obj,
    _round_floats round5 (_round_floats round5 obj) = _round_floats round5 obj.
Proof.
  intros Hidem. apply PyData_nested_ind; try reflexivity.
  - intros x. simpl. now rewrite Hidem.
  - intros items IH. simpl. f_equal. rewrite map_items_map.
    now apply map_items_ext.
  - intros l IH. simpl. f_equal. rewrite map_map. now apply map_values_ext.
  - intros l IH. simpl. f_equal. rewrite map_map. now apply map_values_ext.
Qed.

(** X14: the result holds no tuple, at any depth: every tuple has become a
    list. *)
Theorem X14_round_floats_leaves_no_tuple (obj : PyData Float) :
  tuple_free (_round_floats round5 obj) = true.
Proof.
  revert obj. apply PyData_nested_ind; try reflexivity.
  - intros items IH. simpl. rewrite forallb_forall. intros [k v] Hin.
    apply in_map_iff in Hin as ([k0 v0] & [= <- <-] & Hin0).
    rewrite Forall_forall in IH. exact (IH _ Hin0).
  - intros l IH. simpl. rewrite forallb_forall. intros v Hin.
    apply in_map_iff in Hin as (v0 & <- & Hin0).
    rewrite Forall_forall in IH. exact (IH _ Hin0).
  - intros l IH. simpl. rewrite forallb_forall. intros v Hin.
    apply in_map_iff in Hin as (v0 & <- & Hin0).
    rewrite Forall_forall in IH. exact (IH _ Hin0).
Qed.

(** X15: a record that holds neither a float nor a tuple comes back as it
    is. *)
Theorem X15_round_floats_fixes_plain_records (obj : PyData Float) :
  float_free obj = true -> tuple_free obj = true ->
  _round_floats round5 obj = obj.
Proof.
  revert obj.
  apply (PyData_nested_ind
           (fun obj => float_free obj = true -> tuple_free obj = true ->
                       _round_floats round5 obj = obj));
    try reflexivity; try discriminate.
  - intros items IH Hf Ht. simpl in *. f_equal.
    rewrite forallb_forall in Hf, Ht. rewrite Forall_forall in IH.
    induction items as [|[k v] items IHitems]; simpl; [reflexivity|].
    pose proof (IH (k, v) (or_introl eq_refl)
                  (Hf (k, v) (or_introl eq_refl))
                  (Ht (k, v) (or_introl eq_refl))) as Hv.
    cbn [snd] in Hv. rewrite Hv.
    f_equal. apply IHitems; intros; auto using in_cons.
  - intros l IH Hf Ht. simpl in *. f_equal.
    rewrite forallb_forall in Hf, Ht. rewrite Forall_forall in IH.
    induction l as [|v l IHl]; simpl; [reflexivity|].
    rewrite (IH v (or_introl eq_refl)
               (Hf v (or_introl eq_refl)) (Ht v (or_introl eq_refl))).
    f_equal. apply IHl; intros; auto using in_cons.
Qed.

(** X16: rounding keeps the shape of the record: the same keys in the same
    order, the same lengths, and every value that is not a float, at every
    depth. *)
Theorem X16_round_floats_keeps_the_shape (obj : PyData Float) :
  skeleton (_round_floats round5 obj) = skeleton obj.
Proof.
  revert obj. apply PyData_nested_ind; try reflexivity.
  - intros items IH. simpl. f_equal. rewrite map_items_map.
    now apply map_items_ext.
  - intros l IH. simpl. f_equal. rewrite map_map. now apply map_values_ext.
  - intros l IH. simpl. f_equal. rewrite map_map. now apply map_values_ext.
Qed.

End RoundFloatsFacts.

Lemma round5_millionths_of_multiple (m : Z) :
  round5_millionths (10 * m) = 10 * m.
Proof.
  assert (Hq : 10 * m / 10 = m) by (rewrite Z.mul_comm; apply Z.div_mul; lia).
  assert (Hr : (10 * m) mod 10 = 0)
    by (rewrite Z.mul_comm; apply Z.mod_mul; lia).
  unfold round5_millionths. cbv zeta. rewrite Hq, Hr. reflexivity.
Qed.

Lemma round5_millionths_idempotent (z : Z) :
  round5_millionths (round5_millionths z) = round5_millionths z.
Proof.
  assert (Hm : exists m, round5_millionths z = 10 * m).
  { unfold round5_millionths.
    destruct (z mod 10 <? 5); [eauto|].
    destruct (5 <? z mod 10); [eauto|].
    destruct (Z.even (z / 10)); eauto. }
  destruct Hm as [m ->]. apply round5_millionths_of_multiple.
Qed.

(** X13, for floats counted in millionths and rounded half to even, at a
    lattice record with a tuple in it. *)
Lemma X13_round_floats_idempotent_witness :
  let obj :=
    DDict [("a", DFloat 6540000000004);
           ("abc", DTuple [DFloat 6539999999996; DFloat 25; DInt 7])] in
  _round_floats round5_millionths obj
    = DDict [("a", DFloat 6540000000000);
             ("abc", DList [DFloat 6540000000000; DFloat 20; DInt 7])] /\
  _round_floats round5_millionths (_round_floats round5_millionths obj)
    = _round_floats round5_millionths obj.
Proof.
  split; [reflexivity|].
  apply (X13_round_floats_idempotent Z round5_millionths
           round5_millionths_idempotent).
Defined.

(** X15, at a record of strings and integers. *)
Lemma X15_round_floats_fixes_plain_records_witness :
  _round_floats round5_millionths
    (DDict [("@class", DStr "Structure"); ("charge", DInt 0);
            ("sites", DList [DDict [("label", DStr "Cd")]])])
  = DDict [("@class", DStr "Structure"); ("charge", DInt 0);
           ("sites", DList [DDict [("label", DStr "Cd")]])].
Proof.
  apply (X15_round_floats_fixes_plain_records Z round5_millionths);
    reflexivity.
Defined.

(** ** Construction, continued *)

Section DictForall.
Context {V : Type}.

Lemma Forall_items_set (Q : string * V -> Prop) (d : PyDict.t V) (k : string)
  (v : V) :
  Forall Q d -> Q (k, v) -> Forall Q (PyDict.set d k v).
Proof.
  intros Hd Hv; induction Hd as [|[k0 v0] d H0 Hd IH]; simpl.
  - repeat constructor; exact Hv.
  - destruct (String.eqb k0 k) eqn:E; constructor; auto.
    apply String.eqb_eq in E. now subst k0.
Qed.

Lemma Forall_items_remove (Q : string * V -> Prop) (d : PyDict.t V)
  (k : string) :
  Forall Q d -> Forall Q (PyDict.remove d k).
Proof.
  intros Hd; induction Hd as [|[k0 v0] d H0 Hd IH]; simpl; [constructor|].
  destruct (String.eqb k0 k); [assumption | constructor; auto].
Qed.

End DictForall.

Lemma map_result_Ok_In {A B : Type} (f : A -> result B) (l : list A)
  (ys : list B) :
  map_result f l = Ok ys -> forall x, In x l -> exists y, f x = Ok y.
Proof.
  revert ys. induction l as [|a l IH]; intros ys; cbn [map_result].
  - intros _ x [].
  - destruct (f a) as [y|] eqn:Ea; cbn [bind]; [|discriminate].
    destruct (map_result f l) as [ys'|]; cbn [bind]; [|discriminate].
    intros _ x [<- | Hin]; [eauto | exact (IH ys' eq_refl x Hin)].
Qed.

Lemma defect_type_eqb_eq (a b : DefectType) :
  defect_type_eqb a b = true <-> a = b.
Proof. destruct a, b; simpl; split; congruence. Qed.

Section InitFacts.
Context {L : Libraries}.

Lemma stored_properly_renamed (ds : list Defect) (k n : string)
  (e : DefectEntry) :
  stored_properly ds (k, e) -> stored_properly ds (n, set_name e n).
Proof. intros (_ & Hd & Hq). repeat split; assumption. Qed.

Lemma stored_properly_assembled (ds : list Defect) (d : Defect)
  (sc : Structure) (q : Z) (X n : string) (e0 : DefectEntry) :
  In d ds -> In q (charge_states (oxi_state d)) ->
  get_defect_entry_from_defect d sc q X = Ok e0 ->
  stored_properly ds (n, set_name e0 n).
Proof.
  intros Hd Hq He0.
  destruct (get_defect_entry_fields _ _ _ _ _ He0) as (Hd0 & Hq0 & _).
  unfold stored_properly. cbn [fst snd set_name name defect charge_state].
  rewrite Hd0, Hq0. repeat split; assumption.
Qed.

Lemma rename_step_stored (ds : list Defect) (n : string)
  (es es' : PyDict.t DefectEntry) (c c' : Z) (item : string * DefectEntry) :
  stored_properly ds item ->
  Forall (stored_properly ds) es ->
  rename_step n (es, c) item = Ok (es', c') ->
  Forall (stored_properly ds) es'.
Proof.
  destruct item as [k e]. intros He Hes. unfold rename_step.
  destruct (PyStr.startswith k (PyStr.drop_last n ++ "_")).
  - destruct (PyStr.int (PyStr.rsplit_last "_" k)) as [q|]; simpl; [|discriminate].
    unfold PyDict.del. destruct (PyDict.mem _ k); simpl; [|discriminate].
    intros [= <- _]. apply Forall_items_remove, Forall_items_set; auto.
    eapply stored_properly_renamed; eauto.
  - now intros [= <- _].
Qed.

Lemma rename_loop_stored (ds : list Defect) (n : string)
  (items : list (string * DefectEntry)) :
  Forall (stored_properly ds) items ->
  forall es c es' c',
    Forall (stored_properly ds) es ->
    for_each (rename_step n) items (es, c) = Ok (es', c') ->
    Forall (stored_properly ds) es'.
Proof.
  induction 1 as [|item items Hitem _ IH]; intros es c es' c' Hes;
    cbn [for_each].
  - now intros [= <- _].
  - destruct (rename_step n (es, c) item) as [[es1 c1]|] eqn:E; cbn [bind];
      [|discriminate].
    apply IH. eapply rename_step_stored; eauto.
Qed.

Lemma charge_body_stored (ds : list Defect) (d : Defect) (sc : Structure)
  (st st' : GenState) (nw nw' : option string) (q : Z) :
  In d ds -> In q (charge_states (oxi_state d)) ->
  Forall (stored_properly ds) (st_entries st) ->
  charge_body d sc (st, nw) q = Ok (st', nw') ->
  Forall (stored_properly ds) (st_entries st').
Proof.
  intros Hd Hq Hes. unfold charge_body.
  destruct (get_defect_entry_from_defect d sc q "X") as [e0|] eqn:He0; simpl;
    [|discriminate].
  destruct nw as [n|].
  - simpl. intros [= <- _]. cbn [st_entries].
    apply Forall_items_set; [assumption|].
    eapply stored_properly_assembled; eauto.
  - destruct (_update_defect_dict e0 (_get_defect_name_from_obj d) (st_naming st))
      as [n naming].
    destruct (PyStr.endswith n "b").
    + destruct (for_each (rename_step n) (st_entries st) (st_entries st, q))
        as [[es1 c1]|] eqn:Eloop; simpl; [|discriminate].
      intros [= <- _]. cbn [st_entries].
      apply Forall_items_set.
      * eapply rename_loop_stored; [| |exact Eloop]; assumption.
      * eapply stored_properly_assembled; eauto.
    + simpl. intros [= <- _]. cbn [st_entries].
      apply Forall_items_set; [assumption|].
      eapply stored_properly_assembled; eauto.
Qed.

Lemma charge_loop_stored (ds : list Defect) (d : Defect) (sc : Structure)
  (qs : list Z) :
  In d ds -> incl qs (charge_states (oxi_state d)) ->
  forall st nw st' nw',
    Forall (stored_properly ds) (st_entries st) ->
    for_each (charge_body d sc) qs (st, nw) = Ok (st', nw') ->
    Forall (stored_properly ds) (st_entries st').
Proof.
  intros Hd. induction qs as [|q qs IH]; intros Hqs st nw st' nw' Hes;
    cbn [for_each].
  - now intros [= <- _].
  - destruct (charge_body d sc (st, nw) q) as [[st1 nw1]|] eqn:E; cbn [bind];
      [|discriminate].
    apply IH; [intros x Hx; apply Hqs; now right|].
    eapply charge_body_stored; eauto. apply Hqs. now left.
Qed.

Lemma process_defect_stored (ds : list Defect) (sc_mat : Matrix)
  (st st' : GenState) (d : Defect) :
  In d ds ->
  Forall (stored_properly ds) (st_entries st) ->
  process_defect sc_mat st d = Ok st' ->
  Forall (stored_properly ds) (st_entries st').
Proof.
  intros Hd Hes. unfold process_defect.
  destruct (for_each _ (charge_states (oxi_state d)) _) as [[st1 nw1]|] eqn:E;
    cbn [bind]; [|discriminate].
  intros [= <-]. eapply charge_loop_stored in E; eauto. apply incl_refl.
Qed.

Lemma defect_loop_stored (ds : list Defect) (sc_mat : Matrix) (l : list Defect) :
  incl l ds ->
  forall st st',
    Forall (stored_properly ds) (st_entries st) ->
    for_each (process_defect sc_mat) l st = Ok st' ->
    Forall (stored_properly ds) (st_entries st').
Proof.
  induction l as [|d l IH]; intros Hl st st' Hes; cbn [for_each].
  - now intros [= <-].
  - destruct (process_defect sc_mat st d) as [st1|] eqn:E; cbn [bind];
      [|discriminate].
    apply IH; [intros x Hx; apply Hl; now right|].
    eapply process_defect_stored; eauto. apply Hl. now left.
Qed.

Lemma generate_entries_stored (ds : list Defect) (sc_mat : Matrix)
  (all_defects : PyDict.t (list Defect)) :
  incl (flat_map snd all_defects) ds ->
  forall es calls es' calls',
    Forall (stored_properly ds) es ->
    for_each (process_kind sc_mat) all_defects (es, calls) = Ok (es', calls') ->
    Forall (stored_properly ds) es'.
Proof.
  induction all_defects as [|[kind l] rest IH]; intros Hall es calls es' calls' Hes;
    cbn [for_each flat_map].
  - now intros [= <- _].
  - cbn [flat_map snd] in Hall. unfold process_kind at 1. cbn [snd].
    destruct (for_each (process_defect sc_mat) l _) as [st1|] eqn:E; cbn [bind];
      [|discriminate].
    apply defect_loop_stored with (ds := ds) in E;
      [|intros x Hx; apply Hall, in_or_app; now left | exact Hes].
    apply IH; [intros x Hx; apply Hall, in_or_app; now right | exact E].
Qed.

(** What a completed construction went through. *)
Lemma init_inversion (structure0 : Structure) (extrinsic : Extrinsic)
  (interstitial_coords : list Coords) (kwargs : PyDict.t KwVal)
  (g : DefectsGenerator) (calls : list Call) :
  __init__ structure0 extrinsic interstitial_coords kwargs = Ok (g, calls) ->
  PyDict.keys (defects g) = ["vacancies"; "substitutions"; "interstitials"] /\
  (exists calls0,
     generate_entries (supercell_matrix g) (defects g) calls0
       = Ok (defect_entries g, calls)) /\
  exists rows, _defect_generator_info g = Ok rows.
Proof.
  unfold __init__.
  destruct (vacancy_generate _) as [vacancies prim1].
  destruct (antisite_generate _) as [antisites prim2].
  destruct (nonempty (substitutions_of extrinsic (composition_elements prim2))).
  - destruct (substitution_generate _ _) as [subs prim3].
    cbn [PyDict.get PyDict.set PyDict.empty String.eqb Ascii.eqb Bool.eqb].
    match goal with
    | |- context [let '(ds, p) := ?x in _] => destruct x as [interstitials prim4]
    end.
    match goal with
    | |- context [generate_entries ?m ?ds ?cs] =>
        destruct (generate_entries m ds cs) as [[es cs']|] eqn:E
    end; cbn [bind]; [|discriminate].
    destruct (_defect_generator_info _) as [rows|] eqn:Einfo; cbn [bind];
      [|discriminate].
    intros [= <- <-].
    cbn [defects defect_entries primitive_structure supercell_matrix].
    split; [reflexivity|]. split; [eexists; exact E|]. eexists; exact Einfo.
  - match goal with
    | |- context [let '(ds, p) := ?x in _] => destruct x as [interstitials prim4]
    end.
    match goal with
    | |- context [generate_entries ?m ?ds ?cs] =>
        destruct (generate_entries m ds cs) as [[es cs']|] eqn:E
    end; cbn [bind]; [|discriminate].
    destruct (_defect_generator_info _) as [rows|] eqn:Einfo; cbn [bind];
      [|discriminate].
    intros [= <- <-].
    cbn [defects defect_entries primitive_structure supercell_matrix].
    split; [reflexivity|]. split; [eexists; exact E|]. eexists; exact Einfo.
Qed.

(** X17: in a completed construction every stored entry carries as its
    name the key it is stored under, its defect is one of the enumerated
    defects, and its charge state is one of the charge states of its
    defect. *)
Theorem X17_stored_entries_named_and_charged
  (structure0 : Structure) (extrinsic : Extrinsic)
  (interstitial_coords : list Coords) (kwargs : PyDict.t KwVal)
  (g : DefectsGenerator) (calls : list Call) :
  __init__ structure0 extrinsic interstitial_coords kwargs = Ok (g, calls) ->
  forall k e, PyDict.get (defect_entries g) k = Some e ->
    name e = Some k /\
    In (defect e) (flat_map snd (defects g)) /\
    In (charge_state e) (charge_states (oxi_state (defect e))).
Proof.
  intros Hinit k e Hget.
  destruct (init_inversion _ _ _ _ _ _ Hinit) as (_ & (calls0 & Hgen) & _).
  unfold generate_entries in Hgen.
  apply generate_entries_stored with (ds := flat_map snd (defects g)) in Hgen;
    [|apply incl_refl | constructor].
  rewrite Forall_forall in Hgen.
  exact (Hgen (k, e) (PyDictFacts.get_In _ _ _ Hget)).
Qed.

End InitFacts.

(** X17, at the CdTe host. *)
Lemma X17_stored_entries_named_and_charged_witness :
  exists g calls,
    CdTe.generated = Ok (g, calls) /\
    forall k e, PyDict.get (defect_entries g) k = Some e ->
      name e = Some k /\
      In (charge_state e) (charge_states (oxi_state (defect e))).
Proof.
  unfold CdTe.generated.
  destruct (__init__ (L := CdTe.libs) CdTe.host (ExtDict []) [] [])
    as [[g calls]|] eqn:E; [|vm_compute in E; discriminate].
  exists g, calls. split; [reflexivity|].
  intros k e Hget.
  destruct (X17_stored_entries_named_and_charged (L := CdTe.libs)
              CdTe.host (ExtDict []) [] [] g calls E k e Hget) as (Hn & _ & Hq).
  split; assumption.
Defined.

Section InitMore.
Context {L : Libraries}.

(** The summary completes only if every kind has a first defect and every
    stored name of such a kind has a neutral sibling and a charge that [int]
    reads. *)
Lemma info_needs_neutral (self : DefectsGenerator)
  (rows : list (string * list InfoRow)) :
  _defect_generator_info self = Ok rows ->
  (forall kind l, In (kind, l) (defects self) -> l <> []) /\
  forall kind d0 l k e,
    In (kind, d0 :: l) (defects self) ->
    In (k, e) (defect_entries self) ->
    defect_type (defect e) = defect_type d0 ->
    PyDict.mem (defect_entries self) (PyStr.rsplit_head "_" k ++ "_0") = true /\
    forall k', In k' (PyDict.keys (defect_entries self)) ->
      PyStr.startswith k' (PyStr.rsplit_head "_" k ++ "_") = true ->
      exists q, PyStr.int (PyStr.rsplit_last "_" k') = Ok q.
Proof.
  unfold _defect_generator_info. intros Hinfo. split.
  - intros kind l Hin ->.
    destruct (map_result_Ok_In _ _ _ Hinfo _ Hin) as [y Hy]. discriminate.
  - intros kind d0 l k e Hkind Hin Hty.
    destruct (map_result_Ok_In _ _ _ Hinfo _ Hkind) as [y Hy].
    unfold info_table in Hy. cbn [snd fst] in Hy.
    destruct (map_result (info_row self) _) as [rs|] eqn:Hrows; [|discriminate].
    destruct (map_result_Ok_In _ _ _ Hrows (PyStr.rsplit_head "_" k)) as [r Hr].
    { apply nodup_In.
      change (PyStr.rsplit_head "_" k)
        with ((fun ne : string * DefectEntry => PyStr.rsplit_head "_" (fst ne))
                (k, e)).
      apply in_map, filter_In. split; [exact Hin|].
      cbn [snd]. now apply defect_type_eqb_eq. }
    unfold info_row in Hr.
    destruct (map_result _ (filter _ (PyDict.keys (defect_entries self))))
      as [charges|] eqn:Hcharges; cbn [bind] in Hr; [|discriminate].
    unfold PyDict.getitem, PyDict.mem in *.
    destruct (PyDict.get (defect_entries self) (PyStr.rsplit_head "_" k ++ "_0"));
      [|discriminate].
    split; [reflexivity|].
    intros k' Hk' Hpre.
    apply (map_result_Ok_In _ _ _ Hcharges k').
    apply filter_In. now split.
Qed.

(** X18: a completed construction has the three kinds vacancies,
    substitutions and interstitials, in this order, and none of them is
    empty: the summary takes the first defect of every kind. *)
Theorem X18_three_kinds_none_empty
  (structure0 : Structure) (extrinsic : Extrinsic)
  (interstitial_coords : list Coords) (kwargs : PyDict.t KwVal)
  (g : DefectsGenerator) (calls : list Call) :
  __init__ structure0 extrinsic interstitial_coords kwargs = Ok (g, calls) ->
  PyDict.keys (defects g) = ["vacancies"; "substitutions"; "interstitials"] /\
  forall kind l, In (kind, l) (defects g) -> l <> [].
Proof.
  intros Hinit.
  destruct (init_inversion _ _ _ _ _ _ Hinit) as (Hkeys & _ & rows & Hinfo).
  split; [exact Hkeys|]. exact (proj1 (info_needs_neutral g rows Hinfo)).
Qed.

(** X19: construction reads the keywords [min_atoms], [max_atoms],
    [min_length] and [force_diagonal] only: keyword arguments that agree on
    these four give the same result, whatever else they hold. *)
Theorem X19_init_reads_four_keywords
  (structure0 : Structure) (extrinsic : Extrinsic)
  (interstitial_coords : list Coords) (kwargs kwargs' : PyDict.t KwVal) :
  (forall k, In k supercell_keywords ->
     PyDict.get kwargs k = PyDict.get kwargs' k) ->
  __init__ structure0 extrinsic interstitial_coords kwargs
  = __init__ structure0 extrinsic interstitial_coords kwargs'.
Proof.
  intros H. unfold __init__, PyDict.get_default.
  rewrite (H "min_atoms"), (H "max_atoms"), (H "min_length"),
    (H "force_diagonal") by (simpl; tauto).
  reflexivity.
Qed.

(** X20: an element given as a string is treated as the list of that one
    element, and an [extrinsic] that is neither a string, a list nor a dict
    as the empty dict. *)
Theorem X20_extrinsic_forms
  (structure0 : Structure) (interstitial_coords : list Coords)
  (kwargs : PyDict.t KwVal) :
  (forall el,
     __init__ structure0 (ExtStr el) interstitial_coords kwargs
     = __init__ structure0 (ExtList [el]) interstitial_coords kwargs) /\
  (forall junk,
     __init__ structure0 (ExtOther junk) interstitial_coords kwargs
     = __init__ structure0 (ExtDict []) interstitial_coords kwargs).
Proof. split; reflexivity. Qed.

(** X21: when the summary completes, every stored entry whose defect has
    the type of the first defect of some kind has a neutral sibling: the
    key made of its name up to the last underscore and of [_0] is stored;
    and every stored key that starts with that name and an underscore ends
    in a field that [int] reads. *)
Theorem X21_summary_needs_neutral_entries (self : DefectsGenerator)
  (rows : list (string * list InfoRow))
  (kind : string) (d0 : Defect) (l : list Defect) (k : string)
  (e : DefectEntry) :
  _defect_generator_info self = Ok rows ->
  In (kind, d0 :: l) (defects self) ->
  In (k, e) (defect_entries self) ->
  defect_type (defect e) = defect_type d0 ->
  PyDict.mem (defect_entries self) (PyStr.rsplit_head "_" k ++ "_0") = true /\
  forall k', In k' (PyDict.keys (defect_entries self)) ->
    PyStr.startswith k' (PyStr.rsplit_head "_" k ++ "_") = true ->
    exists q, PyStr.int (PyStr.rsplit_last "_" k') = Ok q.
Proof.
  intros Hinfo. exact (proj2 (info_needs_neutral self rows Hinfo) kind d0 l k e).
Qed.

(** X22: deleting the neutral entry of a defect while another of its
    entries stays makes the summary fail: with [k] stored, of the type of
    the first defect of some kind, and other than its neutral sibling,
    the summary is not computed any more once that sibling is deleted. *)
Theorem X22_summary_fails_without_neutral (self : DefectsGenerator)
  (kind : string) (d0 : Defect) (l : list Defect) (k : string)
  (e : DefectEntry) :
  PyDict.wf (defect_entries self) ->
  In (kind, d0 :: l) (defects self) ->
  In (k, e) (defect_entries self) ->
  defect_type (defect e) = defect_type d0 ->
  k <> PyStr.rsplit_head "_" k ++ "_0" ->
  __contains__ self (PyStr.rsplit_head "_" k ++ "_0") = true ->
  exists self',
    __delitem__ (PyStr.rsplit_head "_" k ++ "_0") self = (self', Ok tt) /\
    __contains__ self' k = true /\
    is_ok (_defect_generator_info self') = false.
Proof.
  intros Hwf Hkind Hin Hty Hne Hmem.
  unfold __delitem__, mbind, read_self, lift, put_defect_entries, PyDict.del.
  unfold __contains__ in Hmem. rewrite Hmem. cbn [bind].
  eexists. split; [reflexivity|].
  set (n0 := PyStr.rsplit_head "_" k ++ "_0") in *.
  assert (Hget : PyDict.get (PyDict.remove (defect_entries self) n0) k = Some e).
  { rewrite PyDictFacts.get_remove_other by congruence.
    now apply PyDictFacts.In_get. }
  split.
  - unfold __contains__, PyDict.mem. cbn [defect_entries]. now rewrite Hget.
  - destruct (_defect_generator_info _) as [rows|] eqn:Hinfo; [|reflexivity].
    exfalso.
    destruct (proj2 (info_needs_neutral _ rows Hinfo) kind d0 l k e)
      as [Hneutral _]; try assumption.
    + cbn [defect_entries]. now apply PyDictFacts.get_In.
    + cbn [defect_entries] in Hneutral. fold n0 in Hneutral.
      unfold PyDict.mem in Hneutral.
      rewrite PyDictFacts.get_remove_same in Hneutral by exact Hwf.
      discriminate.
Qed.

End InitMore.

(** X18, at the CdTe host. *)
Lemma X18_three_kinds_none_empty_witness :
  exists g calls,
    CdTe.generated = Ok (g, calls) /\
    PyDict.keys (defects g) = ["vacancies"; "substitutions"; "interstitials"] /\
    forall kind l, In (kind, l) (defects g) -> l <> [].
Proof.
  unfold CdTe.generated.
  destruct (__init__ (L := CdTe.libs) CdTe.host (ExtDict []) [] [])
    as [[g calls]|] eqn:E; [|vm_compute in E; discriminate].
  exists g, calls. split; [reflexivity|].
  exact (X18_three_kinds_none_empty (L := CdTe.libs)
           CdTe.host (ExtDict []) [] [] g calls E).
Defined.

(** X19, at the CdTe host: a misspelt keyword goes unnoticed. *)
Lemma X19_init_reads_four_keywords_witness :
  __init__ (L := CdTe.libs) CdTe.host (ExtDict []) [] []
  = __init__ (L := CdTe.libs) CdTe.host (ExtDict []) []
      [("min_atom", KwInt 100)].
Proof.
  apply (X19_init_reads_four_keywords (L := CdTe.libs)).
  intros k Hk. unfold supercell_keywords in Hk. simpl in Hk.
  destruct Hk as [<-|[<-|[<-|[<-|[]]]]]; reflexivity.
Defined.

(** X21, at the generator that holds the cadmium vacancy in the charge
    states 0 and -1. *)
Lemma X21_summary_needs_neutral_entries_witness :
  is_ok (_defect_generator_info stocked_pair) = true /\
  PyDict.mem (defect_entries stocked_pair) "v_Cd_s0_0" = true.
Proof.
  destruct (_defect_generator_info stocked_pair) as [rows|] eqn:E;
    [|vm_compute in E; discriminate].
  split; [reflexivity|].
  refine (proj1 (X21_summary_needs_neutral_entries
                   stocked_pair rows "vacancies" CdTe.v_Cd [] "v_Cd_s0_-1" _
                   E _ _ _)).
  - left; reflexivity.
  - right; left; reflexivity.
  - reflexivity.
Defined.

(** X22, at the same generator: without [v_Cd_s0_0] the summary of
    [v_Cd_s0_-1] fails. *)
Lemma X22_summary_fails_without_neutral_witness :
  exists self',
    __delitem__ "v_Cd_s0_0" stocked_pair = (self', Ok tt) /\
    __contains__ self' "v_Cd_s0_-1" = true /\
    is_ok (_defect_generator_info self') = false.
Proof.
  refine (X22_summary_fails_without_neutral stocked_pair
            "vacancies" CdTe.v_Cd [] "v_Cd_s0_-1" _ _ _ _ _ _ _).
  - repeat constructor; simpl; intuition discriminate.
  - left; reflexivity.
  - right; left; reflexivity.
  - reflexivity.
  - discriminate.
  - reflexivity.
Defined.

(** ** Names, continued *)

Section NamingMore.
Import PyStr PyStrFacts NameFacts.
Context {L : Libraries}.

Lemma startswith_weaken (p s : string) :
  forall k, startswith k (p ++ s) = true -> startswith k p = true.
Proof.
  induction p as [|a p IH]; intros k; [intros _; apply startswith_nil|].
  destruct k as [|b k]; [discriminate|].
  cbn [append]. rewrite !startswith_cons.
  intros H. apply andb_true_iff in H as [Hab Hk].
  now rewrite Hab, (IH k Hk).
Qed.

Lemma canonical_undecorated (base : string) (q : Z) :
  canonical base (undecorated base q) = true.
Proof.
  unfold canonical. rewrite int_of_undecorated. apply String.eqb_refl.
Qed.

Lemma startswith_undecorated_lettered (base : string) (c : ascii) (q : Z) :
  Ascii.eqb c "_" = false ->
  startswith (undecorated base q) (lettered base c ++ "_") = false.
Proof.
  intros Hc. rewrite lettered_prefix_eq, undecorated_eq.
  rewrite startswith_append_same, startswith_cons. now rewrite Hc.
Qed.

(** The variable [charge] after the renaming loop. *)
Lemma rename_loop_charge (base : string) (items : list (string * DefectEntry)) :
  forall es c es' c',
    for_each (rename_step (lettered base "b")) items (es, c) = Ok (es', c') ->
    c' = last_charge_under base items c.
Proof.
  unfold last_charge_under.
  induction items as [|[k e] items IH]; intros es c es' c'; cbn [for_each fold_left].
  - now intros [= _ <-].
  - unfold rename_step at 1. unfold lettered at 1. rewrite drop_last_lettered.
    cbn [fst]. destruct (startswith k (base ++ "_")).
    + destruct (int (rsplit_last "_" k)) as [q|]; cbn [bind]; [|discriminate].
      destruct (PyDict.del _ k) as [es1|]; cbn [bind]; [|discriminate].
      apply IH.
    + cbn [bind]. apply IH.
Qed.

(** Once the name is known, the loop over the charge states leaves the
    naming registry alone and keeps the keys distinct. *)
Lemma charge_loop_keeps (sc_mat : Matrix) (d : Defect) (n : string)
  (qs : list Z) :
  forall st st' nw',
    for_each (charge_body d (get_supercell_structure d sc_mat "X")) qs
      (st, Some n) = Ok (st', nw') ->
    st_naming st' = st_naming st /\
    (PyDict.wf (st_entries st) -> PyDict.wf (st_entries st')).
Proof.
  induction qs as [|q qs IH]; intros st st' nw'; cbn [for_each].
  - intros [= <- _]. auto.
  - unfold charge_body at 1.
    destruct (get_defect_entry_from_defect d _ q "X") as [e0|]; cbn [bind];
      [|discriminate].
    intros Hrest. apply IH in Hrest as [Hnaming Hwf].
    cbn [st_naming st_entries] in *. split; [exact Hnaming|].
    intros H. apply Hwf. now apply PyDictFacts.wf_set.
Qed.

Lemma charge_states_NoDup (oxi : Q) : NoDup (charge_states oxi).
Proof.
  destruct (charge_states_range oxi) as (lo & hi & -> & _).
  apply py_range_NoDup.
Qed.

(** X23: a defect whose base name is new to the naming registry, and does
    not end in b, keeps that name: construction goes on, every one of its
    charge states is stored under [<base>_<charge>], with that name and as
    the entry assembled for this charge state, and every other key holds
    what it held.  The base name is registered; distinct keys stay
    distinct; and when no stored name started with the base name, the
    stored names under it are those of one defect without a letter. *)
Theorem X23_fresh_name_stores_every_charge_state
  (sc_mat : Matrix) (st : GenState) (d : Defect) (base : string) :
  _get_defect_name_from_obj d = base ->
  PyDict.get (st_naming st) base = None ->
  last_letter (st_naming st) base = None ->
  endswith base "b" = false ->
  marked sc_mat d ->
  exists st',
    process_defect sc_mat st d = Ok st' /\
    (forall q, In q (charge_states (oxi_state d)) ->
       exists e0, assembled sc_mat d q = Ok e0 /\
         PyDict.get (st_entries st') (undecorated base q)
           = Some (set_name e0 (undecorated base q))) /\
    (forall k, PyDict.get (st_entries st') k = PyDict.get (st_entries st) k \/
       exists q, In q (charge_states (oxi_state d)) /\ k = undecorated base q) /\
    PyDict.mem (st_naming st') base = true /\
    (PyDict.wf (st_entries st) -> PyDict.wf (st_entries st')) /\
    (unused_base base (st_entries st) = true ->
     stored_without_letter base (st_entries st') = true).
Proof.
  intros Hname Hfresh Hlast Hend Hmarked.
  unfold process_defect.
  destruct (charge_states_nonempty (oxi_state d)) as (q0 & qs & Hqs).
  pose proof (charge_states_NoDup (oxi_state d)) as Hnd.
  rewrite Hqs in *. cbn [for_each].
  destruct (get_defect_entry_marked d _ q0 "X" Hmarked) as (e0 & He0 & _).
  unfold charge_body at 1. rewrite He0. cbn [bind]. rewrite Hname.
  unfold _update_defect_dict. cbn [st_naming st_entries st_calls].
  rewrite Hfresh, Hlast, Hend. cbn [bind st_naming st_entries st_calls].
  fold (undecorated base q0).
  set (st1 := {| st_entries := _ |}).
  destruct (charge_loop_named sc_mat d base Hmarked qs st1)
    as (st' & Hloop & Hnew & Hframe).
  rewrite Hloop. cbn [bind]. exists st'. split; [reflexivity|].
  destruct (charge_loop_keeps _ _ _ _ _ _ _ Hloop) as [Hnaming Hwf].
  apply NoDup_cons_iff in Hnd as [Hq0 _].
  assert (Hframe' : forall k,
            PyDict.get (st_entries st') k = PyDict.get (st_entries st) k \/
            exists q, In q (q0 :: qs) /\ k = undecorated base q).
  { intros k. destruct (Hframe k) as [Heq | (q & Hin & ->)].
    - destruct (string_dec k (undecorated base q0)) as [-> | Hne].
      + right. exists q0. split; [now left | reflexivity].
      + left. rewrite Heq. unfold st1; cbn [st_entries].
        apply PyDictFacts.get_set_other. congruence.
    - right. exists q. split; [now right | reflexivity]. }
  split; [|split; [exact Hframe'|split; [|split]]].
  - intros q [<- | Hin]; [|exact (Hnew q Hin)].
    exists e0. split; [exact He0|].
    destruct (Hframe (undecorated base q0)) as [-> | (q2 & Hin2 & Heq)].
    + unfold st1; cbn [st_entries]. apply PyDictFacts.get_set_same.
    + apply undecorated_inj in Heq. subst q2. contradiction.
  - rewrite Hnaming. unfold st1; cbn [st_naming]. unfold PyDict.mem.
    now rewrite PyDictFacts.get_set_same.
  - intros H. apply Hwf. unfold st1; cbn [st_entries].
    now apply PyDictFacts.wf_set.
  - intros Hunused. unfold stored_without_letter. apply forallb_forall.
    intros k Hk.
    destruct (Hframe' k) as [Heq | (q & _ & ->)].
    + assert (Hold : In k (PyDict.keys (st_entries st))).
      { destruct (in_dec string_dec k (PyDict.keys (st_entries st)))
          as [Hin | Hnin]; [exact Hin|].
        apply PyDictFacts.get_None in Hnin. rewrite <- Heq in Hnin.
        apply PyDictFacts.get_None in Hnin. contradiction. }
      unfold unused_base in Hunused. rewrite forallb_forall in Hunused.
      specialize (Hunused k Hold). apply negb_true_iff in Hunused.
      assert (Hno : forall s, startswith k (base ++ s) = false).
      { intros s. destruct (startswith k (base ++ s)) eqn:E; [|reflexivity].
        apply startswith_weaken in E. congruence. }
      unfold lettered. rewrite !append_assoc, !Hno. reflexivity.
    + rewrite startswith_undecorated, canonical_undecorated.
      rewrite !startswith_undecorated_lettered by reflexivity. reflexivity.
Qed.

(** X24: the name of the first entry in a collision.  With the hypotheses
    of the collision, let [c] be the charge that the last stored key under
    [<base>_] carries, the value the renaming loop leaves in the variable
    [charge].  When [c] is not the first charge state of the new defect,
    nothing is stored under [<base>b_<first charge state>].  When [c] is
    not among its later charge states, the entry of the first charge state
    stays, stored and named [<base>b_<c>].  When it is among them, every
    entry stored under [<base>b_] is the entry of a later charge state,
    under its own charge: the entry of the first charge state is gone. *)
Theorem X24_first_entry_takes_the_last_renamed_charge
  (sc_mat : Matrix) (st : GenState) (d : Defect) (base : string) :
  _get_defect_name_from_obj d = base ->
  PyDict.mem (st_naming st) base = true ->
  PyDict.wf (st_entries st) ->
  stored_without_letter base (st_entries st) = true ->
  marked sc_mat d ->
  let q0 := hd 0 (charge_states (oxi_state d)) in
  let qs := tl (charge_states (oxi_state d)) in
  let c := last_charge_under base (st_entries st) q0 in
  exists st',
    process_defect sc_mat st d = Ok st' /\
    (c <> q0 ->
     PyDict.get (st_entries st') (decorated base "b" q0) = None) /\
    (~ In c qs ->
     exists e0, assembled sc_mat d q0 = Ok e0 /\
       PyDict.get (st_entries st') (decorated base "b" c)
         = Some (set_name e0 (decorated base "b" c))) /\
    (In c qs ->
     forall k e, startswith k (lettered base "b" ++ "_") = true ->
       PyDict.get (st_entries st') k = Some e ->
       k = decorated base "b" (charge_state e) /\ In (charge_state e) qs).
Proof.
  intros Hname Hseen Hwf Hstored Hmarked.
  unfold process_defect.
  destruct (charge_states_nonempty (oxi_state d)) as (q0 & qs & Hqs).
  pose proof (charge_states_NoDup (oxi_state d)) as Hnd.
  rewrite Hqs in *. cbn [for_each tl hd]. cbv zeta.
  apply NoDup_cons_iff in Hnd as [Hq0 _].
  destruct (get_defect_entry_marked d _ q0 "X" Hmarked)
    as (e0 & He0 & Hd0 & Hc0 & _).
  unfold charge_body at 1. rewrite He0. cbn [bind]. rewrite Hname.
  apply PyDictFacts.mem_get in Hseen as [prev Hprev].
  unfold _update_defect_dict. cbn [st_naming st_entries st_calls]. rewrite Hprev.
  replace (endswith (lettered base "b") "b") with true
    by (symmetry; apply endswith_append).
  destruct (rename_stored base (st_entries st) q0 Hwf Hstored)
    as (es' & c' & Hrun & Hwf' & Ha & Hgone & Hclass).
  rewrite Hrun. cbn [bind st_naming st_entries st_calls].
  apply rename_loop_charge in Hrun. rewrite <- Hrun.
  fold (decorated base "b" c').
  set (st1 := {| st_entries := _ |}).
  destruct (charge_loop_named sc_mat d (lettered base "b") Hmarked qs st1)
    as (st' & Hloop & Hnew & Hframe).
  rewrite Hloop. cbn [bind]. exists st'. split; [reflexivity|].
  assert (Hb_pre : forall q, startswith (decorated base "b" q)
                               (lettered base "b" ++ "_") = true).
  { intros q. rewrite lettered_prefix_eq. apply startswith_decorated. }
  assert (Hes' : forall k, startswith k (lettered base "b" ++ "_") = true ->
            PyDict.get es' k = None).
  { intros k Hk. destruct (PyDict.get es' k) as [e|] eqn:Hget; [|reflexivity].
    exfalso.
    destruct (Hclass k e Hget) as [[Hold _] | (q & e1 & -> & _)].
    - apply PyDictFacts.get_In, In_keys in Hold.
      destruct (stored_without_letter_spec base _ k Hstored Hold) as (_ & _ & Hb).
      congruence.
    - rewrite lettered_prefix_eq, startswith_decorated in Hk. discriminate. }
  assert (Hst1 : forall k, k <> decorated base "b" c' ->
            PyDict.get (st_entries st1) k = PyDict.get es' k).
  { intros k Hk. unfold st1; cbn [st_entries].
    apply PyDictFacts.get_set_other. congruence. }
  assert (Hst1c : PyDict.get (st_entries st1) (decorated base "b" c')
                  = Some (set_name e0 (decorated base "b" c'))).
  { unfold st1; cbn [st_entries]. apply PyDictFacts.get_set_same. }
  split; [|split].
  - intros Hne.
    destruct (Hframe (decorated base "b" q0)) as [-> | (q2 & Hin2 & Heq)].
    + rewrite Hst1; [apply Hes', Hb_pre|].
      intros Heq. apply decorated_inj in Heq. congruence.
    + apply decorated_inj in Heq. subst q2. contradiction.
  - intros Hnin. exists e0. split; [exact He0|].
    destruct (Hframe (decorated base "b" c')) as [-> | (q2 & Hin2 & Heq)].
    + exact Hst1c.
    + apply decorated_inj in Heq. subst q2. contradiction.
  - intros Hin k e Hk Hget.
    assert (Hlater : forall q2, In q2 qs -> k = decorated base "b" q2 ->
              k = decorated base "b" (charge_state e) /\ In (charge_state e) qs).
    { intros q2 Hin2 ->. destruct (Hnew q2 Hin2) as (e2 & He2 & Hget2).
      fold (decorated base "b" q2) in Hget2. rewrite Hget in Hget2.
      injection Hget2 as ->.
      destruct (get_defect_entry_fields _ _ _ _ _ He2) as (_ & Hq2 & _).
      cbn [set_name charge_state]. rewrite Hq2. now split. }
    destruct (Hframe k) as [Heq | (q2 & Hin2 & Heq)].
    + destruct (string_dec k (decorated base "b" c')) as [Hkc | Hkc].
      * exact (Hlater c' Hin Hkc).
      * rewrite Heq, Hst1, Hes' in Hget by assumption. discriminate.
    + exact (Hlater q2 Hin2 Heq).
Qed.

End NamingMore.

(** X23, at the first cadmium interstitial of CdTe, with nothing stored
    yet. *)
Lemma X23_fresh_name_stores_every_charge_state_witness :
  exists st',
    process_defect (L := CdTe.libs) CdTe.sc_matrix
      {| st_entries := []; st_naming := []; st_calls := [] |} CdTe.Cd_i_1
      = Ok st' /\
    option_map name (PyDict.get (st_entries st') "Cd_i_m1_-1")
      = Some (Some "Cd_i_m1_-1") /\
    stored_without_letter "Cd_i_m1" (st_entries st') = true.
Proof.
  destruct (X23_fresh_name_stores_every_charge_state (L := CdTe.libs)
              CdTe.sc_matrix
              {| st_entries := []; st_naming := []; st_calls := [] |}
              CdTe.Cd_i_1 "Cd_i_m1")
    as (st' & Hrun & Hnew & _ & _ & _ & Hstored).
  - reflexivity.
  - reflexivity.
  - reflexivity.
  - reflexivity.
  - unfold marked. do 3 apply Exists_cons_tl. apply Exists_cons_hd. reflexivity.
  - exists st'. split; [exact Hrun|]. split.
    + destruct (Hnew (-1)) as (e0 & _ & Hget); [vm_compute; auto|].
      change (undecorated "Cd_i_m1" (-1)) with "Cd_i_m1_-1" in Hget.
      now rewrite Hget.
    + apply Hstored. reflexivity.
Defined.

(** X24, at the second cadmium interstitial of CdTe: the renaming loop
    ends on the key [Cd_i_m1_+2], and nothing is stored under
    [Cd_i_m1b_-1]. *)
Lemma X24_first_entry_takes_the_last_renamed_charge_witness :
  exists st st',
    CdTe.after_first_interstitial = Ok st /\
    process_defect (L := CdTe.libs) CdTe.sc_matrix st CdTe.Cd_i_2 = Ok st' /\
    last_charge_under "Cd_i_m1" (st_entries st) (-1) = 2 /\
    PyDict.get (st_entries st') "Cd_i_m1b_-1" = None.
Proof.
  unfold CdTe.after_first_interstitial.
  destruct (process_defect (L := CdTe.libs) CdTe.sc_matrix
              {| st_entries := []; st_naming := []; st_calls := [] |}
              CdTe.Cd_i_1) as [st|] eqn:E;
    [|vm_compute in E; discriminate].
  assert (Hst : st_entries st =
                  map (fun q => (undecorated "Cd_i_m1" q,
                                 {| defect := CdTe.Cd_i_1; charge_state := q;
                                    sc_entry :=
                                      {| entry_structure :=
                                           {| lattice := lattice CdTe.host;
                                              sites := [CdTe.cd_site; CdTe.te_site;
                                                        site CdTe.Cd_i_1] |};
                                         energy := 0%Q |};
                                    sc_defect_frac_coords := (5#8, 5#8, 5#8)%Q;
                                    name := Some (undecorated "Cd_i_m1" q) |}))
                    [-1; 0; 1; 2] /\
                PyDict.mem (st_naming st) "Cd_i_m1" = true).
  { vm_compute in E. injection E as <-. split; reflexivity. }
  destruct Hst as [Hes Hnaming].
  assert (Hc : last_charge_under "Cd_i_m1" (st_entries st) (-1) = 2)
    by (rewrite Hes; reflexivity).
  pose proof (X24_first_entry_takes_the_last_renamed_charge (L := CdTe.libs)
                CdTe.sc_matrix st CdTe.Cd_i_2 "Cd_i_m1" eq_refl Hnaming) as H.
  cbv zeta in H.
  change (hd 0 (charge_states (oxi_state CdTe.Cd_i_2))) with (-1) in H.
  rewrite Hc in H.
  destruct H as (st' & Hrun & Hnone & _).
  - rewrite Hes. repeat constructor; simpl; intuition discriminate.
  - rewrite Hes. reflexivity.
  - unfold marked. do 3 apply Exists_cons_tl. apply Exists_cons_hd. reflexivity.
  - exists st, st'. split; [reflexivity|]. split; [exact Hrun|].
    split; [exact Hc|]. apply Hnone. discriminate.
Defined.

(** ** Construction and assignment *)

Section InitThenAssign.
Context {L : Libraries}.

(** The charge state passed to the assembler reaches the field
    [charge_state] only. *)
Lemma get_defect_entry_any_charge (d : Defect) (sc : Structure) (q q' : Z)
  (X : string) (e : DefectEntry) :
  get_defect_entry_from_defect d sc q X = Ok e ->
  exists e', get_defect_entry_from_defect d sc q' X = Ok e' /\
             sc_entry e' = sc_entry e.
Proof.
  unfold get_defect_entry_from_defect.
  destruct (find_dummy_site X (sites sc)) as [[pos x]|]; [|discriminate].
  destruct (remove_site (sites sc) pos x); cbn [bind]; [|discriminate].
  intros [= <-]. eexists. split; reflexivity.
Qed.

(** X25: an entry that a completed construction has stored passes the
    supercell check of an assignment: when the structure of its defect
    compares equal to the primitive structure, and its supercell entry
    compares equal to itself, it can be assigned under any key. *)
Theorem X25_generated_entries_can_be_assigned
  (structure0 : Structure) (extrinsic : Extrinsic)
  (interstitial_coords : list Coords) (kwargs : PyDict.t KwVal)
  (g : DefectsGenerator) (calls : list Call) (k key : string)
  (e : DefectEntry) :
  __init__ structure0 extrinsic interstitial_coords kwargs = Ok (g, calls) ->
  PyDict.get (defect_entries g) k = Some e ->
  structure_eqb (structure (defect e)) (primitive_structure g) = true ->
  sc_entry_eqb (sc_entry e) (sc_entry e) = true ->
  __setitem__ key (ObjDefectEntry e) g = (after_assignment g key e, Ok tt).
Proof.
  intros Hinit Hget Hstruct Hrefl.
  destruct (init_inversion _ _ _ _ _ _ Hinit) as (_ & (calls0 & Hgen) & _).
  unfold generate_entries in Hgen.
  apply generate_entries_built in Hgen as [Hbuilt _]; [|constructor].
  unfold all_built in Hbuilt. rewrite Forall_forall in Hbuilt.
  destruct (Hbuilt (k, e) (PyDictFacts.get_In _ _ _ Hget)) as (e0 & n & He0 & He).
  cbn [snd] in He0, He.
  destruct (get_defect_entry_any_charge _ _ _ 0 _ _ He0) as (e' & He' & Hsc).
  apply setitem_passes. split; [exact Hstruct|].
  exists e'. split; [exact He'|].
  rewrite Hsc. subst e. exact Hrefl.
Qed.

End InitThenAssign.

(** X25, at the CdTe host: the neutral cadmium vacancy is assigned under a
    second key. *)
Lemma X25_generated_entries_can_be_assigned_witness :
  exists g calls e,
    CdTe.generated = Ok (g, calls) /\
    PyDict.get (defect_entries g) "v_Cd_s0_0" = Some e /\
    snd (__setitem__ (L := CdTe.libs) "copy" (ObjDefectEntry e) g) = Ok tt.
Proof.
  unfold CdTe.generated.
  destruct (__init__ (L := CdTe.libs) CdTe.host (ExtDict []) [] [])
    as [[g calls]|] eqn:E; [|vm_compute in E; discriminate].
  assert (Hg : exists e,
             PyDict.get (defect_entries g) "v_Cd_s0_0" = Some e /\
             structure_eqb (Libraries := CdTe.libs)
               (structure (defect e)) (primitive_structure g) = true /\
             sc_entry_eqb (Libraries := CdTe.libs)
               (sc_entry e) (sc_entry e) = true).
  { vm_compute in E. injection E as <- _. eexists.
    split; [reflexivity|]. split; reflexivity. }
  destruct Hg as (e & Hget & Hstruct & Hrefl).
  exists g, calls, e. split; [reflexivity|]. split; [exact Hget|].
  now rewrite (X25_generated_entries_can_be_assigned (L := CdTe.libs)
                 CdTe.host (ExtDict []) [] [] g calls "v_Cd_s0_0" "copy" e
                 E Hget Hstruct Hrefl).
Defined.
